(** * Voice-agent session bridge: a shallow embedding and its properties

    The development follows the Python sources
      - app/services/session_manager.py   (SessionManager)
      - app/services/openai_client.py     (OpenAIClient)
      - app/services/function_handlers.py (FunctionHandlerService)
      - app/websocket/connection_manager.py (ConnectionManager)
      - app/models/schemas.py             (SessionState, OpenAISessionConfig)
      - app/websocket/handlers.py         (WebSocketHandler)
      - app/utils/health_check.py, app/main.py (the health checks)

    Python integers are unbounded and are modelled by [Z].  Python strings are
    modelled by [string], read as sequences of code points below 256.
    Decoded JSON documents are modelled by [pyval]; [json.loads] itself is a
    parameter, and what it does with a text is a [decoding]: a value,
    [json.JSONDecodeError] or another exception.  The delays of the
    reconnect loop are floats, modelled by [Q]; where the conversion to a
    float raises, so does the model.  Coroutines are modelled as functions
    in a state, output and exception monad: every handler runs from one
    suspension to its end without interleaving. *)

From Stdlib Require Import ZArith QArith Qpower Qminmax Lia Bool List Ascii String.
From stdpp Require Import base option list strings pretty gmap.
Import ListNotations.
Local Open Scope string_scope.
Local Open Scope Z_scope.
Local Open Scope list_scope.

(** ** Python values *)

Module Py.

(** A binary64 value: a finite one is [m * 2^e], kept exactly. *)
Inductive pyfloat :=
| FFinite (m e : Z)
| FInf (negative : bool)
| FNaN.

(** What [json.loads] can produce (Python's decoder also accepts the
    literals NaN, Infinity and -Infinity, and maps a number such as 1e999
    to the float infinity). *)
#[warnings="-register-all"] Inductive pyval :=
| PNone
| PBool (b : bool)
| PInt (z : Z)
| PFloat (f : pyfloat)
| PStr (s : string)
| PList (l : list pyval)
| PDict (d : list (string * pyval)).

Inductive exn :=
| ValueError
| TypeError
| OverflowError
| AttributeError
| KeyError
| RuntimeError
| RecursionError.

Inductive result (A : Type) :=
| Ok (a : A)
| Raise (e : exn).
Arguments Ok {A} a.
Arguments Raise {A} e.

(** [bool(v)]: the truth value used by [if v], [not v] and [v or d]. *)
Definition truthy (v : pyval) : bool :=
  match v with
  | PNone => false
  | PBool b => b
  | PInt z => negb (Z.eqb z 0)
  | PFloat (FFinite m _) => negb (Z.eqb m 0)
  | PFloat _ => true
  | PStr s => negb (String.eqb s "")
  | PList l => match l with [] => false | _ => true end
  | PDict d => match d with [] => false | _ => true end
  end.

(** Lookup in a dict literal: the last binding of a key wins, as in
    [json.loads] and in a dict display. *)
Fixpoint assoc_get (k : string) (d : list (string * pyval)) : option pyval :=
  match d with
  | [] => None
  | (k', v) :: d' =>
      match assoc_get k d' with
      | Some w => Some w
      | None => if String.eqb k k' then Some v else None
      end
  end.

(** [obj.get(k, default)]: an [AttributeError] unless [obj] is a dict. *)
Definition get (obj : pyval) (k : string) (dflt : pyval) : result pyval :=
  match obj with
  | PDict d => Ok (default dflt (assoc_get k d))
  | _ => Raise AttributeError
  end.

(** *** [int(value)]

    On a string [int] strips white space, then reads an optional sign and
    decimal digits in which single underscores may separate digits.  The
    white space [int] strips is not that of [str.isspace]: below 127 it is
    the six characters of C's [isspace] (tab to carriage return, and the
    space), so the separators U+001C to U+001F are not stripped; above it
    is the Unicode white space, which below 256 is U+0085 and U+00A0. *)

Definition is_space (c : ascii) : bool :=
  let n := Z.of_nat (nat_of_ascii c) in
  ((9 <=? n) && (n <=? 13)) || (n =? 32) || (n =? 133) || (n =? 160).

Definition digit_val (c : ascii) : option Z :=
  let n := Z.of_nat (nat_of_ascii c) in
  if (48 <=? n) && (n <=? 57) then Some (n - 48) else None.

Fixpoint lstrip (s : string) : string :=
  match s with
  | String c r => if is_space c then lstrip r else s
  | EmptyString => EmptyString
  end.

Definition rstrip (s : string) : string :=
  String.rev (lstrip (String.rev s)).

Definition strip (s : string) : string := rstrip (lstrip s).

(** Digits read so far: the value, how many digits, and whether the last
    character was a digit (an underscore needs one on both sides). *)
Fixpoint digits_from (s : string) (acc : Z) (n : nat) (after_digit : bool)
  : option (Z * nat) :=
  match s with
  | EmptyString => if after_digit then Some (acc, n) else None
  | String c r =>
      match digit_val c with
      | Some d => digits_from r (10 * acc + d) (S n) true
      | None =>
          if Ascii.eqb c "_"%char && after_digit
          then digits_from r acc n false
          else None
      end
  end.

(** [sys.int_max_str_digits]: longer decimal strings raise [ValueError]. *)
Definition int_max_str_digits : nat := 4300.

Definition int_of_digits (s : string) : option Z :=
  match digits_from s 0 0%nat false with
  | Some (z, n) => if Nat.leb n int_max_str_digits then Some z else None
  | None => None
  end.

Definition int_of_string (s : string) : option Z :=
  match strip s with
  | String "-" r => option_map Z.opp (int_of_digits r)
  | String "+" r => int_of_digits r
  | t => int_of_digits t
  end.

(** Truncation toward zero of the finite float [m * 2^e]. *)
Definition float_trunc (m e : Z) : Z :=
  if 0 <=? e then m * 2 ^ e else Z.quot m (2 ^ (- e)).

Definition int (v : pyval) : result Z :=
  match v with
  | PNone => Raise TypeError
  | PBool b => Ok (if b then 1 else 0)
  | PInt z => Ok z
  | PFloat (FFinite m e) => Ok (float_trunc m e)
  | PFloat (FInf _) => Raise OverflowError
  | PFloat FNaN => Raise ValueError
  | PStr s => match int_of_string s with Some z => Ok z | None => Raise ValueError end
  | PList _ | PDict _ => Raise TypeError
  end.

End Py.
Import Py.

(** ** Data model *)

(** [WebSocketMessageType] (app/models/schemas.py). *)
Module WebSocketMessageType.
Definition TWILIO_START := "start".
Definition TWILIO_MEDIA := "media".
Definition TWILIO_CLOSE := "close".
Definition TWILIO_MARK := "mark".
Definition OPENAI_SESSION_UPDATE := "session.update".
Definition OPENAI_INPUT_AUDIO_BUFFER_APPEND := "input_audio_buffer.append".
Definition OPENAI_INPUT_AUDIO_BUFFER_SPEECH_STARTED :=
  "input_audio_buffer.speech_started".
Definition OPENAI_RESPONSE_AUDIO_DELTA := "response.audio.delta".
Definition OPENAI_RESPONSE_OUTPUT_ITEM_DONE := "response.output_item.done".
Definition OPENAI_CONVERSATION_ITEM_CREATE := "conversation.item.create".
Definition OPENAI_RESPONSE_CREATE := "response.create".
Definition OPENAI_CONVERSATION_ITEM_TRUNCATE := "conversation.item.truncate".
End WebSocketMessageType.
Import WebSocketMessageType.

(** [SessionState] (app/models/schemas.py).  The model does not validate on
    assignment, so the two identifiers hold whatever the frames carried;
    the timestamps only ever receive integers or [None]. *)
Record SessionState := mkSessionState {
  stream_sid : pyval;
  latest_media_timestamp : option Z;
  response_start_timestamp : option Z;
  last_assistant_item : pyval;
  saved_config : pyval
}.

Definition SessionState_default : SessionState :=
  mkSessionState PNone None None PNone PNone.

(** A server-side socket (FastAPI [WebSocket]), named by its identity. *)
Definition WebSocket := nat.

(** The client-side transport to the speech endpoint: sending on a closed
    one raises [ConnectionClosed]. *)
Inductive transport := TOpen | TClosed.

Inductive task_state := TaskRunning | TaskDone.

(** Connection callbacks: the two the session manager installs, or any other
    coroutine, described by whether it ends by raising. *)
Inductive callback :=
| CbOpenAIConnected
| CbOpenAIDisconnected
| CbOther (raises : bool).

(** [OpenAIClient] (app/services/openai_client.py).  The delays are floats in
    the source; they are kept as exact rationals. *)
Record OpenAIClient := mkOpenAIClient {
  websocket : option transport;
  is_connected : bool;
  message_handler : bool;
  session_config : pyval;
  auto_reconnect : bool;
  max_reconnect_attempts : Z;
  reconnect_delay : Q;
  max_reconnect_delay : Q;
  current_reconnect_attempts : Z;
  reconnect_task : option task_state;
  on_connected : option callback;
  on_disconnected : option callback
}.

(** [OpenAIClient.__init__]. *)
Definition OpenAIClient_new : OpenAIClient :=
  mkOpenAIClient None false false PNone true 5 1%Q 30%Q 0 None None None.

(** [SessionManager] (app/services/session_manager.py). *)
Record SessionManager := mkSessionManager {
  state : SessionState;
  twilio_websocket : option WebSocket;
  frontend_websocket : option WebSocket;
  openai_client : option OpenAIClient
}.

Definition SessionManager_new : SessionManager :=
  mkSessionManager SessionState_default None None None.

(** Field updates. *)
Definition set_stream_sid v (s : SessionState) :=
  mkSessionState v (latest_media_timestamp s) (response_start_timestamp s)
    (last_assistant_item s) (saved_config s).
Definition set_latest_media_timestamp v (s : SessionState) :=
  mkSessionState (stream_sid s) v (response_start_timestamp s)
    (last_assistant_item s) (saved_config s).
Definition set_response_start_timestamp v (s : SessionState) :=
  mkSessionState (stream_sid s) (latest_media_timestamp s) v
    (last_assistant_item s) (saved_config s).
Definition set_last_assistant_item v (s : SessionState) :=
  mkSessionState (stream_sid s) (latest_media_timestamp s)
    (response_start_timestamp s) v (saved_config s).
Definition set_saved_config v (s : SessionState) :=
  mkSessionState (stream_sid s) (latest_media_timestamp s)
    (response_start_timestamp s) (last_assistant_item s) v.

Definition set_websocket v (c : OpenAIClient) :=
  mkOpenAIClient v (is_connected c) (message_handler c) (session_config c)
    (auto_reconnect c) (max_reconnect_attempts c) (reconnect_delay c)
    (max_reconnect_delay c) (current_reconnect_attempts c) (reconnect_task c)
    (on_connected c) (on_disconnected c).
Definition set_is_connected v (c : OpenAIClient) :=
  mkOpenAIClient (websocket c) v (message_handler c) (session_config c)
    (auto_reconnect c) (max_reconnect_attempts c) (reconnect_delay c)
    (max_reconnect_delay c) (current_reconnect_attempts c) (reconnect_task c)
    (on_connected c) (on_disconnected c).
Definition set_message_handler v (c : OpenAIClient) :=
  mkOpenAIClient (websocket c) (is_connected c) v (session_config c)
    (auto_reconnect c) (max_reconnect_attempts c) (reconnect_delay c)
    (max_reconnect_delay c) (current_reconnect_attempts c) (reconnect_task c)
    (on_connected c) (on_disconnected c).
Definition update_session_config v (c : OpenAIClient) :=
  mkOpenAIClient (websocket c) (is_connected c) (message_handler c) v
    (auto_reconnect c) (max_reconnect_attempts c) (reconnect_delay c)
    (max_reconnect_delay c) (current_reconnect_attempts c) (reconnect_task c)
    (on_connected c) (on_disconnected c).
Definition set_auto_reconnect v (c : OpenAIClient) :=
  mkOpenAIClient (websocket c) (is_connected c) (message_handler c)
    (session_config c) v (max_reconnect_attempts c) (reconnect_delay c)
    (max_reconnect_delay c) (current_reconnect_attempts c) (reconnect_task c)
    (on_connected c) (on_disconnected c).
Definition configure_reconnect (auto : bool) (max_attempts : Z)
    (initial_delay max_delay : Q) (c : OpenAIClient) :=
  mkOpenAIClient (websocket c) (is_connected c) (message_handler c)
    (session_config c) auto max_attempts initial_delay max_delay
    (current_reconnect_attempts c) (reconnect_task c)
    (on_connected c) (on_disconnected c).
Definition set_current_reconnect_attempts v (c : OpenAIClient) :=
  mkOpenAIClient (websocket c) (is_connected c) (message_handler c)
    (session_config c) (auto_reconnect c) (max_reconnect_attempts c)
    (reconnect_delay c) (max_reconnect_delay c) v (reconnect_task c)
    (on_connected c) (on_disconnected c).
Definition set_reconnect_task v (c : OpenAIClient) :=
  mkOpenAIClient (websocket c) (is_connected c) (message_handler c)
    (session_config c) (auto_reconnect c) (max_reconnect_attempts c)
    (reconnect_delay c) (max_reconnect_delay c) (current_reconnect_attempts c)
    v (on_connected c) (on_disconnected c).
Definition set_connection_callbacks (on_c on_d : option callback)
    (c : OpenAIClient) :=
  mkOpenAIClient (websocket c) (is_connected c) (message_handler c)
    (session_config c) (auto_reconnect c) (max_reconnect_attempts c)
    (reconnect_delay c) (max_reconnect_delay c) (current_reconnect_attempts c)
    (reconnect_task c) on_c on_d.

Definition set_state v (m : SessionManager) :=
  mkSessionManager v (twilio_websocket m) (frontend_websocket m) (openai_client m).
Definition set_twilio_websocket v (m : SessionManager) :=
  mkSessionManager (state m) v (frontend_websocket m) (openai_client m).
Definition set_frontend_websocket v (m : SessionManager) :=
  mkSessionManager (state m) (twilio_websocket m) v (openai_client m).
Definition set_openai_client v (m : SessionManager) :=
  mkSessionManager (state m) (twilio_websocket m) (frontend_websocket m) v.

(** ** Effects *)

(** What a handler does to the outside, in program order.  [SendMessage] is
    a call of [OpenAIClient.send_message], the command handed to the speech
    endpoint's client; the other send events are calls of a socket's send
    method with the serialised message, [OpenAISend] on the client's
    transport. *)
Inductive event :=
| SendMessage (message : pyval)
| OpenAISend (message : pyval)
| TwilioSend (ws : WebSocket) (message : pyval)
| FrontendSend (ws : WebSocket) (message : pyval)
| SocketAccept (ws : WebSocket)
| SocketClose (ws : WebSocket)
| TransportOpened
| TransportClose
| ListenStarted
| ListenEnded
| SpawnReconnect
| CancelReconnect
| Sleep (delay : Q)
| CallbackRun (raises : bool)
| LogWarning (site : string)
| LogError (site : string).

(** State, output and exceptions: a raise keeps the state and the output
    produced before it, as in Python. *)
Definition M (A : Type) : Type :=
  SessionManager -> SessionManager * list event * result A.

Definition ret {A} (a : A) : M A := fun s => (s, [], Ok a).

Definition bind {A B} (m : M A) (k : A -> M B) : M B :=
  fun s =>
    match m s with
    | (s1, o1, Ok a) =>
        match k a s1 with
        | (s2, o2, r) => (s2, (o1 ++ o2)%list, r)
        end
    | (s1, o1, Raise e) => (s1, o1, Raise e)
    end.

Definition raise {A} (e : exn) : M A := fun s => (s, [], Raise e).

(** [try: m except Exception as e: h e]. *)
Definition try_except {A} (m : M A) (h : exn -> M A) : M A :=
  fun s =>
    match m s with
    | (s1, o1, Ok a) => (s1, o1, Ok a)
    | (s1, o1, Raise e) =>
        match h e s1 with
        | (s2, o2, r) => (s2, (o1 ++ o2)%list, r)
        end
    end.

Definition emit (ev : event) : M unit := fun s => (s, [ev], Ok tt).
Definition get_self : M SessionManager := fun s => (s, [], Ok s).
Definition modify (f : SessionManager -> SessionManager) : M unit :=
  fun s => (f s, [], Ok tt).
Definition lift {A} (r : result A) : M A := fun s => (s, [], r).

Declare Scope m_scope.
Delimit Scope m_scope with M.
Notation "x <-- m ;; k" := (bind m (fun x => k))
  (at level 20, m at level 99, k at level 200, only parsing) : m_scope.
Notation "m ;;; k" := (bind m (fun _ => k))
  (at level 100, k at level 200, only parsing, right associativity) : m_scope.
Local Open Scope m_scope.

Definition modify_state (f : SessionState -> SessionState) : M unit :=
  modify (fun s => set_state (f (state s)) s).

(** The client's methods run on the object held in [openai_client]. *)
Definition get_client : M OpenAIClient :=
  s <-- get_self ;;
  match openai_client s with
  | Some c => ret c
  | None => raise AttributeError
  end.

Definition modify_client (f : OpenAIClient -> OpenAIClient) : M unit :=
  modify (fun s => set_openai_client (option_map f (openai_client s)) s).

Definition run {A} (m : M A) (s : SessionManager) := m s.
Definition final {A} (x : SessionManager * list event * result A) := fst (fst x).
Definition output {A} (x : SessionManager * list event * result A) := snd (fst x).
Definition outcome {A} (x : SessionManager * list event * result A) := snd x.

(** [str == member] for a [str]-valued enum member. *)
Definition eq_str (v : pyval) (s : string) : bool :=
  match v with
  | PStr t => String.eqb t s
  | _ => false
  end.

(** ** SessionManager: sending *)

(** [_send_to_twilio]: a failing send is logged and dropped. *)
Definition _send_to_twilio (message : pyval) : M unit :=
  s <-- get_self ;;
  match twilio_websocket s with
  | Some ws => emit (TwilioSend ws message)
  | None => ret tt
  end.

(** [_send_to_frontend]. *)
Definition _send_to_frontend (message : pyval) : M unit :=
  s <-- get_self ;;
  match frontend_websocket s with
  | Some ws => emit (FrontendSend ws message)
  | None => ret tt
  end.

(** [_on_openai_connected] and [_on_openai_disconnected]. *)
Definition _on_openai_connected : M unit :=
  _send_to_frontend (PDict [("type", PStr "connection_status");
                            ("status", PStr "openai_connected");
                            ("message", PStr "OpenAI connection established")]).

Definition _on_openai_disconnected : M unit :=
  _send_to_frontend (PDict [("type", PStr "connection_status");
                            ("status", PStr "openai_disconnected");
                            ("message", PStr "OpenAI connection lost, reconnecting...")]).

Definition run_callback (cb : callback) : M unit :=
  match cb with
  | CbOpenAIConnected => _on_openai_connected
  | CbOpenAIDisconnected => _on_openai_disconnected
  | CbOther raises =>
      emit (CallbackRun raises) ;;;
      if raises then raise RuntimeError else ret tt
  end.

(** ** OpenAIClient: sending and the disconnection path *)

(** [_start_reconnect]: the loop runs as a task of its own. *)
Definition _start_reconnect : M unit :=
  c <-- get_client ;;
  match reconnect_task c with
  | Some TaskRunning => ret tt
  | _ =>
      modify_client (set_reconnect_task (Some TaskRunning)) ;;;
      emit SpawnReconnect
  end.

(** [_handle_disconnection]. *)
Definition _handle_disconnection : M unit :=
  c <-- get_client ;;
  if is_connected c then
    modify_client (set_is_connected false) ;;;
    emit (LogWarning "OpenAI connection lost") ;;;
    match on_disconnected c with
    | Some cb =>
        try_except (run_callback cb)
          (fun _ => emit (LogError "Error in disconnection callback"))
    | None => ret tt
    end ;;;
    c' <-- get_client ;;
    if auto_reconnect c' then _start_reconnect else ret tt
  else ret tt.

(** [_handle_connection_failure]. *)
Definition _handle_connection_failure : M unit :=
  c <-- get_client ;;
  if auto_reconnect c then _start_reconnect else ret tt.

(** [send_message]: nothing is sent unless the client is connected and has a
    transport; a closed transport raises [ConnectionClosed], which takes the
    disconnection path. *)
Definition send_message (message : pyval) : M bool :=
  emit (SendMessage message) ;;;
  c <-- get_client ;;
  match is_connected c, websocket c with
  | true, Some TOpen => emit (OpenAISend message) ;;; ret true
  | true, Some TClosed =>
      emit (LogError "OpenAI websocket connection error") ;;;
      _handle_disconnection ;;;
      ret false
  | _, _ => emit (LogWarning "OpenAI websocket not connected") ;;; ret false
  end.

(** ** SessionManager: media timing and barge-in *)

(** [_safe_int(value, default=0)]: only [ValueError] and [TypeError] are
    caught. *)
Definition _safe_int (value : pyval) : result Z :=
  match value with
  | PNone => Ok 0
  | _ =>
      match int value with
      | Ok z => Ok z
      | Raise ValueError | Raise TypeError => Ok 0
      | Raise e => Raise e
      end
  end.

Definition of_optional_int (o : option Z) : pyval :=
  match o with
  | Some z => PInt z
  | None => PNone
  end.

Definition truncate_message (item : pyval) (audio_end_ms : Z) : pyval :=
  PDict [("type", PStr OPENAI_CONVERSATION_ITEM_TRUNCATE);
         ("item_id", item);
         ("content_index", PInt 0);
         ("audio_end_ms", PInt audio_end_ms)].

Definition clear_message (sid : pyval) : pyval :=
  PDict [("event", PStr "clear"); ("streamSid", sid)].

(** [x is None]. *)
Definition is_None {A} (o : option A) : bool :=
  match o with
  | Some _ => false
  | None => true
  end.

(** The guard of [_handle_truncation]. *)
Definition nothing_to_truncate (st : SessionState) : bool :=
  negb (truthy (last_assistant_item st))
  || is_None (response_start_timestamp st).

(** [_handle_truncation]. *)
Definition _handle_truncation : M unit :=
  s <-- get_self ;;
  if nothing_to_truncate (state s) then ret tt
  else
    latest_timestamp <-- lift (_safe_int (of_optional_int (latest_media_timestamp (state s)))) ;;
    response_timestamp <-- lift (_safe_int (of_optional_int (response_start_timestamp (state s)))) ;;
    let elapsed_ms := latest_timestamp - response_timestamp in
    let audio_end_ms := Z.max elapsed_ms 0 in
    match openai_client s with
    | Some _ =>
        _ok <-- send_message (truncate_message (last_assistant_item (state s)) audio_end_ms) ;;
        ret tt
    | None => ret tt
    end ;;;
    s' <-- get_self ;;
    match twilio_websocket s' with
    | Some _ =>
        if truthy (stream_sid (state s'))
        then _send_to_twilio (clear_message (stream_sid (state s')))
        else ret tt
    | None => ret tt
    end ;;;
    modify_state (set_last_assistant_item PNone) ;;;
    modify_state (set_response_start_timestamp None).

(** [_handle_speech_started]. *)
Definition _handle_speech_started : M unit := _handle_truncation.

Definition media_message (sid payload : pyval) : pyval :=
  PDict [("event", PStr "media"); ("streamSid", sid);
         ("media", PDict [("payload", payload)])].

Definition mark_message (sid : pyval) : pyval :=
  PDict [("event", PStr "mark"); ("streamSid", sid)].

(** [latest_media_timestamp or 0]. *)
Definition or_zero (o : option Z) : Z :=
  match o with
  | Some z => if truthy (PInt z) then z else 0
  | None => 0
  end.

(** [_handle_audio_delta]. *)
Definition _handle_audio_delta (message : pyval) : M unit :=
  s <-- get_self ;;
  match twilio_websocket s, truthy (stream_sid (state s)) with
  | Some _, true =>
      match response_start_timestamp (state s) with
      | None =>
          modify_state (set_response_start_timestamp
                          (Some (or_zero (latest_media_timestamp (state s)))))
      | Some _ => ret tt
      end ;;;
      item_id <-- lift (get message "item_id" PNone) ;;
      (if truthy item_id
       then modify_state (set_last_assistant_item item_id)
       else ret tt) ;;;
      audio_payload <-- lift (get message "delta" (PStr "")) ;;
      if truthy audio_payload then
        _send_to_twilio (media_message (stream_sid (state s)) audio_payload) ;;;
        _send_to_twilio (mark_message (stream_sid (state s)))
      else ret tt
  | _, _ => ret tt
  end.

Definition append_message (payload : pyval) : pyval :=
  PDict [("type", PStr OPENAI_INPUT_AUDIO_BUFFER_APPEND); ("audio", payload)].

(** [_handle_twilio_media]. *)
Definition _handle_twilio_media (message : pyval) : M unit :=
  media_data <-- lift (get message "media" (PDict [])) ;;
  timestamp <-- lift (get media_data "timestamp" (PInt 0)) ;;
  t <-- lift (_safe_int timestamp) ;;
  modify_state (set_latest_media_timestamp (Some t)) ;;;
  s <-- get_self ;;
  match openai_client s with
  | Some c =>
      if is_connected c then
        payload <-- lift (get media_data "payload" (PStr "")) ;;
        _ok <-- send_message (append_message payload) ;;
        ret tt
      else ret tt
  | None => ret tt
  end.

(** ** JSON text for error results *)

Module Json.

Definition dquote : ascii := "034"%char.
Definition backslash : ascii := "092"%char.

Definition hex_digit (n : nat) : ascii :=
  nth n (list_ascii_of_string "0123456789abcdef") "0"%char.

(** [json.dumps] of one character with [ensure_ascii]: printable ASCII is
    kept, the rest is escaped. *)
Definition escape_char (c : ascii) : string :=
  let n := nat_of_ascii c in
  if Nat.eqb n 34 then String backslash (String dquote "")
  else if Nat.eqb n 92 then String backslash (String backslash "")
  else if Nat.eqb n 10 then String backslash "n"
  else if Nat.eqb n 13 then String backslash "r"
  else if Nat.eqb n 9 then String backslash "t"
  else if Nat.eqb n 8 then String backslash "b"
  else if Nat.eqb n 12 then String backslash "f"
  else if Nat.leb 32 n && Nat.leb n 126 then String c ""
  else String backslash
         (String "u" (String "0" (String "0"
            (String (hex_digit (n / 16)) (String (hex_digit (n mod 16)) ""))))).

Fixpoint escape (s : string) : string :=
  match s with
  | EmptyString => EmptyString
  | String c r => escape_char c +:+ escape r
  end.

(** [json.dumps(s)] for a string. *)
Definition dumps_str (s : string) : string :=
  String dquote (escape s +:+ String dquote "").

(** [json.dumps({"error": text})]. *)
Definition dumps_error (text : string) : string :=
  "{" +:+ dumps_str "error" +:+ ": " +:+ dumps_str text +:+ "}".

(** *** A reader for JSON objects whose members are strings (RFC 8259) *)

Definition hex_val (c : ascii) : option nat :=
  let n := nat_of_ascii c in
  if Nat.leb 48 n && Nat.leb n 57 then Some (n - 48)%nat
  else if Nat.leb 97 n && Nat.leb n 102 then Some (n - 87)%nat
  else if Nat.leb 65 n && Nat.leb n 70 then Some (n - 55)%nat
  else None.

Definition simple_escape (c : ascii) : option ascii :=
  let n := nat_of_ascii c in
  if Nat.eqb n 34 then Some dquote
  else if Nat.eqb n 92 then Some backslash
  else if Nat.eqb n 47 then Some "/"%char
  else if Nat.eqb n 98 then Some "008"%char
  else if Nat.eqb n 102 then Some "012"%char
  else if Nat.eqb n 110 then Some "010"%char
  else if Nat.eqb n 114 then Some "013"%char
  else if Nat.eqb n 116 then Some "009"%char
  else None.

Definition cons_char (c : ascii) (r : option (string * string))
  : option (string * string) :=
  match r with
  | Some (s, rest) => Some (String c s, rest)
  | None => None
  end.

(** The characters of a string literal after its opening quote: the decoded
    text and what follows the closing quote.  Escapes of code points from
    256 on are outside the string model and are refused. *)
Fixpoint read_chars (s : string) : option (string * string) :=
  match s with
  | EmptyString => None
  | String c r =>
      if Ascii.eqb c dquote then Some (EmptyString, r)
      else if Ascii.eqb c backslash then
        match r with
        | String e r' =>
            if Ascii.eqb e "u" then
              match r' with
              | String h1 (String h2 (String h3 (String h4 r''))) =>
                  match hex_val h1, hex_val h2, hex_val h3, hex_val h4 with
                  | Some 0%nat, Some 0%nat, Some a, Some b =>
                      cons_char (ascii_of_nat (16 * a + b)) (read_chars r'')
                  | _, _, _, _ => None
                  end
              | _ => None
              end
            else
              match simple_escape e with
              | Some d => cons_char d (read_chars r')
              | None => None
              end
        | EmptyString => None
        end
      else if Nat.ltb (nat_of_ascii c) 32 then None
      else cons_char c (read_chars r)
  end.

Definition read_string (s : string) : option (string * string) :=
  match s with
  | String c r => if Ascii.eqb c dquote then read_chars r else None
  | EmptyString => None
  end.

Definition is_ws (c : ascii) : bool :=
  let n := nat_of_ascii c in
  Nat.eqb n 32 || Nat.eqb n 9 || Nat.eqb n 10 || Nat.eqb n 13.

Fixpoint skip_ws (s : string) : string :=
  match s with
  | String c r => if is_ws c then skip_ws r else s
  | EmptyString => EmptyString
  end.

(** One member [key : value], with white space around the tokens. *)
Definition read_member (s : string) : option (string * string * string) :=
  match read_string (skip_ws s) with
  | Some (k, r) =>
      match skip_ws r with
      | String ":" r' =>
          match read_string (skip_ws r') with
          | Some (v, r'') => Some (k, v, skip_ws r'')
          | None => None
          end
      | _ => None
      end
  | None => None
  end.

(** Members up to the closing brace, which must end the text. *)
Fixpoint read_members (fuel : nat) (s : string) : option (list (string * string)) :=
  match fuel with
  | O => None
  | S fuel' =>
      match read_member s with
      | Some (k, v, String "}" r) =>
          if String.eqb (skip_ws r) "" then Some [(k, v)] else None
      | Some (k, v, String "," r) =>
          option_map (cons (k, v)) (read_members fuel' r)
      | _ => None
      end
  end.

Definition read_object (s : string) : option (list (string * string)) :=
  match skip_ws s with
  | String "{" r =>
      match skip_ws r with
      | String "}" r' => if String.eqb (skip_ws r') "" then Some [] else None
      | _ => read_members (String.length r) r
      end
  | _ => None
  end.

(** The text is a JSON object with string members, [key] among them. *)
Definition is_object_with_key (key : string) (s : string) : Prop :=
  exists members text,
    read_object s = Some members /\ In (key, text) members.

End Json.

(** ** FunctionHandlerService (app/services/function_handlers.py) *)

(** A registered coroutine, run on the decoded arguments: it returns a text
    or raises an exception whose [str] is given. *)
Inductive handler_outcome :=
| Returned (text : string)
| Raised (text : string).

Definition handler := pyval -> handler_outcome.

(** What [json.loads] does with a text.  It returns the decoded value, or
    raises [json.JSONDecodeError] on a text that is no JSON document, or
    raises another exception: [RecursionError] on a text nested deeper than
    the interpreter's recursion limit, [ValueError] on an integer literal of
    more digits than the interpreter converts (4300 by default). *)
Inductive decoding :=
| Decoded (value : pyval)
| JSONDecodeError
| DecodingRaises (e : exn).

(** The service object; [schemas] is read by [get_function_schemas] only and
    is left out. *)
Record FunctionHandlerService := mkFunctionHandlerService {
  handlers : gmap string handler
}.

(** [register_function]. *)
Definition register_function (name : string) (h : handler)
    (svc : FunctionHandlerService) : FunctionHandlerService :=
  mkFunctionHandlerService (<[name := h]> (handlers svc)).

Definition type_name (v : pyval) : string :=
  match v with
  | PNone => "NoneType"
  | PBool _ => "bool"
  | PInt _ => "int"
  | PFloat _ => "float"
  | PStr _ => "str"
  | PList _ => "list"
  | PDict _ => "dict"
  end.

(** [_get_weather_handler]; [weather_lookup] is the HTTP exchange, which
    itself never raises and yields a JSON text.  Reading the arguments
    raises when they are not a dict. *)
Definition _get_weather_handler (weather_lookup : pyval -> pyval -> string)
  : handler :=
  fun args =>
    match get args "latitude" PNone, get args "longitude" PNone with
    | Ok latitude, Ok longitude =>
        match latitude, longitude with
        | PNone, _ | _, PNone =>
            Returned (Json.dumps_error "Missing latitude or longitude")
        | _, _ => Returned (weather_lookup latitude longitude)
        end
    | _, _ =>
        Raised ("'" +:+ type_name args +:+ "' object has no attribute 'get'")
    end.

(** [FunctionHandlerService.__init__]. *)
Definition FunctionHandlerService_new (weather_lookup : pyval -> pyval -> string)
  : FunctionHandlerService :=
  register_function "get_weather_from_coords" (_get_weather_handler weather_lookup)
    (mkFunctionHandlerService ∅).

(** [name in self.handlers]: lists and dicts are unhashable, other values
    that are not strings are no key of the registry. *)
Definition lookup_handler (svc : FunctionHandlerService) (name : pyval)
  : result (option handler) :=
  match name with
  | PStr s => Ok (handlers svc !! s)
  | PList _ | PDict _ => Raise TypeError
  | _ => Ok None
  end.

Definition function_call_output_message (call_id : pyval) (result_text : string) : pyval :=
  PDict [("type", PStr OPENAI_CONVERSATION_ITEM_CREATE);
         ("item", PDict [("type", PStr "function_call_output");
                         ("call_id", call_id);
                         ("output", PStr result_text)])].

Definition response_create_message : pyval :=
  PDict [("type", PStr OPENAI_RESPONSE_CREATE)].

(** ** OpenAIClient: session configuration *)

(** [OpenAISessionConfig] (app/models/schemas.py): the fields with their
    defaults, in declaration order. *)
Definition OpenAISessionConfig_defaults : list (string * pyval) :=
  [("modalities", PList [PStr "text"; PStr "audio"]);
   ("turn_detection", PDict [("type", PStr "server_vad")]);
   ("voice", PStr "ash");
   ("input_audio_transcription", PDict [("model", PStr "whisper-1")]);
   ("input_audio_format", PStr "g711_ulaw");
   ("output_audio_format", PStr "g711_ulaw")].

Definition is_str (v : pyval) : bool :=
  match v with PStr _ => true | _ => false end.

(** Field validation of the model (pydantic 2 defaults): [str],
    [List[str]] and [Dict[str, str]] accept exactly such values. *)
Definition field_valid (name : string) (v : pyval) : bool :=
  if String.eqb name "modalities" then
    match v with PList l => forallb is_str l | _ => false end
  else if String.eqb name "turn_detection"
          || String.eqb name "input_audio_transcription" then
    match v with PDict d => forallb (fun kv => is_str (snd kv)) d | _ => false end
  else is_str v.

(** The keys of a dict literal, each once, in first-insertion order. *)
Fixpoint dict_keys (d : list (string * pyval)) : list string :=
  match d with
  | [] => []
  | (k, _) :: d' => k :: List.filter (fun k' => negb (String.eqb k k')) (dict_keys d')
  end.

(** One element of the sequence given to [dict.update]: it must itself be
    a sequence of length two. *)
Definition update_pair (e : pyval) : result (pyval * pyval) :=
  match e with
  | PList [k; v] => Ok (k, v)
  | PStr (String a (String b EmptyString)) =>
      Ok (PStr (String a EmptyString), PStr (String b EmptyString))
  | PDict d =>
      match dict_keys d with
      | [k; v] => Ok (PStr k, PStr v)
      | _ => Raise ValueError
      end
  | PList _ | PStr _ => Raise ValueError
  | _ => Raise TypeError
  end.

(** [session_data.update(config)] for a list: every element is read as a
    pair, and a key must be hashable. *)
Fixpoint update_pairs (l : list pyval) : result (list (pyval * pyval)) :=
  match l with
  | [] => Ok []
  | e :: l' =>
      match update_pair e with
      | Raise x => Raise x
      | Ok (PList _, _) | Ok (PDict _, _) => Raise TypeError
      | Ok kv =>
          match update_pairs l' with
          | Raise x => Raise x
          | Ok r => Ok (kv :: r)
          end
      end
  end.

(** The keyword call of [OpenAISessionConfig]: keywords must be strings. *)
Fixpoint keyword_items (l : list (pyval * pyval)) : result (list (string * pyval)) :=
  match l with
  | [] => Ok []
  | (PStr s, v) :: l' =>
      match keyword_items l' with
      | Raise x => Raise x
      | Ok r => Ok ((s, v) :: r)
      end
  | _ :: _ => Raise TypeError
  end.

(** What [self.session_config or {}] adds to the defaults. *)
Definition config_items (config : pyval) : result (list (string * pyval)) :=
  if negb (truthy config) then Ok []
  else
    match config with
    | PDict d => Ok d
    | PList l =>
        match update_pairs l with
        | Raise x => Raise x
        | Ok r => keyword_items r
        end
    | PStr _ => Raise ValueError
    | _ => Raise TypeError
    end.

(** The validated model, dumped again: the six fields, each taken from the
    caller's configuration when present there and from the defaults
    otherwise; other keys are ignored by the model. *)
Definition merged_field (items : list (string * pyval)) (f : string * pyval)
  : string * pyval :=
  (fst f, default (snd f) (assoc_get (fst f) items)).

Definition session_of_config (config : pyval) : result pyval :=
  match config_items config with
  | Raise x => Raise x
  | Ok items =>
      let session := map (merged_field items) OpenAISessionConfig_defaults in
      if forallb (fun kv => field_valid (fst kv) (snd kv)) session
      then Ok (PDict session)
      else Raise ValueError
  end.

Definition session_update_message (session : pyval) : pyval :=
  PDict [("type", PStr OPENAI_SESSION_UPDATE); ("session", session)].

(** [_send_session_update]. *)
Definition _send_session_update : M unit :=
  c <-- get_client ;;
  session <-- lift (session_of_config (session_config c)) ;;
  _ok <-- send_message (session_update_message session) ;;
  ret tt.

(** ** OpenAIClient: connecting *)

(** How the frames of one connection end: the peer closes normally (the
    iteration stops), the connection breaks ([ConnectionClosed] is raised),
    or reading fails otherwise. *)
Inductive stream_end := ClosedOK | ClosedError | ReadFailed.

(** What the network does on one [websockets.connect]: it fails, or it
    opens and delivers frames until the stream ends.  A frame is given by
    what [json.loads] does with its text. *)
Inductive opening :=
| OpenFails
| Opened (frames : list decoding) (ending : stream_end).

(** [disconnect]; a cancelled task is done only once it has run again. *)
Definition disconnect (disable_reconnect : bool) : M unit :=
  (if disable_reconnect then modify_client (set_auto_reconnect false) else ret tt) ;;;
  modify_client (set_is_connected false) ;;;
  c <-- get_client ;;
  match reconnect_task c with
  | Some TaskRunning => emit CancelReconnect
  | _ => ret tt
  end ;;;
  match websocket c with
  | Some _ => emit TransportClose ;;; modify_client (set_websocket None)
  | None => ret tt
  end.

(** ** OpenAIClient: the reconnect loop *)

(** [min(a, b)] on two numbers. *)
Definition py_min (a b : Q) : Q := if Qle_bool a b then a else b.

(** The value of
    [min(reconnect_delay * 2 ** (attempts - 1), max_reconnect_delay)]
    when the power converts to a float.  The delays are floats, read here as
    the rationals they are.  The product of a float by a power of two is
    exact, or overflows to infinity, whose minimum with the ceiling is the
    ceiling, as is that of the exact product: the value below is the float
    the interpreter computes when the initial delay and the exponent are not
    negative. *)
Definition capped_delay (c : OpenAIClient) (attempts : Z) : Q :=
  py_min (reconnect_delay c * Qpower 2 (attempts - 1)) (max_reconnect_delay c).

(** The delay computed before attempt number [attempts].  [2 ** k] is an
    integer of any size, which the product converts to a float: from
    [2 ** 1024] on the conversion raises [OverflowError]. *)
Definition backoff_delay (c : OpenAIClient) (attempts : Z) : result Q :=
  if 1024 <=? attempts - 1 then Raise OverflowError
  else Ok (capped_delay c attempts).

(** What happens during one backoff sleep: it ends and the network answers
    the next [connect], or the task is cancelled. *)
Inductive wake :=
| Woke (net : opening)
| Cancelled.

Inductive loop_exit :=
| LoopFinished
| LoopPending.   (* the script of wakes ran out before the loop ended *)

Definition loop_condition (c : OpenAIClient) : bool :=
  auto_reconnect c
  && (current_reconnect_attempts c <? max_reconnect_attempts c)
  && negb (is_connected c).

(** The lines after the [while] of [_reconnect_loop]; the task is done
    when they have run. *)
Definition _reconnect_loop_end : M loop_exit :=
  c <-- get_client ;;
  (if (max_reconnect_attempts c <=? current_reconnect_attempts c)
      && negb (is_connected c)
   then emit (LogError "Failed to reconnect")
   else ret tt) ;;;
  modify_client (set_reconnect_task (Some TaskDone)) ;;;
  ret LoopFinished.

(** ** SessionManager: connections *)

(** [_cleanup_twilio_connection], [_cleanup_frontend_connection] and
    [_cleanup_openai_connection]. *)
Definition _cleanup_twilio_connection : M unit :=
  s <-- get_self ;;
  match twilio_websocket s with
  | Some ws => emit (SocketClose ws) ;;; modify (set_twilio_websocket None)
  | None => ret tt
  end.

Definition _cleanup_frontend_connection : M unit :=
  s <-- get_self ;;
  match frontend_websocket s with
  | Some ws => emit (SocketClose ws) ;;; modify (set_frontend_websocket None)
  | None => ret tt
  end.

Definition _cleanup_openai_connection : M unit :=
  s <-- get_self ;;
  match openai_client s with
  | Some _ => disconnect true ;;; modify (set_openai_client None)
  | None => ret tt
  end.

(** [disconnect_all]. *)
Definition disconnect_all : M unit :=
  _cleanup_twilio_connection ;;;
  _cleanup_frontend_connection ;;;
  _cleanup_openai_connection ;;;
  modify (set_state SessionState_default).

(** [_handle_twilio_close]. *)
Definition _handle_twilio_close : M unit := disconnect_all.

(** [handle_twilio_connection] and [handle_frontend_connection]. *)
Definition handle_twilio_connection (ws : WebSocket) : M unit :=
  _cleanup_twilio_connection ;;; modify (set_twilio_websocket (Some ws)).

Definition handle_frontend_connection (ws : WebSocket) : M unit :=
  _cleanup_frontend_connection ;;; modify (set_frontend_websocket (Some ws)).

(** [handle_frontend_message]. *)
Definition handle_frontend_message (message : pyval) : M unit :=
  s <-- get_self ;;
  match openai_client s with
  | Some _ => _ok <-- send_message message ;; ret tt
  | None => ret tt
  end ;;;
  message_type <-- lift (get message "type" PNone) ;;
  if eq_str message_type OPENAI_SESSION_UPDATE then
    session <-- lift (get message "session" (PDict [])) ;;
    modify_state (set_saved_config session)
  else ret tt.

(** ** ConnectionManager (app/websocket/connection_manager.py) *)

Module ConnectionManager.

Record t := mk {
  active_connections : gmap string (list WebSocket);
  connection_types : gmap WebSocket string
}.

(** [ConnectionManager.__init__]. *)
Definition new : t :=
  mk (<["logs" := []]> (<["call" := []]> ∅)) ∅.

(** One of the two eviction blocks of [connect]: when the new connection
    has this role and the role's list is not empty, every connection in it
    is closed and the list is cleared. *)
Definition evict (role connection_type : string) (cm : t)
  : result (t * list event) :=
  if String.eqb connection_type role then
    match active_connections cm !! role with
    | None => Raise KeyError
    | Some [] => Ok (cm, [])
    | Some olds =>
        Ok (mk (<[role := []]> (active_connections cm)) (connection_types cm),
            map SocketClose olds)
    end
  else Ok (cm, []).

(** [connect]: the state and the output are those reached when it returns
    or raises. *)
Definition connect (websocket : WebSocket) (connection_type : string) (cm : t)
  : t * list event * result unit :=
  match evict "call" connection_type cm with
  | Raise e => (cm, [SocketAccept websocket], Raise e)
  | Ok (cm1, o1) =>
      match evict "logs" connection_type cm1 with
      | Raise e => (cm1, SocketAccept websocket :: o1, Raise e)
      | Ok (cm2, o2) =>
          match active_connections cm2 !! connection_type with
          | None => (cm2, SocketAccept websocket :: o1 ++ o2, Raise KeyError)
          | Some l =>
              (mk (<[connection_type := l ++ [websocket]]> (active_connections cm2))
                  (<[websocket := connection_type]> (connection_types cm2)),
               SocketAccept websocket :: o1 ++ o2, Ok tt)
          end
      end
  end.

(** [list.remove]: the first occurrence. *)
Fixpoint remove_first (x : WebSocket) (l : list WebSocket) : list WebSocket :=
  match l with
  | [] => []
  | y :: l' => if Nat.eqb x y then l' else y :: remove_first x l'
  end.

(** [disconnect]: a connection whose type is known and which is in the list
    of that type is removed from both. *)
Definition disconnect (websocket : WebSocket) (cm : t) : t * result unit :=
  match connection_types cm !! websocket with
  | None => (cm, Ok tt)
  | Some connection_type =>
      if String.eqb connection_type "" then (cm, Ok tt)
      else
        match active_connections cm !! connection_type with
        | None => (cm, Raise KeyError)
        | Some l =>
            if existsb (Nat.eqb websocket) l then
              (mk (<[connection_type := remove_first websocket l]> (active_connections cm))
                  (delete websocket (connection_types cm)),
               Ok tt)
            else (cm, Ok tt)
        end
  end.

(** [get_connection_count] and [get_active_connection]. *)
Definition get_connection_count (connection_type : string) (cm : t) : nat :=
  length (default [] (active_connections cm !! connection_type)).

Definition get_active_connection (connection_type : string) (cm : t)
  : option WebSocket :=
  head (default [] (active_connections cm !! connection_type)).

(** The operations the dispatchers perform on the registry. *)
Inductive op :=
| Accept (websocket : WebSocket) (connection_type : string)
| Release (websocket : WebSocket).

Definition step (cm : t) (o : op) : t :=
  match o with
  | Accept ws ty => fst (fst (connect ws ty cm))
  | Release ws => fst (disconnect ws cm)
  end.

Definition run (ops : list op) (cm : t) : t := fold_left step ops cm.

(** Both roles are present and hold at most one connection. *)
Definition single_occupancy (cm : t) : Prop :=
  exists lc ll,
    active_connections cm !! "call" = Some lc
    /\ active_connections cm !! "logs" = Some ll
    /\ (length lc <= 1)%nat /\ (length ll <= 1)%nat.

Definition is_role (connection_type : string) : Prop :=
  connection_type = "call" \/ connection_type = "logs".

(** [send_to_connection]; [fails ws] tells whether [send_text] raises on
    [ws], and the output lists the calls of [send_text]. *)
Definition send_to_connection (fails : WebSocket -> bool) (websocket : WebSocket)
    (message : string) (cm : t) : t * list (WebSocket * string) * result unit :=
  if fails websocket then
    match disconnect websocket cm with
    | (cm', r) => (cm', [(websocket, message)], r)
    end
  else (cm, [(websocket, message)], Ok tt).

(** The clean-up loop of [broadcast_to_type]. *)
Fixpoint disconnect_each (l : list WebSocket) (cm : t) : t * result unit :=
  match l with
  | [] => (cm, Ok tt)
  | ws :: l' =>
      match disconnect ws cm with
      | (cm', Ok _) => disconnect_each l' cm'
      | (cm', Raise e) => (cm', Raise e)
      end
  end.

(** [broadcast_to_type]: every connection of the type is sent the message,
    then those whose send raised are disconnected. *)
Definition broadcast_to_type (fails : WebSocket -> bool) (connection_type : string)
    (message : string) (cm : t) : t * list (WebSocket * string) * result unit :=
  match active_connections cm !! connection_type with
  | None => (cm, [], Ok tt)
  | Some l =>
      match disconnect_each (List.filter fails l) cm with
      | (cm', r) => (cm', map (fun ws => (ws, message)) l, r)
      end
  end.


(** Every connection the registry has a type for is typed by a key of
    [active_connections]. *)
Definition typed (cm : t) : Prop :=
  forall ws ty,
    connection_types cm !! ws = Some ty -> active_connections cm !! ty <> None.

(** The keys of [active_connections] are kept. *)
Definition keeps_keys (cm cm' : t) : Prop :=
  forall ty, active_connections cm !! ty <> None ->
             active_connections cm' !! ty <> None.

End ConnectionManager.

(** * Health checks (app/utils/health_check.py, app/main.py) *)

Module HealthCheck.

(** [HealthStatus], without its timestamp. *)
Record HealthStatus := mkHealthStatus {
  service : string;
  status : string;
  message : string;
  details : option (list (string * nat))
}.

(** What [len(obj.name)] meets: an attribute holding a dict, an attribute
    of a type without a length, or no attribute of that name. *)
Inductive attribute :=
| Sized (n : nat)
| Unsized (type_name : string)
| Missing.

(** The attributes of the registry singleton: the two dicts [__init__]
    sets, and the methods of the class. *)
Definition connection_manager_attribute (cm : ConnectionManager.t)
    (name : string) : attribute :=
  if String.eqb name "active_connections"
  then Sized (size (ConnectionManager.active_connections cm))
  else if String.eqb name "connection_types"
  then Sized (size (ConnectionManager.connection_types cm))
  else if existsb (String.eqb name)
            ["connect"; "disconnect"; "send_to_connection"; "broadcast_to_type";
             "get_connection_count"; "get_active_connection";
             "_disconnect_websocket"]
  then Unsized "method"
  else Missing.

(** The attributes of the session manager singleton: the four [__init__]
    sets, none of which has a length, and the methods of the class. *)
Definition session_manager_attribute (sm : SessionManager) (name : string)
  : attribute :=
  if String.eqb name "state" then Unsized "SessionState"
  else if String.eqb name "twilio_websocket" then
    Unsized (match twilio_websocket sm with Some _ => "WebSocket" | None => "NoneType" end)
  else if String.eqb name "frontend_websocket" then
    Unsized (match frontend_websocket sm with Some _ => "WebSocket" | None => "NoneType" end)
  else if String.eqb name "openai_client" then
    Unsized (match openai_client sm with Some _ => "OpenAIClient" | None => "NoneType" end)
  else if existsb (String.eqb name)
            ["handle_twilio_connection"; "handle_frontend_connection";
             "handle_twilio_message"; "handle_frontend_message";
             "handle_openai_message"; "disconnect_all"; "_safe_int";
             "_handle_twilio_start"; "_handle_twilio_media";
             "_handle_twilio_close"; "_handle_speech_started";
             "_handle_audio_delta"; "_handle_output_item_done";
             "_handle_function_call"; "_handle_truncation";
             "_try_connect_openai"; "_send_to_twilio"; "_send_to_frontend";
             "_cleanup_twilio_connection"; "_cleanup_frontend_connection";
             "_cleanup_openai_connection"; "_on_openai_connected";
             "_on_openai_disconnected"]
  then Unsized "method"
  else Missing.

(** [len(obj.name)]: the length, or [str] of the exception raised. *)
Definition len_attribute (class_name : string) (a : attribute) (name : string)
  : string + nat :=
  match a with
  | Sized n => inr n
  | Unsized type_name => inl ("object of type '" +:+ type_name +:+ "' has no len()")
  | Missing =>
      inl ("'" +:+ class_name +:+ "' object has no attribute '" +:+ name +:+ "'")
  end.

Definition critical (service_name text : string) : HealthStatus :=
  mkHealthStatus service_name "critical" text None.

(** [check_websocket_connections]. *)
Definition check_websocket_connections (cm : ConnectionManager.t) : HealthStatus :=
  let len name :=
    len_attribute "ConnectionManager" (connection_manager_attribute cm name) name in
  let failed e := critical "websocket" ("WebSocket health check failed: " +:+ e) in
  match len "active_connections" with
  | inl e => failed e
  | inr active_connections =>
      match len "call_connections" with
      | inl e => failed e
      | inr call_connections =>
          match len "log_connections" with
          | inl e => failed e
          | inr log_connections =>
              let total_connections :=
                (active_connections + call_connections + log_connections)%nat in
              let text :=
                "WebSocket connections: " +:+ pretty total_connections +:+ " active" in
              let '(status_text, message_text) :=
                if (100 <? total_connections)%nat
                then ("warning", text +:+ " (high connection count)")
                else if (200 <? total_connections)%nat
                then ("critical", text +:+ " (very high connection count)")
                else ("healthy", text) in
              mkHealthStatus "websocket" status_text message_text
                (Some [("active_connections", active_connections);
                       ("call_connections", call_connections);
                       ("log_connections", log_connections);
                       ("total_connections", total_connections)])
          end
      end
  end.

(** [check_openai_connection]. *)
Definition check_openai_connection (sm : SessionManager) : HealthStatus :=
  match len_attribute "SessionManager" (session_manager_attribute sm "sessions")
          "sessions" with
  | inl e => critical "openai" ("OpenAI health check failed: " +:+ e)
  | inr active_sessions =>
      mkHealthStatus "openai" "healthy"
        ("OpenAI sessions: " +:+ pretty active_sessions +:+ " active")
        (Some [("active_sessions", active_sessions)])
  end.

(** [run_all_checks] over the three checks registered at import, in the
    order of registration; [system] is what [get_system_health] returns. *)
Definition run_all_checks (system : HealthStatus) (cm : ConnectionManager.t)
    (sm : SessionManager) : list HealthStatus :=
  [system; check_websocket_connections cm; check_openai_connection sm].

(** The overall status computed by the health endpoint (app/main.py). *)
Fixpoint overall_status (overall : string) (results : list HealthStatus) : string :=
  match results with
  | [] => overall
  | result :: rest =>
      if String.eqb (status result) "critical" then "critical"
      else if String.eqb (status result) "warning" && String.eqb overall "healthy"
      then overall_status "warning" rest
      else overall_status overall rest
  end.

End HealthCheck.

(** * Vocabulary of the properties *)

(** The commands a handler hands to its two legs. *)
Definition is_command (ev : event) : bool :=
  match ev with
  | SendMessage _ | TwilioSend _ _ => true
  | _ => false
  end.

Definition commands (o : list event) : list event := List.filter is_command o.

(** What reaches the speech endpoint's transport. *)
Definition is_wire (ev : event) : bool :=
  match ev with
  | OpenAISend _ => true
  | _ => false
  end.

Definition on_wire (o : list event) : list event := List.filter is_wire o.

(** The offset [_handle_truncation] computes in a state. *)
Definition audio_end_ms_of (st : SessionState) : Z :=
  Z.max (default 0 (latest_media_timestamp st)
         - default 0 (response_start_timestamp st)) 0.

Definition truncate_commands (st : SessionState) (oc : option OpenAIClient)
  : list event :=
  match oc with
  | Some _ =>
      [SendMessage (truncate_message (last_assistant_item st) (audio_end_ms_of st))]
  | None => []
  end.

Definition clear_commands (st : SessionState) (tw : option WebSocket)
  : list event :=
  match tw with
  | Some ws =>
      if truthy (stream_sid st) then [TwilioSend ws (clear_message (stream_sid st))]
      else []
  | None => []
  end.

(** The observer's copy of a speech event. *)
Definition mirror (fe : option WebSocket) (message : pyval) : list event :=
  match fe with
  | Some ws => [FrontendSend ws message]
  | None => []
  end.

(** A computation that, run with a client present, touches nothing of the
    session manager but the client, which stays present. *)
Definition client_only {A} (m : M A) : Prop :=
  forall st tw fe c, exists c' o r,
    m (mkSessionManager st tw fe (Some c))
    = (mkSessionManager st tw fe (Some c'), o, r).

(** The same, and the computation returns. *)
Definition client_only_ok {A} (m : M A) : Prop :=
  forall st tw fe c, exists c' o a,
    m (mkSessionManager st tw fe (Some c))
    = (mkSessionManager st tw fe (Some c'), o, Ok a).

(** A computation that keeps both legs and the client in place. *)
Definition keeps_legs {A} (m : M A) : Prop :=
  forall st tw fe c, exists st' c' o r,
    m (mkSessionManager st tw fe (Some c))
    = (mkSessionManager st' tw fe (Some c'), o, r).

(** A client on which [send_message] puts nothing on the wire. *)
Definition unusable (c : OpenAIClient) : Prop :=
  is_connected c = false \/ websocket c <> Some TOpen.

(** Frames of the two protocols. *)
Definition start_message (sid : string) : pyval :=
  PDict [("event", PStr "start");
         ("streamSid", PStr sid);
         ("start", PDict [("streamSid", PStr sid)])].

Definition media_chunk (timestamp payload : pyval) : pyval :=
  PDict [("event", PStr "media");
         ("media", PDict [("timestamp", timestamp); ("payload", payload)])].

Definition audio_delta (item_id : string) (payload : string) : pyval :=
  PDict [("type", PStr "response.audio.delta");
         ("item_id", PStr item_id);
         ("delta", PStr payload)].

Definition speech_started : pyval :=
  PDict [("type", PStr "input_audio_buffer.speech_started")].

Definition function_call_item (name arguments : string) (call_id : pyval) : pyval :=
  PDict [("type", PStr "function_call");
         ("name", PStr name);
         ("arguments", PStr arguments);
         ("call_id", call_id)].

Definition output_item_done (item : pyval) : pyval :=
  PDict [("type", PStr "response.output_item.done"); ("item", item)].

(** The network delivers no speech event of its own while connecting. *)
Definition no_frames (net : opening) : Prop :=
  match net with
  | OpenFails => True
  | Opened frames _ => frames = []
  end.

(** The delays slept, in order. *)
Definition sleeps (o : list event) : list Q :=
  flat_map (fun ev => match ev with Sleep d => [d] | _ => [] end) o.

(** The connection attempts: the transport opened or failed to. *)
Definition is_attempt (ev : event) : bool :=
  match ev with
  | TransportOpened | LogError "Failed to connect to OpenAI API" => true
  | _ => false
  end.

Definition attempts (o : list event) : list event := List.filter is_attempt o.

(** The reconnect loop's own task is running, reconnection is enabled and
    the client is disconnected. *)
Definition reconnecting (c : OpenAIClient) : Prop :=
  auto_reconnect c = true
  /\ is_connected c = false
  /\ reconnect_task c = Some TaskRunning.

(** The delays before attempts [from + 1], ..., [from + count]. *)
Definition delays_after (c : OpenAIClient) (from : Z) (count : nat) : list Q :=
  map (fun i => capped_delay c (from + Z.of_nat i)) (seq 1 count).

(** The delays of the client are the floats the interpreter computes: the
    counter is not negative (it starts at 0 and is only incremented or set
    back to 0), and neither is the initial delay. *)
Definition exact_delays (c : OpenAIClient) : Prop :=
  0 <= current_reconnect_attempts c /\ (0 <= reconnect_delay c)%Q.

(** What [connect] does once [_listen_messages] has returned. *)
Definition after_listening : M bool :=
  try_except
    (emit ListenEnded ;;;
     _send_session_update ;;;
     c <-- get_client ;;
     match on_connected c with
     | Some cb =>
         try_except (run_callback cb)
           (fun _ => emit (LogError "Error in connection callback"))
     | None => ret tt
     end ;;;
     ret true)
    (fun _ =>
       emit (LogError "Failed to connect to OpenAI API") ;;;
       modify_client (set_is_connected false) ;;;
       _handle_connection_failure ;;;
       ret false).

(** ** Instances for the examples *)

(** The number of brackets a text opens with. *)
Fixpoint leading_brackets (text : string) : nat :=
  match text with
  | String "["%char rest => S (leading_brackets rest)
  | _ => 0%nat
  end.

(** A decoder that reads the empty object, runs out of recursion depth on a
    text that opens a thousand arrays (the interpreter's default limit) and
    rejects every other text. *)
Definition sample_json_loads (text : string) : decoding :=
  if String.eqb text "{}" then Decoded (PDict [])
  else if (1000 <=? leading_brackets text)%nat then DecodingRaises RecursionError
  else JSONDecodeError.

(** A text of a thousand opening brackets. *)
Definition deep_text : string := Nat.iter 1000 (String "["%char) "".

(** [repr] on the floats that are not finite and on zero. *)
Definition sample_float_repr (f : pyfloat) : string :=
  match f with
  | FInf false => "inf"
  | FInf true => "-inf"
  | FNaN => "nan"
  | FFinite _ _ => "0.0"
  end.

(** An HTTP exchange that ends with status 503. *)
Definition sample_weather_lookup (latitude longitude : pyval) : string :=
  Json.dumps_error "Weather API returned status 503".

Definition sample_service : FunctionHandlerService :=
  FunctionHandlerService_new sample_weather_lookup.

(** The client as [_try_connect_openai] configures it. *)
Definition configured_client : OpenAIClient :=
  set_connection_callbacks (Some CbOpenAIConnected) (Some CbOpenAIDisconnected)
    (configure_reconnect true 10 2 60
       (set_message_handler true OpenAIClient_new)).

(** The same client, connected. *)
Definition sample_client : OpenAIClient :=
  set_is_connected true (set_websocket (Some TOpen) configured_client).

(** A call with both legs and a connected client. *)
Definition sample_session (st : SessionState) : SessionManager :=
  mkSessionManager st (Some 1%nat) (Some 2%nat) (Some sample_client).

(** A call that has started, before its client has connected. *)
Definition in_call : SessionManager :=
  mkSessionManager
    (mkSessionState (PStr "MZ1") (Some 0) None PNone PNone)
    (Some 1%nat) (Some 2%nat) (Some configured_client).

(** ** Vocabulary of the further properties *)

(** How a dispatcher's read loop ends: the peer disconnects
    ([WebSocketDisconnect]) or the read fails otherwise. *)
Inductive receive_end := PeerDisconnected | ReceiveFailed.

(** The settings of a client, which only its owner changes; the transport,
    the connected flag and the reconnect task are left out. *)
Definition same_settings (c c' : OpenAIClient) : Prop :=
  message_handler c' = message_handler c
  /\ session_config c' = session_config c
  /\ auto_reconnect c' = auto_reconnect c
  /\ max_reconnect_attempts c' = max_reconnect_attempts c
  /\ reconnect_delay c' = reconnect_delay c
  /\ max_reconnect_delay c' = max_reconnect_delay c
  /\ current_reconnect_attempts c' = current_reconnect_attempts c
  /\ on_connected c' = on_connected c
  /\ on_disconnected c' = on_disconnected c.

(** A computation that keeps both legs and the client's settings, and
    neither sleeps nor tries to connect. *)
Definition keeps_settings {A} (m : M A) : Prop :=
  forall st tw fe c, exists st' c' o r,
    m (mkSessionManager st tw fe (Some c))
    = (mkSessionManager st' tw fe (Some c'), o, r)
    /\ same_settings c c'
    /\ sleeps o = [] /\ attempts o = [].

(** The fields of the session state that follow the telephony stream. *)
Definition same_stream (st st' : SessionState) : Prop :=
  stream_sid st' = stream_sid st
  /\ latest_media_timestamp st' = latest_media_timestamp st
  /\ response_start_timestamp st' = response_start_timestamp st
  /\ last_assistant_item st' = last_assistant_item st.

(** How often a reconnect task is created. *)
Definition spawns (o : list event) : nat :=
  length (List.filter (fun ev => match ev with SpawnReconnect => true | _ => false end) o).

(** The sockets closed, in order. *)
Definition closed_sockets (o : list event) : list WebSocket :=
  flat_map (fun ev => match ev with SocketClose ws => [ws] | _ => [] end) o.

(** The present ones of two optional sockets. *)
Definition present (a b : option WebSocket) : list WebSocket :=
  match a with Some ws => [ws] | None => [] end
  ++ match b with Some ws => [ws] | None => [] end.

(** A frontend session.update frame. *)
Definition session_update_frame (session : pyval) : pyval :=
  PDict [("type", PStr "session.update"); ("session", session)].

(** A telephony media frame with the given [media] object, and what the
    bridge reads in it. *)
Definition media_frame (media : list (string * pyval)) : pyval :=
  PDict [("event", PStr "media"); ("media", PDict media)].

Definition chunk_timestamp (media : list (string * pyval)) : pyval :=
  default (PInt 0) (assoc_get "timestamp" media).

Definition chunk_payload (media : list (string * pyval)) : pyval :=
  default (PStr "") (assoc_get "payload" media).

(** What [_handle_twilio_media] reads in a telephony frame with the members
    [frame]: the media object, [{}] when the frame has none, and in it the
    timestamp. *)
Definition frame_media (frame : list (string * pyval)) : pyval :=
  default (PDict []) (assoc_get "media" frame).

Definition frame_timestamp (frame : list (string * pyval)) : pyval :=
  match frame_media frame with
  | PDict media => chunk_timestamp media
  | _ => PNone
  end.

(** A media frame the handler reads to the end: its event is [media], its
    media member is an object or is missing, and the timestamp is not an
    infinite float. *)
Definition readable_media_frame (frame : list (string * pyval)) : Prop :=
  assoc_get "event" frame = Some (PStr "media")
  /\ exists media,
       frame_media frame = PDict media
       /\ forall negative, chunk_timestamp media <> PFloat (FInf negative).

(** What an audio delta with the fields [d] makes of the session state. *)
Definition delta_state (d : list (string * pyval)) (st : SessionState)
  : SessionState :=
  let captured :=
    match response_start_timestamp st with
    | Some r => Some r
    | None => Some (or_zero (latest_media_timestamp st))
    end in
  let item := default PNone (assoc_get "item_id" d) in
  mkSessionState (stream_sid st) (latest_media_timestamp st) captured
    (if truthy item then item else last_assistant_item st) (saved_config st).

(** The playback commands for an audio delta with the fields [d]. *)
Definition delta_commands (d : list (string * pyval)) (st : SessionState)
    (ws : WebSocket) : list event :=
  let payload := default (PStr "") (assoc_get "delta" d) in
  if truthy payload
  then [TwilioSend ws (media_message (stream_sid st) payload);
        TwilioSend ws (mark_message (stream_sid st))]
  else [].

(** The client can put a message on the wire. *)
Definition usable (c : OpenAIClient) : bool :=
  is_connected c
  && match websocket c with Some TOpen => true | _ => false end.


(** A telephony start frame with the given [start] object, and the stream
    id the bridge reads in it. *)
Definition start_frame (start : list (string * pyval)) : pyval :=
  PDict [("event", PStr "start"); ("start", PDict start)].

Definition stream_id_of (start : list (string * pyval)) : pyval :=
  default PNone (assoc_get "streamSid" start).

(** The session state a start frame leaves before the bridge connects. *)
Definition started (start : list (string * pyval)) (st : SessionState)
  : SessionState :=
  mkSessionState (stream_id_of start) (Some 0) None PNone (saved_config st).

(** The client [_try_connect_openai] builds before it connects, given the
    saved configuration. *)
Definition bridge_client (saved : pyval) : OpenAIClient :=
  let c := set_connection_callbacks
             (Some CbOpenAIConnected) (Some CbOpenAIDisconnected)
             (configure_reconnect true 10 2 60
                (set_message_handler true OpenAIClient_new)) in
  if truthy saved then update_session_config saved c else c.

(** No client, or one that is not connected. *)
Definition not_connected (oc : option OpenAIClient) : Prop :=
  forall c, oc = Some c -> is_connected c = false.

(** What a telephony event can do to the telephony leg: keep it, or tear it
    down, in which case its socket has been closed. *)
Definition kept_or_closed (tw tw' : option WebSocket) (o : list event) : Prop :=
  tw' = tw
  \/ (tw' = None /\ forall ws, tw = Some ws -> In (SocketClose ws) o).

(** ** Further instances for the examples *)

(** A handler that always raises. *)
Definition failing_handler : handler := fun _ => Raised "boom".

(** A disconnected client whose reconnect loop is running. *)
Definition reconnecting_client : OpenAIClient :=
  set_reconnect_task (Some TaskRunning) configured_client.

(** The same client given a budget of 2000 attempts with the delays kept,
    after [failed] attempts. *)
Definition patient_client (failed : Z) : OpenAIClient :=
  set_current_reconnect_attempts failed
    (configure_reconnect true 2000 2 60 reconnecting_client).

(** The session built from a configuration that only chooses the voice. *)
Definition alloy_session : pyval :=
  PDict [("modalities", PList [PStr "text"; PStr "audio"]);
         ("turn_detection", PDict [("type", PStr "server_vad")]);
         ("voice", PStr "alloy");
         ("input_audio_transcription", PDict [("model", PStr "whisper-1")]);
         ("input_audio_format", PStr "g711_ulaw");
         ("output_audio_format", PStr "g711_ulaw")].
(** ** The bridge over its collaborators

    Library behaviour the sources rely on, and the service singleton. *)

Section Bridge.

Variable json_loads : string -> decoding.           (* [json.loads] of a text *)
Variable float_repr : pyfloat -> string.           (* [repr] of a float *)
Variable function_handler_service : FunctionHandlerService.

(** [f"{name}"] for a hashable name; lists and dicts raise in
    [lookup_handler] before they are formatted. *)
Definition format_value (name : pyval) : string :=
  match name with
  | PStr s => s
  | PNone => "None"
  | PBool b => if b then "True" else "False"
  | PInt z => pretty z
  | PFloat f => float_repr f
  | PList _ | PDict _ => ""
  end.

(** [handle_function_call]: only [json.JSONDecodeError] is caught around
    [json.loads]; any other exception of the decoder leaves the call. *)
Definition handle_function_call (svc : FunctionHandlerService)
    (name arguments : pyval) : result string :=
  match lookup_handler svc name with
  | Raise e => Raise e
  | Ok None =>
      Ok (Json.dumps_error ("No handler found for function: " +:+ format_value name))
  | Ok (Some h) =>
      match arguments with
      | PStr text =>
          match json_loads text with
          | JSONDecodeError =>
              Ok (Json.dumps_error "Invalid JSON arguments for function call")
          | DecodingRaises e => Raise e
          | Decoded args =>
              match h args with
              | Returned r => Ok r
              | Raised e =>
                  Ok (Json.dumps_error
                        ("Error running function " +:+ format_value name +:+ ": " +:+ e))
              end
          end
      | _ => Raise TypeError
      end
  end.

(** [_handle_function_call]. *)
Definition _handle_function_call (item : pyval) : M unit :=
  try_except
    (function_name <-- lift (get item "name" (PStr "")) ;;
     function_args <-- lift (get item "arguments" (PStr "{}")) ;;
     call_id <-- lift (get item "call_id" (PStr "")) ;;
     result_text <-- lift (handle_function_call function_handler_service
                             function_name function_args) ;;
     s <-- get_self ;;
     match openai_client s with
     | Some _ =>
         _ok <-- send_message (function_call_output_message call_id result_text) ;;
         _ok' <-- send_message response_create_message ;;
         ret tt
     | None => ret tt
     end)
    (fun _ => emit (LogError "Error handling function call")).

(** [_handle_output_item_done]. *)
Definition _handle_output_item_done (message : pyval) : M unit :=
  item <-- lift (get message "item" (PDict [])) ;;
  item_type <-- lift (get item "type" PNone) ;;
  if eq_str item_type "function_call" then _handle_function_call item else ret tt.

(** [handle_openai_message]: every event is mirrored to the observer first. *)
Definition handle_openai_message (message : pyval) : M unit :=
  _send_to_frontend message ;;;
  message_type <-- lift (get message "type" PNone) ;;
  if eq_str message_type OPENAI_INPUT_AUDIO_BUFFER_SPEECH_STARTED
  then _handle_speech_started
  else if eq_str message_type OPENAI_RESPONSE_AUDIO_DELTA
  then _handle_audio_delta message
  else if eq_str message_type OPENAI_RESPONSE_OUTPUT_ITEM_DONE
  then _handle_output_item_done message
  else ret tt.

(** [_listen_messages]. *)
Fixpoint _listen_messages (frames : list decoding) (ending : stream_end)
  : M unit :=
  match frames with
  | [] =>
      match ending with
      | ClosedOK => modify_client (set_websocket (Some TClosed))
      | ClosedError =>
          modify_client (set_websocket (Some TClosed)) ;;;
          _handle_disconnection
      | ReadFailed =>
          emit (LogError "Error in OpenAI message listener") ;;;
          _handle_disconnection
      end
  | frame :: rest =>
      c <-- get_client ;;
      if negb (is_connected c) then ret tt
      else
        match frame with
        | JSONDecodeError => emit (LogError "Failed to parse OpenAI message")
        | DecodingRaises _ => emit (LogError "Error handling OpenAI message")
        | Decoded data =>
            if message_handler c
            then try_except (handle_openai_message data)
                   (fun _ => emit (LogError "Error handling OpenAI message"))
            else ret tt
        end ;;;
        _listen_messages rest ending
  end.

(** [connect]: the listening task is created and awaited, so the lines
    after it run when [_listen_messages] has returned. *)
Definition connect (net : opening) : M bool :=
  try_except
    (match net with
     | OpenFails => raise RuntimeError
     | Opened frames ending =>
         modify_client (set_websocket (Some TOpen)) ;;;
         emit TransportOpened ;;;
         modify_client (set_is_connected true) ;;;
         modify_client (set_current_reconnect_attempts 0) ;;;
         emit ListenStarted ;;;
         _listen_messages frames ending ;;;
         emit ListenEnded ;;;
         _send_session_update ;;;
         c <-- get_client ;;
         match on_connected c with
         | Some cb =>
             try_except (run_callback cb)
               (fun _ => emit (LogError "Error in connection callback"))
         | None => ret tt
         end ;;;
         ret true
     end)
    (fun _ =>
       emit (LogError "Failed to connect to OpenAI API") ;;;
       modify_client (set_is_connected false) ;;;
       _handle_connection_failure ;;;
       ret false).

(** [_reconnect_loop], one element of [script] per iteration.  The delay
    is computed before the [try]: an exception raised there leaves the
    coroutine, and the task is done without a sleep or an attempt. *)
Fixpoint _reconnect_loop (script : list wake) : M loop_exit :=
  c <-- get_client ;;
  if loop_condition c then
    match script with
    | [] => ret LoopPending
    | w :: rest =>
        modify_client
          (set_current_reconnect_attempts (current_reconnect_attempts c + 1)) ;;;
        match backoff_delay c (current_reconnect_attempts c + 1) with
        | Raise e =>
            modify_client (set_reconnect_task (Some TaskDone)) ;;;
            raise e
        | Ok delay =>
            emit (Sleep delay) ;;;
            match w with
            | Cancelled => _reconnect_loop_end
            | Woke net =>
                c' <-- get_client ;;
                if negb (auto_reconnect c') then _reconnect_loop_end
                else
                  success <-- connect net ;;
                  if success : bool then _reconnect_loop_end
                  else _reconnect_loop rest
            end
        end
    end
  else _reconnect_loop_end.

(** ** SessionManager: telephony events *)

(** [_try_connect_openai]. *)
Definition _try_connect_openai (net : opening) : M unit :=
  s <-- get_self ;;
  if negb (truthy (stream_sid (state s))) then ret tt
  else
    match openai_client s with
    | Some (mkOpenAIClient _ true _ _ _ _ _ _ _ _ _ _) => ret tt
    | _ =>
        modify (set_openai_client (Some OpenAIClient_new)) ;;;
        modify_client (set_message_handler true) ;;;
        modify_client (configure_reconnect true 10 2 60) ;;;
        modify_client (set_connection_callbacks
                         (Some CbOpenAIConnected) (Some CbOpenAIDisconnected)) ;;;
        (if truthy (saved_config (state s))
         then modify_client (update_session_config (saved_config (state s)))
         else ret tt) ;;;
        success <-- connect net ;;
        if success : bool then ret tt
        else emit (LogError "Failed to establish OpenAI connection")
    end.

(** [_handle_twilio_start]. *)
Definition _handle_twilio_start (message : pyval) (net : opening) : M unit :=
  start_data <-- lift (get message "start" (PDict [])) ;;
  sid <-- lift (get start_data "streamSid" PNone) ;;
  modify_state (set_stream_sid sid) ;;;
  modify_state (set_latest_media_timestamp (Some 0)) ;;;
  modify_state (set_last_assistant_item PNone) ;;;
  modify_state (set_response_start_timestamp None) ;;;
  _try_connect_openai net.

(** [handle_twilio_message]; [net] answers the [connect] a start may make. *)
Definition handle_twilio_message (message : pyval) (net : opening) : M unit :=
  event <-- lift (get message "event" PNone) ;;
  if eq_str event TWILIO_START then _handle_twilio_start message net
  else if eq_str event TWILIO_MEDIA then _handle_twilio_media message
  else if eq_str event TWILIO_CLOSE then _handle_twilio_close
  else ret tt.

(** The call is an error case: no such function, or arguments on which
    [json.loads] raises [json.JSONDecodeError]. *)
Definition error_call (name arguments : string) : Prop :=
  handlers function_handler_service !! name = None
  \/ json_loads arguments = JSONDecodeError.

(** The call is one whose arguments the service gets past: no such
    function, or arguments on which [json.loads] returns a value or raises
    [json.JSONDecodeError], the one exception the service catches. *)
Definition answerable_call (name arguments : string) : Prop :=
  handlers function_handler_service !! name = None
  \/ forall e, json_loads arguments <> DecodingRaises e.

(** The chunks of a sequence, handled in order. *)
Fixpoint handle_media_chunks (chunks : list (pyval * pyval)) (net : opening)
    (s : SessionManager) : SessionManager :=
  match chunks with
  | [] => s
  | (timestamp, chunk) :: rest =>
      handle_media_chunks rest net
        (final (handle_twilio_message (media_chunk timestamp chunk) net s))
  end.

(** ** The dispatchers (app/websocket/handlers.py) *)

(** The read loop of [handle_call_connection] on the frames received, each
    with what [json.loads] does with its text in [_parse_message], which
    catches [json.JSONDecodeError] only, and what the network answers should
    the frame make the bridge connect.  A message that is falsy is
    skipped. *)
Fixpoint call_frames (frames : list (decoding * opening)) : M unit :=
  match frames with
  | [] => ret tt
  | (JSONDecodeError, _) :: rest =>
      emit (LogError "Failed to parse WebSocket message") ;;;
      call_frames rest
  | (DecodingRaises e, _) :: rest => raise e
  | (Decoded message, net) :: rest =>
      (if truthy message then handle_twilio_message message net else ret tt) ;;;
      call_frames rest
  end.

(** The read loop of [handle_logs_connection]. *)
Fixpoint logs_frames (frames : list decoding) : M unit :=
  match frames with
  | [] => ret tt
  | JSONDecodeError :: rest =>
      emit (LogError "Failed to parse WebSocket message") ;;;
      logs_frames rest
  | DecodingRaises e :: rest => raise e
  | Decoded message :: rest =>
      (if truthy message then handle_frontend_message message else ret tt) ;;;
      logs_frames rest
  end.

(** What the [try] block of a dispatcher logs when it is left: an exception
    of a handler, or the end of the reads. *)
Definition dispatcher_log (site : string) (r : result unit) (ending : receive_end)
  : list event :=
  match r, ending with
  | Ok _, PeerDisconnected => []
  | _, _ => [LogError site]
  end.

(** The [finally] block of [handle_call_connection]: the connection is
    released and the session torn down. *)
Definition call_finally (websocket : WebSocket) (cm : ConnectionManager.t)
    (sm : SessionManager)
  : ConnectionManager.t * SessionManager * list event * result unit :=
  match ConnectionManager.disconnect websocket cm with
  | (cm', Raise e) => (cm', sm, [], Raise e)
  | (cm', Ok _) =>
      match disconnect_all sm with
      | (sm', o, r) => (cm', sm', o, r)
      end
  end.

(** [handle_call_connection]: the [finally] block runs however the [try]
    block was left. *)
Definition handle_call_connection (websocket : WebSocket)
    (frames : list (decoding * opening)) (ending : receive_end)
    (cm : ConnectionManager.t) (sm : SessionManager)
  : ConnectionManager.t * SessionManager * list event * result unit :=
  match ConnectionManager.connect websocket "call" cm with
  | (cm1, o1, r1) =>
      let '(sm2, o2) :=
        match r1 with
        | Raise _ => (sm, [LogError "Error in Twilio WebSocket handler"])
        | Ok _ =>
            match (handle_twilio_connection websocket ;;; call_frames frames) sm with
            | (sm', o, r) =>
                (sm', o ++ dispatcher_log "Error in Twilio WebSocket handler" r ending)
            end
        end in
      match call_finally websocket cm1 sm2 with
      | (cm3, sm4, o4, r4) => (cm3, sm4, o1 ++ o2 ++ o4, r4)
      end
  end.

(** [handle_logs_connection]: the [finally] block releases the connection
    only. *)
Definition handle_logs_connection (websocket : WebSocket)
    (frames : list decoding) (ending : receive_end)
    (cm : ConnectionManager.t) (sm : SessionManager)
  : ConnectionManager.t * SessionManager * list event * result unit :=
  match ConnectionManager.connect websocket "logs" cm with
  | (cm1, o1, r1) =>
      let '(sm2, o2) :=
        match r1 with
        | Raise _ => (sm, [LogError "Error in frontend WebSocket handler"])
        | Ok _ =>
            match (handle_frontend_connection websocket ;;; logs_frames frames) sm with
            | (sm', o, r) =>
                (sm', o ++ dispatcher_log "Error in frontend WebSocket handler" r ending)
            end
        end in
      match ConnectionManager.disconnect websocket cm1 with
      | (cm3, r3) => (cm3, sm2, o1 ++ o2, r3)
      end
  end.

(** Telephony frames handled in order, as the read loop of the call does:
    the first handler that raises ends the sequence. *)
Fixpoint handle_media_frames (frames : list pyval) (net : opening) : M unit :=
  match frames with
  | [] => ret tt
  | frame :: rest =>
      handle_twilio_message frame net ;;;
      handle_media_frames rest net
  end.

(** * Properties *)

Local Open Scope m_scope.

Ltac unfold_m :=
  cbv beta iota zeta delta
    [bind ret raise emit get_self modify lift try_except modify_state
     modify_client get_client].

Lemma send_message_run m st tw fe c :
  exists c' o b,
    send_message m (mkSessionManager st tw fe (Some c))
    = (mkSessionManager st tw fe (Some c'), SendMessage m :: o, Ok b)
    /\ commands o = []
    /\ (is_connected c = true -> websocket c = Some TOpen ->
        c' = c /\ o = [OpenAISend m] /\ b = true).
Proof.
  destruct c as [ws ic mh sc ar mx rd mrd cur rt onc ond].
  destruct ic; [destruct ws as [[]|]|];
    try (eexists _, _, _; split; [reflexivity|]; split; [reflexivity|];
         simpl; intros; try discriminate; auto; fail).
  unfold send_message, _handle_disconnection, _start_reconnect,
    _handle_connection_failure, run_callback, _on_openai_disconnected,
    _on_openai_connected, _send_to_frontend.
  destruct ond as [[| |[]]|], ar, rt as [[]|], fe;
    (eexists _, _, _; split; [reflexivity|]; split; [reflexivity|];
     simpl; intros; discriminate).
Qed.

Lemma safe_int_of_optional_int o :
  _safe_int (of_optional_int o) = Ok (default 0 o).
Proof. destruct o; reflexivity. Qed.

Lemma commands_app o1 o2 : commands (o1 ++ o2) = commands o1 ++ commands o2.
Proof. apply List.filter_app. Qed.

Lemma commands_cons e o :
  commands (e :: o) = if is_command e then e :: commands o else commands o.
Proof. reflexivity. Qed.

Lemma commands_nil : commands [] = [].
Proof. reflexivity. Qed.

Ltac simpl_commands :=
  repeat (rewrite ?commands_app, ?commands_cons, ?commands_nil;
          cbn [is_command app]).

Lemma truncation_guarded s :
  nothing_to_truncate (state s) = true ->
  _handle_truncation s = (s, [], Ok tt).
Proof.
  intros G. unfold _handle_truncation. unfold_m. now rewrite G.
Qed.

Lemma truncation_passes st tw fe oc :
  nothing_to_truncate st = false ->
  exists oc' o,
    _handle_truncation (mkSessionManager st tw fe oc)
    = (mkSessionManager
         (set_response_start_timestamp None (set_last_assistant_item PNone st))
         tw fe oc', o, Ok tt)
    /\ commands o = truncate_commands st oc ++ clear_commands st tw
    /\ (oc = None -> oc' = None)
    /\ (forall c, oc = Some c -> is_connected c = true ->
        websocket c = Some TOpen ->
        oc' = Some c /\
        In (OpenAISend (truncate_message (last_assistant_item st) (audio_end_ms_of st))) o).
Proof.
  intros G. unfold _handle_truncation. unfold_m.
  cbn [state]. rewrite G, !safe_int_of_optional_int.
  cbn [openai_client]. destruct oc as [c|].
  - destruct (send_message_run
                (truncate_message (last_assistant_item st) (audio_end_ms_of st))
                st tw fe c) as (c' & o & b & E & Ho & Hopen).
    unfold audio_end_ms_of in E. rewrite E. cbn [twilio_websocket state].
    destruct tw as [ws|]; [destruct (truthy (stream_sid st)) eqn:Hsid|].
    all: eexists _, _; split; [reflexivity|].
    all: unfold truncate_commands, clear_commands, audio_end_ms_of;
      rewrite ?Hsid; simpl_commands; rewrite ?Ho.
    all: split; [reflexivity|]; split; [discriminate|].
    all: intros c0 [= <-] Hc Hw; destruct (Hopen Hc Hw) as (-> & -> & _);
      split; [reflexivity|]; simpl; auto.
  - cbn [twilio_websocket state].
    destruct tw as [ws|]; [destruct (truthy (stream_sid st)) eqn:Hsid|].
    all: eexists _, _; split; [reflexivity|].
    all: unfold truncate_commands, clear_commands; rewrite ?Hsid; simpl_commands.
    all: split; [reflexivity|]; split; [reflexivity|]; discriminate.
Qed.

(** ** Barge-in *)

(** C9.  When [last_assistant_item] is [None] or [response_start_timestamp]
    is [None], handling a speech_started event emits nothing (so neither a
    truncate nor a clear command) and leaves the whole session unchanged. *)
Theorem speech_started_without_item_is_noop (s : SessionManager) :
  last_assistant_item (state s) = PNone
  \/ response_start_timestamp (state s) = None ->
  _handle_speech_started s = (s, [], Ok tt).
Proof.
  intros H. apply truncation_guarded. unfold nothing_to_truncate.
  destruct H as [-> | ->]; [reflexivity|]. apply orb_true_r.
Qed.

(** C10.  Two consecutive speech_started events: the first never raises
    and, when its guard passes, resets [last_assistant_item] and
    [response_start_timestamp] to [None] whatever legs are present; the
    second emits nothing and changes nothing, so the pair hands out the
    truncate command and the clear command at most once. *)
Theorem second_speech_started_is_noop (s : SessionManager) :
  let r1 := _handle_speech_started s in
  let r2 := _handle_speech_started (final r1) in
  outcome r1 = Ok tt
  /\ (nothing_to_truncate (state s) = false ->
      last_assistant_item (state (final r1)) = PNone
      /\ response_start_timestamp (state (final r1)) = None)
  /\ r2 = (final r1, [], Ok tt)
  /\ commands (output r1 ++ output r2)
     = if nothing_to_truncate (state s) then []
       else truncate_commands (state s) (openai_client s)
            ++ clear_commands (state s) (twilio_websocket s).
Proof.
  unfold _handle_speech_started.
  destruct (nothing_to_truncate (state s)) eqn:G.
  - rewrite (truncation_guarded s G). cbn [final fst snd output outcome].
    rewrite (truncation_guarded s G).
    split; [reflexivity|]. split; [discriminate|]. split; reflexivity.
  - destruct s as [st tw fe oc]. cbn [state] in G.
    destruct (truncation_passes st tw fe oc G) as (oc' & o & E & Ho & _).
    rewrite E. cbn [final fst snd output outcome state openai_client twilio_websocket].
    rewrite truncation_guarded by reflexivity.
    cbn [output fst snd]. rewrite app_nil_r.
    split; [reflexivity|]. split; [intros _; split; reflexivity|].
    split; [reflexivity | exact Ho].
Qed.


(** ** Running the monad step by step *)

Lemma bind_ret {A B} (a : A) (k : A -> M B) s : bind (ret a) k s = k a s.
Proof. unfold bind, ret. now destruct (k a s) as [[? ?] ?]. Qed.

Lemma bind_lift_ok {A B} (a : A) (k : A -> M B) s : bind (lift (Ok a)) k s = k a s.
Proof. unfold bind, lift. now destruct (k a s) as [[? ?] ?]. Qed.

Lemma bind_get_self {B} (k : SessionManager -> M B) s :
  bind get_self k s = k s s.
Proof. unfold bind, get_self. now destruct (k s s) as [[? ?] ?]. Qed.

Lemma bind_modify {B} f (k : unit -> M B) s :
  bind (modify f) k s = k tt (f s).
Proof. unfold bind, modify. now destruct (k tt (f s)) as [[? ?] ?]. Qed.

Lemma bind_modify_state {B} f (k : unit -> M B) s :
  bind (modify_state f) k s = k tt (set_state (f (state s)) s).
Proof.
  unfold modify_state.
  exact (bind_modify (fun s0 => set_state (f (state s0)) s0) k s).
Qed.

Lemma bind_emit {B} ev (k : unit -> M B) s :
  bind (emit ev) k s
  = (final (k tt s), ev :: output (k tt s), outcome (k tt s)).
Proof. unfold bind, emit. now destruct (k tt s) as [[? ?] ?]. Qed.

Lemma bind_run {A B} (m : M A) (k : A -> M B) s s1 o1 a :
  m s = (s1, o1, Ok a) ->
  bind m k s = (final (k a s1), o1 ++ output (k a s1), outcome (k a s1)).
Proof. intros E. unfold bind. rewrite E. now destruct (k a s1) as [[? ?] ?]. Qed.

Lemma bind_raised {A B} (m : M A) (k : A -> M B) s s1 o1 e :
  m s = (s1, o1, Raise e) -> bind m k s = (s1, o1, Raise e).
Proof. intros E. unfold bind. now rewrite E. Qed.

Lemma try_returned {A} (m : M A) h s s1 o1 a :
  m s = (s1, o1, Ok a) -> try_except m h s = (s1, o1, Ok a).
Proof. intros E. unfold try_except. now rewrite E. Qed.

Lemma try_raised {A} (m : M A) h s s1 o1 e :
  m s = (s1, o1, Raise e) ->
  try_except m h s
  = (final (h e s1), o1 ++ output (h e s1), outcome (h e s1)).
Proof.
  intros E. unfold try_except. rewrite E. now destruct (h e s1) as [[? ?] ?].
Qed.

Lemma try_bind_returned {A B} (m : M A) (k : A -> M B) h s s1 o1 a :
  m s = (s1, o1, Ok a) ->
  try_except (bind m k) h s
  = (final (try_except (k a) h s1),
     o1 ++ output (try_except (k a) h s1),
     outcome (try_except (k a) h s1)).
Proof.
  intros E. unfold try_except, bind. rewrite E.
  destruct (k a s1) as [[s2 o2] [b|e]]; cbn [final output outcome fst snd].
  - reflexivity.
  - destruct (h e s2) as [[s3 o3] r]. cbn [final output outcome fst snd].
    now rewrite app_assoc.
Qed.

(** ** Client-only computations *)

Lemma client_only_ok_weaken {A} (m : M A) : client_only_ok m -> client_only m.
Proof.
  intros H st tw fe c. destruct (H st tw fe c) as (c' & o & a & E).
  now exists c', o, (Ok a).
Qed.

Lemma client_only_ret {A} (a : A) : client_only_ok (ret a).
Proof. intros st tw fe c. now exists c, [], a. Qed.

Lemma client_only_emit ev : client_only_ok (emit ev).
Proof. intros st tw fe c. now exists c, [ev], tt. Qed.

Lemma client_only_raise {A} e : client_only (@raise A e).
Proof. intros st tw fe c. now exists c, [], (Raise e). Qed.

Lemma client_only_lift {A} (r : result A) : client_only (lift r).
Proof. intros st tw fe c. now exists c, [], r. Qed.

Lemma client_only_get_client : client_only_ok get_client.
Proof. intros st tw fe c. now exists c, [], c. Qed.

Lemma client_only_modify_client f : client_only_ok (modify_client f).
Proof. intros st tw fe c. now exists (f c), [], tt. Qed.

Lemma client_only_bind {A B} (m : M A) (k : A -> M B) :
  client_only m -> (forall a, client_only (k a)) -> client_only (bind m k).
Proof.
  intros Hm Hk st tw fe c. unfold bind.
  destruct (Hm st tw fe c) as (c1 & o1 & [a|e] & ->).
  - destruct (Hk a st tw fe c1) as (c2 & o2 & r & ->). now eexists _, _, _.
  - now eexists _, _, _.
Qed.

Lemma client_only_ok_bind {A B} (m : M A) (k : A -> M B) :
  client_only_ok m -> (forall a, client_only_ok (k a)) ->
  client_only_ok (bind m k).
Proof.
  intros Hm Hk st tw fe c. unfold bind.
  destruct (Hm st tw fe c) as (c1 & o1 & a & ->).
  destruct (Hk a st tw fe c1) as (c2 & o2 & b & ->). now eexists _, _, _.
Qed.

Lemma client_only_ok_try {A} (m : M A) (h : exn -> M A) :
  client_only m -> (forall e, client_only_ok (h e)) ->
  client_only_ok (try_except m h).
Proof.
  intros Hm Hh st tw fe c. unfold try_except.
  destruct (Hm st tw fe c) as (c1 & o1 & [a|e] & ->).
  - now eexists _, _, _.
  - destruct (Hh e st tw fe c1) as (c2 & o2 & b & ->). now eexists _, _, _.
Qed.

(** What a computation may read of the session while staying client-only:
    the continuation is client-only for every value read. *)
Lemma client_only_ok_get_self {B} (k : SessionManager -> M B) :
  (forall s, client_only_ok (k s)) -> client_only_ok (bind get_self k).
Proof.
  intros Hk st tw fe c. unfold bind, get_self.
  destruct (Hk (mkSessionManager st tw fe (Some c)) st tw fe c)
    as (c2 & o2 & b & ->).
  now eexists _, _, _.
Qed.

Create HintDb client_only.

#[local] Hint Resolve client_only_ret client_only_emit client_only_raise
  client_only_lift client_only_get_client client_only_modify_client
  client_only_ok_weaken : client_only.

Ltac client_only_step :=
  lazymatch goal with
  | |- client_only_ok get_client => apply client_only_get_client
  | |- client_only get_client =>
      apply client_only_ok_weaken, client_only_get_client
  | |- client_only_ok (bind get_self _) =>
      apply client_only_ok_get_self; intros ?
  | |- client_only (bind get_self _) =>
      apply client_only_ok_weaken, client_only_ok_get_self; intros ?
  | |- client_only_ok (bind _ _) => apply client_only_ok_bind; [|intros ?]
  | |- client_only (bind _ _) => apply client_only_bind; [|intros ?]
  | |- client_only_ok (try_except _ _) => apply client_only_ok_try; [|intros ?]
  | |- client_only (try_except _ _) =>
      apply client_only_ok_weaken, client_only_ok_try; [|intros ?]
  | |- client_only_ok (ret _) => apply client_only_ret
  | |- client_only_ok (emit _) => apply client_only_emit
  | |- client_only_ok (modify_client _) => apply client_only_modify_client
  | |- client_only (raise _) => apply client_only_raise
  | |- client_only (lift _) => apply client_only_lift
  | |- client_only_ok (match ?x with _ => _ end) => destruct x
  | |- client_only (match ?x with _ => _ end) => destruct x
  | |- client_only (ret _) => apply client_only_ok_weaken
  | |- client_only (emit _) => apply client_only_ok_weaken
  | |- client_only (modify_client _) => apply client_only_ok_weaken
  | |- _ => solve [auto with client_only]
  end.

Ltac client_only_auto := repeat client_only_step.

Lemma client_only__send_to_frontend m : client_only_ok (_send_to_frontend m).
Proof. unfold _send_to_frontend. client_only_auto. Qed.

Lemma client_only_run_callback cb : client_only (run_callback cb).
Proof.
  destruct cb; unfold run_callback, _on_openai_connected, _on_openai_disconnected;
    auto using client_only_ok_weaken, client_only__send_to_frontend.
  client_only_auto.
Qed.

Lemma client_only__start_reconnect : client_only_ok _start_reconnect.
Proof. unfold _start_reconnect. client_only_auto. Qed.

Lemma client_only__handle_connection_failure :
  client_only_ok _handle_connection_failure.
Proof.
  unfold _handle_connection_failure.
  pose proof client_only__start_reconnect. client_only_auto.
Qed.

Lemma client_only__handle_disconnection : client_only_ok _handle_disconnection.
Proof.
  unfold _handle_disconnection.
  pose proof client_only__start_reconnect.
  pose proof client_only_run_callback.
  client_only_auto.
Qed.

Lemma client_only_send_message m : client_only_ok (send_message m).
Proof.
  intros st tw fe c.
  destruct (send_message_run m st tw fe c) as (c' & o & b & E & _).
  eexists _, _, _. exact E.
Qed.

Lemma client_only__send_session_update : client_only _send_session_update.
Proof.
  unfold _send_session_update.
  pose proof client_only_send_message. client_only_auto.
Qed.

(** ** The end-to-end scenario *)

Lemma client_only_connect net : no_frames net -> client_only_ok (connect net).
Proof.
  pose proof client_only__handle_disconnection.
  pose proof client_only__handle_connection_failure.
  pose proof client_only__send_session_update.
  pose proof client_only_run_callback.
  destruct net as [|frames ending]; cbn [no_frames].
  - intros _. unfold connect. client_only_auto.
  - intros ->. unfold connect, _listen_messages. client_only_auto.
Qed.

Lemma try_connect_openai_run net st tw fe oc :
  no_frames net -> truthy (stream_sid st) = true ->
  exists c1 o,
    _try_connect_openai net (mkSessionManager st tw fe oc)
    = (mkSessionManager st tw fe (Some c1), o, Ok tt).
Proof.
  intros Hnet Hsid.
  assert (Hnew : exists c1 o,
    (modify (set_openai_client (Some OpenAIClient_new)) ;;;
     modify_client (set_message_handler true) ;;;
     modify_client (configure_reconnect true 10 2 60) ;;;
     modify_client (set_connection_callbacks
                      (Some CbOpenAIConnected) (Some CbOpenAIDisconnected)) ;;;
     (if truthy (saved_config st)
      then modify_client (update_session_config (saved_config st))
      else ret tt) ;;;
     success <-- connect net ;;
     if success : bool then ret tt
     else emit (LogError "Failed to establish OpenAI connection"))
      (mkSessionManager st tw fe oc)
    = (mkSessionManager st tw fe (Some c1), o, Ok tt)).
  { setoid_rewrite bind_modify.
    assert (Hrest : client_only_ok
      (modify_client (set_message_handler true) ;;;
       modify_client (configure_reconnect true 10 2 60) ;;;
       modify_client (set_connection_callbacks
                        (Some CbOpenAIConnected) (Some CbOpenAIDisconnected)) ;;;
       (if truthy (saved_config st)
        then modify_client (update_session_config (saved_config st))
        else ret tt) ;;;
       success <-- connect net ;;
       if success : bool then ret tt
       else emit (LogError "Failed to establish OpenAI connection"))).
    { pose proof (client_only_connect net Hnet). client_only_auto. }
    destruct (Hrest st tw fe OpenAIClient_new) as (c1 & o & [] & E).
    exists c1, o. exact E. }
  unfold _try_connect_openai. rewrite bind_get_self.
  cbn [state openai_client]. rewrite Hsid. cbn [negb].
  destruct oc as [[ws [] mh sc ar mx rd mrd cur rt onc ond]|];
    try exact Hnew.
  now eexists _, _.
Qed.

Lemma truthy_str (sid : string) : sid <> "" -> truthy (PStr sid) = true.
Proof. now destruct sid. Qed.

Lemma start_run net st ws fe oc (sid : string) :
  no_frames net -> sid <> "" ->
  exists c1 o,
    handle_twilio_message (start_message sid) net
      (mkSessionManager st (Some ws) fe oc)
    = (mkSessionManager
         (mkSessionState (PStr sid) (Some 0) None PNone (saved_config st))
         (Some ws) fe (Some c1), o, Ok tt).
Proof.
  intros Hnet Hsid.
  unfold handle_twilio_message, _handle_twilio_start.
  change (get (start_message sid) "event" PNone) with (Ok (PStr "start")).
  rewrite bind_lift_ok.
  change (eq_str (PStr "start") TWILIO_START) with true. cbv iota.
  change (get (start_message sid) "start" (PDict []))
    with (Ok (PDict [("streamSid", PStr sid)])).
  rewrite bind_lift_ok.
  change (get (PDict [("streamSid", PStr sid)]) "streamSid" PNone)
    with (Ok (PStr sid)).
  rewrite bind_lift_ok. rewrite !bind_modify_state.
  apply try_connect_openai_run; [exact Hnet | apply truthy_str, Hsid].
Qed.

Lemma media_run net st tw fe c ts chunk z :
  _safe_int ts = Ok z ->
  exists c2 o,
    handle_twilio_message (media_chunk ts chunk) net
      (mkSessionManager st tw fe (Some c))
    = (mkSessionManager (set_latest_media_timestamp (Some z) st) tw fe (Some c2),
       o, Ok tt).
Proof.
  intros Hts.
  unfold handle_twilio_message, _handle_twilio_media.
  change (get (media_chunk ts chunk) "event" PNone) with (Ok (PStr "media")).
  rewrite bind_lift_ok.
  change (eq_str (PStr "media") TWILIO_START) with false.
  change (eq_str (PStr "media") TWILIO_MEDIA) with true. cbv iota.
  change (get (media_chunk ts chunk) "media" (PDict []))
    with (Ok (PDict [("timestamp", ts); ("payload", chunk)])).
  rewrite bind_lift_ok.
  change (get (PDict [("timestamp", ts); ("payload", chunk)]) "timestamp" (PInt 0))
    with (Ok ts).
  rewrite bind_lift_ok, Hts, bind_lift_ok, bind_modify_state, bind_get_self.
  cbn [set_state state twilio_websocket frontend_websocket openai_client].
  destruct (is_connected c).
  - change (get (PDict [("timestamp", ts); ("payload", chunk)]) "payload" (PStr ""))
      with (Ok chunk).
    rewrite bind_lift_ok.
    destruct (send_message_run (append_message chunk)
                (set_latest_media_timestamp (Some z) st) tw fe c)
      as (c2 & o & b & E & _).
    rewrite (bind_run _ _ _ _ _ _ E). now eexists _, _.
  - now eexists _, _.
Qed.

Lemma delta_run st ws fe oc (sid item payload : string) l :
  sid <> "" -> item <> "" ->
  stream_sid st = PStr sid ->
  latest_media_timestamp st = Some l ->
  response_start_timestamp st = None ->
  exists o,
    handle_openai_message (audio_delta item payload)
      (mkSessionManager st (Some ws) fe oc)
    = (mkSessionManager
         (mkSessionState (PStr sid) (Some l) (Some (or_zero (Some l)))
            (PStr item) (saved_config st))
         (Some ws) fe oc, o, Ok tt).
Proof.
  intros Hsid Hitem.
  destruct st as [sid0 latest resp it saved]. cbn [stream_sid
    latest_media_timestamp response_start_timestamp saved_config].
  intros -> -> ->.
  destruct sid as [|a sid]; [easy|]. destruct item as [|b item]; [easy|].
  destruct fe, payload; now eexists.
Qed.

Lemma speech_started_run (s : SessionManager) :
  handle_openai_message speech_started s
  = (final (_handle_speech_started s),
     mirror (frontend_websocket s) speech_started
     ++ output (_handle_speech_started s),
     outcome (_handle_speech_started s)).
Proof.
  unfold handle_openai_message, _send_to_frontend, mirror.
  destruct (_handle_speech_started s) as [[s' o] r] eqn:E.
  unfold bind at 1. rewrite bind_get_self.
  destruct (frontend_websocket s);
    cbv beta iota delta [emit ret];
    change (get speech_started "type" PNone)
      with (Ok (PStr "input_audio_buffer.speech_started"));
    rewrite bind_lift_ok;
    change (eq_str (PStr "input_audio_buffer.speech_started")
              OPENAI_INPUT_AUDIO_BUFFER_SPEECH_STARTED) with true;
    cbv iota; rewrite E; reflexivity.
Qed.

Lemma commands_mirror fe m : commands (mirror fe m) = [].
Proof. now destruct fe. Qed.

(** C2.  With a telephony leg present, the events media start (carrying a
    stream id), media chunk with timestamp 1000, speech audio delta for item
    a1 and speech_started, handled in this order: the delta captures
    [response_start_timestamp = 1000], and the speech_started event hands
    out exactly a truncate command for item a1 with [audio_end_ms = 0]
    followed by a clear command to the telephony leg with the stream id. *)
Theorem barge_in_scenario (s : SessionManager) (ws : WebSocket) (sid : string)
    (net net' : opening) (timestamp chunk : pyval) (payload : string) :
  twilio_websocket s = Some ws ->
  sid <> "" ->
  no_frames net ->
  _safe_int timestamp = Ok 1000 ->
  let s1 := final (handle_twilio_message (start_message sid) net s) in
  let s2 := final (handle_twilio_message (media_chunk timestamp chunk) net' s1) in
  let r3 := handle_openai_message (audio_delta "a1" payload) s2 in
  let r4 := handle_openai_message speech_started (final r3) in
  latest_media_timestamp (state s2) = Some 1000
  /\ outcome r3 = Ok tt
  /\ response_start_timestamp (state (final r3)) = Some 1000
  /\ last_assistant_item (state (final r3)) = PStr "a1"
  /\ outcome r4 = Ok tt
  /\ commands (output r4)
     = [SendMessage (truncate_message (PStr "a1") 0);
        TwilioSend ws (clear_message (PStr sid))]
  /\ last_assistant_item (state (final r4)) = PNone
  /\ response_start_timestamp (state (final r4)) = None.
Proof.
  intros Htw Hsid Hnet Hts.
  destruct s as [st tw fe oc]. cbn [twilio_websocket] in Htw. subst tw.
  destruct (start_run net st ws fe oc sid Hnet Hsid) as (c1 & o1 & E1).
  rewrite E1. cbn [final fst].
  destruct (media_run net'
              (mkSessionState (PStr sid) (Some 0) None PNone (saved_config st))
              (Some ws) fe c1 timestamp chunk 1000 Hts)
    as (c2 & o2 & E2).
  rewrite E2. unfold set_latest_media_timestamp.
  cbn [final fst stream_sid response_start_timestamp last_assistant_item
    saved_config].
  destruct (delta_run
              (mkSessionState (PStr sid) (Some 1000) None PNone (saved_config st))
              ws fe (Some c2) sid "a1" payload 1000 Hsid ltac:(discriminate)
              eq_refl eq_refl eq_refl) as (o3 & E3).
  rewrite E3. cbn [final fst snd outcome state latest_media_timestamp
    response_start_timestamp last_assistant_item saved_config].
  rewrite speech_started_run.
  cbn [final fst snd outcome output frontend_websocket].
  set (st3 := mkSessionState (PStr sid) (Some 1000) (Some (or_zero (Some 1000)))
                (PStr "a1") (saved_config st)).
  assert (G : nothing_to_truncate st3 = false) by reflexivity.
  destruct (truncation_passes st3 (Some ws) fe (Some c2) G)
    as (oc' & o4 & E4 & Ho4 & _).
  unfold _handle_speech_started. rewrite E4.
  cbn [final fst snd outcome output state].
  rewrite commands_app, commands_mirror, Ho4.
  unfold truncate_commands, clear_commands, st3. cbn [stream_sid last_assistant_item].
  rewrite (truthy_str sid Hsid).
  repeat (split; [reflexivity|]). reflexivity.
Qed.

(** ** Error results are JSON objects *)

Lemma append_cons c (a b : string) : String c a +:+ b = String c (a +:+ b).
Proof. reflexivity. Qed.

Lemma append_assoc (a b c : string) : (a +:+ b) +:+ c = a +:+ (b +:+ c).
Proof.
  induction a as [|x a IH]; [reflexivity|].
  rewrite !append_cons. now rewrite IH.
Qed.

Lemma read_chars_escape_char c s :
  Json.read_chars (Json.escape_char c +:+ s)
  = Json.cons_char c (Json.read_chars s).
Proof. destruct c as [[] [] [] [] [] [] [] []]; reflexivity. Qed.

Lemma read_chars_escape s rest :
  Json.read_chars (Json.escape s +:+ String Json.dquote rest) = Some (s, rest).
Proof.
  induction s as [|c s IH]; [reflexivity|].
  cbn [Json.escape].
  rewrite append_assoc, read_chars_escape_char, IH. reflexivity.
Qed.

Lemma dumps_str_cons s rest :
  Json.dumps_str s +:+ rest
  = String Json.dquote (Json.escape s +:+ String Json.dquote rest).
Proof.
  unfold Json.dumps_str. rewrite append_cons, append_assoc. reflexivity.
Qed.

Lemma read_string_dumps s rest :
  Json.read_string (Json.skip_ws (Json.dumps_str s +:+ rest)) = Some (s, rest).
Proof.
  rewrite dumps_str_cons.
  change (Json.read_chars (Json.escape s +:+ String Json.dquote rest) = Some (s, rest)).
  apply read_chars_escape.
Qed.

Lemma read_member_dumps k v rest :
  Json.read_member (Json.dumps_str k +:+ ": " +:+ Json.dumps_str v +:+ rest)
  = Some (k, v, Json.skip_ws rest).
Proof.
  unfold Json.read_member. rewrite read_string_dumps.
  change (Json.skip_ws (": " +:+ Json.dumps_str v +:+ rest))
    with (String ":" (String " " (Json.dumps_str v +:+ rest))).
  cbv iota.
  change (Json.skip_ws (String " " (Json.dumps_str v +:+ rest)))
    with (Json.skip_ws (Json.dumps_str v +:+ rest)).
  now rewrite read_string_dumps.
Qed.

(** The text [json.dumps] gives for an error result reads back as the
    object with the single member [error]. *)
Lemma read_object_dumps_error text :
  Json.read_object (Json.dumps_error text) = Some [("error", text)].
Proof.
  unfold Json.dumps_error, Json.read_object.
  change (Json.skip_ws ("{" +:+ Json.dumps_str "error" +:+ ": "
                        +:+ Json.dumps_str text +:+ "}"))
    with (String "{" (Json.dumps_str "error" +:+ ": "
                      +:+ Json.dumps_str text +:+ "}")).
  cbv iota.
  set (r := Json.dumps_str "error" +:+ ": " +:+ Json.dumps_str text +:+ "}").
  assert (Hr : r = String Json.dquote
                     (Json.escape "error" +:+ String Json.dquote
                        (": " +:+ Json.dumps_str text +:+ "}")))
    by apply dumps_str_cons.
  rewrite Hr.
  change (Json.skip_ws (String Json.dquote ?x)) with (String Json.dquote x).
  cbv iota.
  change (String.length (String Json.dquote ?x)) with (S (String.length x)).
  cbn [Json.read_members]. rewrite <- Hr. subst r.
  rewrite read_member_dumps. reflexivity.
Qed.

Lemma dumps_error_is_object text :
  Json.is_object_with_key "error" (Json.dumps_error text).
Proof.
  exists [("error", text)], text. split.
  - apply read_object_dumps_error.
  - now left.
Qed.

(** ** Tool calls *)

Lemma handle_function_call_error (name arguments : string) :
  error_call name arguments ->
  exists text,
    handle_function_call function_handler_service (PStr name) (PStr arguments) = Ok (Json.dumps_error text).
Proof.
  unfold error_call, handle_function_call, lookup_handler.
  destruct (handlers function_handler_service !! name) as [h|]; intros [H|H];
    try discriminate; eauto.
  rewrite H. eauto.
Qed.

(** With string name and arguments the service returns unless the decoder
    raises something other than [json.JSONDecodeError] on the arguments of a
    registered function. *)
Lemma handle_function_call_returns (name arguments : string) :
  answerable_call name arguments ->
  exists text, handle_function_call function_handler_service (PStr name) (PStr arguments) = Ok text.
Proof.
  unfold answerable_call, handle_function_call, lookup_handler.
  destruct (handlers function_handler_service !! name) as [h|]; [|eauto].
  intros [H|H]; [discriminate|].
  destruct (json_loads arguments) as [args| |e]; [|eauto|now destruct (H e)].
  destruct (h args); eauto.
Qed.

(** An exception of the decoder other than [json.JSONDecodeError], on the
    arguments of a registered function, leaves the service. *)
Lemma handle_function_call_raises (name arguments : string) (h : handler) e :
  handlers function_handler_service !! name = Some h ->
  json_loads arguments = DecodingRaises e ->
  handle_function_call function_handler_service (PStr name) (PStr arguments)
  = Raise e.
Proof.
  intros Hh Hargs. unfold handle_function_call, lookup_handler.
  now rewrite Hh, Hargs.
Qed.

(** The error cases are among the calls the service gets past. *)
Lemma error_call_answerable (name arguments : string) :
  error_call name arguments -> answerable_call name arguments.
Proof.
  intros [H|H]; [now left|]. right. intros e. now rewrite H.
Qed.

(** A tool call on which the service raises: the bridge mirrors the event,
    logs the error and hands the client nothing. *)
Lemma function_call_raise_run st tw fe oc (name arguments : string) call_id e :
  handle_function_call function_handler_service (PStr name) (PStr arguments)
  = Raise e ->
  handle_openai_message
    (output_item_done (function_call_item name arguments call_id))
    (mkSessionManager st tw fe oc)
  = (mkSessionManager st tw fe oc,
     mirror fe (output_item_done (function_call_item name arguments call_id))
     ++ [LogError "Error handling function call"],
     Ok tt).
Proof.
  intros Hcall.
  set (item := function_call_item name arguments call_id).
  unfold handle_openai_message.
  assert (Hmirror : _send_to_frontend (output_item_done item)
                      (mkSessionManager st tw fe oc)
                    = (mkSessionManager st tw fe oc,
                       mirror fe (output_item_done item), Ok tt)).
  { unfold _send_to_frontend. rewrite bind_get_self. now destruct fe. }
  rewrite (bind_run _ _ _ _ _ _ Hmirror).
  change (get (output_item_done item) "type" PNone)
    with (Ok (PStr "response.output_item.done")).
  rewrite bind_lift_ok.
  change (eq_str (PStr "response.output_item.done")
            OPENAI_INPUT_AUDIO_BUFFER_SPEECH_STARTED) with false.
  change (eq_str (PStr "response.output_item.done")
            OPENAI_RESPONSE_AUDIO_DELTA) with false.
  change (eq_str (PStr "response.output_item.done")
            OPENAI_RESPONSE_OUTPUT_ITEM_DONE) with true.
  cbv iota. unfold _handle_output_item_done.
  change (get (output_item_done item) "item" (PDict [])) with (Ok item).
  rewrite bind_lift_ok.
  change (get item "type" PNone) with (Ok (PStr "function_call")).
  rewrite bind_lift_ok.
  change (eq_str (PStr "function_call") "function_call") with true.
  cbv iota. unfold _handle_function_call.
  change (get item "name" (PStr "")) with (Ok (PStr name)).
  change (get item "arguments" (PStr "{}")) with (Ok (PStr arguments)).
  change (get item "call_id" (PStr "")) with (Ok call_id).
  erewrite try_raised.
  2: { rewrite !bind_lift_ok, Hcall. reflexivity. }
  reflexivity.
Qed.

(** A tool call of a registered function on whose arguments [json.loads]
    raises something other than [json.JSONDecodeError]: the exception
    leaves [handle_function_call], and the bridge, which catches it, sends
    the client no command. *)
Lemma tool_call_decoder_exception_unanswered st tw fe oc
    (name arguments : string) call_id (h : handler) e :
  handlers function_handler_service !! name = Some h ->
  json_loads arguments = DecodingRaises e ->
  handle_function_call function_handler_service (PStr name) (PStr arguments)
  = Raise e
  /\ let r := handle_openai_message
                (output_item_done (function_call_item name arguments call_id))
                (mkSessionManager st tw fe oc) in
     outcome r = Ok tt
     /\ final r = mkSessionManager st tw fe oc
     /\ commands (output r) = []
     /\ In (LogError "Error handling function call") (output r).
Proof.
  intros Hh Hargs.
  pose proof (handle_function_call_raises name arguments h e Hh Hargs) as Hcall.
  split; [exact Hcall|]. cbv zeta.
  rewrite (function_call_raise_run st tw fe oc name arguments call_id e Hcall).
  cbn [final output outcome fst snd].
  split; [reflexivity|]. split; [reflexivity|]. split.
  - simpl_commands. now rewrite commands_mirror.
  - apply in_or_app. right. now left.
Qed.

Lemma function_call_run st tw fe oc (name arguments : string) call_id text :
  handle_function_call function_handler_service (PStr name) (PStr arguments) = Ok text ->
  exists oc' o,
    handle_openai_message
      (output_item_done (function_call_item name arguments call_id))
      (mkSessionManager st tw fe oc)
    = (mkSessionManager st tw fe oc', o, Ok tt)
    /\ commands o
       = match oc with
         | Some _ => [SendMessage (function_call_output_message call_id text);
                      SendMessage response_create_message]
         | None => []
         end.
Proof.
  intros Hcall.
  set (item := function_call_item name arguments call_id).
  unfold handle_openai_message.
  assert (Hmirror : _send_to_frontend (output_item_done item)
                      (mkSessionManager st tw fe oc)
                    = (mkSessionManager st tw fe oc,
                       mirror fe (output_item_done item), Ok tt)).
  { unfold _send_to_frontend. rewrite bind_get_self. now destruct fe. }
  rewrite (bind_run _ _ _ _ _ _ Hmirror).
  change (get (output_item_done item) "type" PNone)
    with (Ok (PStr "response.output_item.done")).
  rewrite bind_lift_ok.
  change (eq_str (PStr "response.output_item.done")
            OPENAI_INPUT_AUDIO_BUFFER_SPEECH_STARTED) with false.
  change (eq_str (PStr "response.output_item.done")
            OPENAI_RESPONSE_AUDIO_DELTA) with false.
  change (eq_str (PStr "response.output_item.done")
            OPENAI_RESPONSE_OUTPUT_ITEM_DONE) with true.
  cbv iota. unfold _handle_output_item_done.
  change (get (output_item_done item) "item" (PDict [])) with (Ok item).
  rewrite bind_lift_ok.
  change (get item "type" PNone) with (Ok (PStr "function_call")).
  rewrite bind_lift_ok.
  change (eq_str (PStr "function_call") "function_call") with true.
  cbv iota. unfold _handle_function_call, try_except.
  change (get item "name" (PStr "")) with (Ok (PStr name)).
  rewrite bind_lift_ok.
  change (get item "arguments" (PStr "{}")) with (Ok (PStr arguments)).
  rewrite bind_lift_ok.
  change (get item "call_id" (PStr "")) with (Ok call_id).
  rewrite bind_lift_ok, Hcall, bind_lift_ok, bind_get_self.
  cbn [openai_client]. destruct oc as [c|].
  - destruct (send_message_run (function_call_output_message call_id text)
                st tw fe c) as (c1 & o1 & b1 & E1 & Ho1 & _).
    rewrite (bind_run _ _ _ _ _ _ E1).
    destruct (send_message_run response_create_message st tw fe c1)
      as (c2 & o2 & b2 & E2 & Ho2 & _).
    rewrite (bind_run _ _ _ _ _ _ E2).
    cbn [final output outcome fst snd ret].
    eexists _, _. split; [reflexivity|].
    simpl_commands. now rewrite commands_mirror, Ho1, Ho2.
  - cbn [final output outcome fst snd ret].
    eexists _, _. split; [reflexivity|].
    simpl_commands. now rewrite commands_mirror.
Qed.

(** C6 (amended).  A tool call whose function is not registered, or whose
    argument string [json.loads] rejects with [json.JSONDecodeError], makes
    [handle_function_call] return (not raise) a text that is a JSON object
    with an [error] member; and when a speech-endpoint client is present the
    bridge hands it a conversation.item.create command carrying that text as
    a function_call_output item, immediately followed by response.create.
    Arguments on which [json.loads] raises another exception are no part of
    the statement: see [tool_call_decoder_exception_unanswered]. *)
Theorem tool_call_error_still_answers (name arguments : string) (call_id : pyval) :
  error_call name arguments ->
  exists text,
    handle_function_call function_handler_service (PStr name) (PStr arguments) = Ok text
    /\ Json.is_object_with_key "error" text
    /\ forall s c,
         openai_client s = Some c ->
         let r := handle_openai_message
                    (output_item_done (function_call_item name arguments call_id)) s in
         outcome r = Ok tt
         /\ commands (output r)
            = [SendMessage (function_call_output_message call_id text);
               SendMessage response_create_message].
Proof.
  intros Herr.
  destruct (handle_function_call_error name arguments Herr) as (msg & Hcall).
  exists (Json.dumps_error msg). split; [exact Hcall|].
  split; [apply dumps_error_is_object|].
  intros [st tw fe oc] c Hc. cbn [openai_client] in Hc. subst oc.
  destruct (function_call_run st tw fe (Some c) name arguments call_id _ Hcall)
    as (oc' & o & E & Ho).
  cbv zeta. rewrite E. split; [reflexivity | exact Ho].
Qed.

(** ** Computations that keep both legs and the client in place *)

Lemma keeps_legs_client_only {A} (m : M A) : client_only m -> keeps_legs m.
Proof.
  intros H st tw fe c. destruct (H st tw fe c) as (c' & o & r & E).
  now exists st, c', o, r.
Qed.

Lemma keeps_legs_client_only_ok {A} (m : M A) : client_only_ok m -> keeps_legs m.
Proof. intros H. now apply keeps_legs_client_only, client_only_ok_weaken. Qed.

Lemma keeps_legs_bind {A B} (m : M A) (k : A -> M B) :
  keeps_legs m -> (forall a, keeps_legs (k a)) -> keeps_legs (bind m k).
Proof.
  intros Hm Hk st tw fe c. unfold bind.
  destruct (Hm st tw fe c) as (st1 & c1 & o1 & [a|e] & ->).
  - destruct (Hk a st1 tw fe c1) as (st2 & c2 & o2 & r & ->).
    now eexists _, _, _, _.
  - now eexists _, _, _, _.
Qed.

Lemma keeps_legs_try {A} (m : M A) (h : exn -> M A) :
  keeps_legs m -> (forall e, keeps_legs (h e)) -> keeps_legs (try_except m h).
Proof.
  intros Hm Hh st tw fe c. unfold try_except.
  destruct (Hm st tw fe c) as (st1 & c1 & o1 & [a|e] & ->).
  - now eexists _, _, _, _.
  - destruct (Hh e st1 tw fe c1) as (st2 & c2 & o2 & r & ->).
    now eexists _, _, _, _.
Qed.

Lemma keeps_legs_get_self {B} (k : SessionManager -> M B) :
  (forall s, keeps_legs (k s)) -> keeps_legs (bind get_self k).
Proof.
  intros Hk st tw fe c. rewrite bind_get_self. apply Hk.
Qed.

Lemma keeps_legs_modify_state f : keeps_legs (modify_state f).
Proof. intros st tw fe c. now exists (f st), c, [], (Ok tt). Qed.

Ltac keeps_legs_step :=
  lazymatch goal with
  | |- keeps_legs (bind get_self _) => apply keeps_legs_get_self; intros ?
  | |- keeps_legs (bind _ _) => apply keeps_legs_bind; [|intros ?]
  | |- keeps_legs (try_except _ _) => apply keeps_legs_try; [|intros ?]
  | |- keeps_legs (modify_state _) => apply keeps_legs_modify_state
  | |- keeps_legs (ret _) => apply keeps_legs_client_only_ok, client_only_ret
  | |- keeps_legs (emit _) => apply keeps_legs_client_only_ok, client_only_emit
  | |- keeps_legs (raise _) => apply keeps_legs_client_only, client_only_raise
  | |- keeps_legs (lift _) => apply keeps_legs_client_only, client_only_lift
  | |- keeps_legs (send_message _) =>
      apply keeps_legs_client_only_ok, client_only_send_message
  | |- keeps_legs (match ?x with _ => _ end) => destruct x
  | |- _ => solve [auto]
  end.

Ltac keeps_legs_auto := repeat keeps_legs_step.

Lemma keeps_legs__send_to_twilio m : keeps_legs (_send_to_twilio m).
Proof. unfold _send_to_twilio. keeps_legs_auto. Qed.

Lemma keeps_legs__send_to_frontend m : keeps_legs (_send_to_frontend m).
Proof. apply keeps_legs_client_only_ok, client_only__send_to_frontend. Qed.

Lemma keeps_legs__handle_truncation : keeps_legs _handle_truncation.
Proof.
  pose proof keeps_legs__send_to_twilio.
  unfold _handle_truncation. keeps_legs_auto.
Qed.

Lemma keeps_legs__handle_audio_delta m : keeps_legs (_handle_audio_delta m).
Proof.
  pose proof keeps_legs__send_to_twilio.
  unfold _handle_audio_delta. keeps_legs_auto.
Qed.

Lemma on_wire_app o1 o2 : on_wire (o1 ++ o2) = on_wire o1 ++ on_wire o2.
Proof. apply List.filter_app. Qed.

Lemma bind_get_client {B} (k : OpenAIClient -> M B) st tw fe c :
  bind get_client k (mkSessionManager st tw fe (Some c))
  = k c (mkSessionManager st tw fe (Some c)).
Proof.
  unfold get_client. unfold bind at 1. rewrite bind_get_self.
  cbn [openai_client ret]. now destruct (k c _) as [[? ?] ?].
Qed.

Lemma bind_modify_client {B} f (k : unit -> M B) st tw fe c :
  bind (modify_client f) k (mkSessionManager st tw fe (Some c))
  = k tt (mkSessionManager st tw fe (Some (f c))).
Proof. unfold modify_client. now rewrite bind_modify. Qed.

Lemma handle_disconnection_run st tw fe c :
  exists c' o,
    _handle_disconnection (mkSessionManager st tw fe (Some c))
    = (mkSessionManager st tw fe (Some c'), o, Ok tt)
    /\ is_connected c' = false
    /\ on_wire o = [].
Proof.
  destruct c as [ws ic mh sc ar mx rd mrd cur rt onc ond].
  unfold _handle_disconnection, _start_reconnect, run_callback,
    _on_openai_disconnected, _on_openai_connected, _send_to_frontend.
  destruct ic; [|now eexists _, _].
  destruct ond as [[| |[]]|], ar, rt as [[]|], fe; now eexists _, _.
Qed.

Lemma send_message_unusable m st tw fe c :
  unusable c ->
  exists c' o b,
    send_message m (mkSessionManager st tw fe (Some c))
    = (mkSessionManager st tw fe (Some c'), SendMessage m :: o, Ok b)
    /\ on_wire o = []
    /\ unusable c'.
Proof.
  intros Hc. unfold send_message.
  rewrite bind_emit, bind_get_client.
  destruct (is_connected c) eqn:Hic; [destruct (websocket c) as [[]|] eqn:Hws|].
  - destruct Hc as [Hc|Hc]; congruence.
  - rewrite bind_emit.
    destruct (handle_disconnection_run st tw fe c) as (c' & o & E & Hic' & Ho).
    rewrite (bind_run _ _ _ _ _ _ E). cbn [ret final output outcome fst snd].
    eexists _, _, _. split; [reflexivity|]. split; [|now left].
    cbn [on_wire List.filter is_wire]. fold (on_wire (o ++ [])).
    now rewrite app_nil_r.
  - rewrite bind_emit. cbn [ret final output outcome fst snd].
    eexists _, _, _. split; [reflexivity|]. split; [reflexivity|].
    right. rewrite Hws. discriminate.
  - rewrite bind_emit. cbn [ret final output outcome fst snd].
    eexists _, _, _. split; [reflexivity|]. split; [reflexivity|]. now left.
Qed.

Lemma keeps_legs_handle_openai_message m :
  keeps_legs (handle_openai_message m).
Proof.
  pose proof keeps_legs__send_to_frontend.
  pose proof keeps_legs__handle_truncation.
  pose proof keeps_legs__handle_audio_delta.
  unfold handle_openai_message, _handle_speech_started,
    _handle_output_item_done, _handle_function_call.
  keeps_legs_auto.
Qed.

Lemma listen_messages_run frames ending :
  forall st tw fe c, exists st' c' o,
    _listen_messages frames ending (mkSessionManager st tw fe (Some c))
    = (mkSessionManager st' tw fe (Some c'), o, Ok tt)
    /\ unusable c'.
Proof.
  induction frames as [|frame rest IH]; intros st tw fe c.
  - destruct ending; cbn [_listen_messages].
    + eexists _, _, _. split; [reflexivity|]. right. cbn. discriminate.
    + rewrite bind_modify_client. cbv beta.
      destruct (handle_disconnection_run st tw fe (set_websocket (Some TClosed) c))
        as (c' & o & E & Hic & _).
      rewrite E. eexists _, _, _. split; [reflexivity|]. now left.
    + rewrite bind_emit.
      destruct (handle_disconnection_run st tw fe c) as (c' & o & E & Hic & _).
      rewrite E. cbn [final output outcome fst snd].
      eexists _, _, _. split; [reflexivity|]. now left.
  - cbn [_listen_messages]. rewrite bind_get_client.
    destruct (is_connected c) eqn:Hic; cbn [negb].
    2: { eexists _, _, _. split; [reflexivity|]. now left. }
    assert (Hh : exists st1 c1 o1,
      match frame with
      | Decoded data =>
          if message_handler c
          then try_except (handle_openai_message data)
                 (fun _ => emit (LogError "Error handling OpenAI message"))
          else ret tt
      | JSONDecodeError => emit (LogError "Failed to parse OpenAI message")
      | DecodingRaises _ => emit (LogError "Error handling OpenAI message")
      end (mkSessionManager st tw fe (Some c))
      = (mkSessionManager st1 tw fe (Some c1), o1, Ok tt)).
    { destruct frame as [data| |e']; [destruct (message_handler c)| |];
        try (now eexists _, _, _).
      unfold try_except.
      destruct (keeps_legs_handle_openai_message data st tw fe c)
        as (st1 & c1 & o1 & [[]|e] & ->); now eexists _, _, _. }
    destruct Hh as (st1 & c1 & o1 & E1).
    rewrite (bind_run _ _ _ _ _ _ E1).
    destruct (IH st1 tw fe c1) as (st2 & c2 & o2 & E2 & Hc2).
    rewrite E2. cbn [final output outcome fst snd].
    now eexists _, _, _.
Qed.

Lemma send_session_update_unusable st tw fe c :
  unusable c ->
  exists c' o r,
    _send_session_update (mkSessionManager st tw fe (Some c))
    = (mkSessionManager st tw fe (Some c'), o, r)
    /\ on_wire o = []
    /\ unusable c'
    /\ (forall u, r = Ok u ->
        exists session o', o = SendMessage (session_update_message session) :: o').
Proof.
  intros Hc. unfold _send_session_update. rewrite bind_get_client.
  destruct (session_of_config (session_config c)) as [session|e].
  - rewrite bind_lift_ok.
    destruct (send_message_unusable (session_update_message session) st tw fe c Hc)
      as (c' & o & b & E & Ho & Hc').
    rewrite (bind_run _ _ _ _ _ _ E). cbn [ret final output outcome fst snd].
    eexists _, _, _. split; [reflexivity|]. rewrite app_nil_r.
    split; [exact Ho|]. split; [exact Hc'|]. intros _ _. now eexists _, _.
  - eexists _, _, _. split; [reflexivity|]. split; [reflexivity|].
    split; [exact Hc|]. intros u [=].
Qed.

Lemma run_callback_off_wire cb st tw fe oc :
  exists o r,
    run_callback cb (mkSessionManager st tw fe oc)
    = (mkSessionManager st tw fe oc, o, r)
    /\ on_wire o = [].
Proof.
  destruct cb as [| |[]];
    unfold run_callback, _on_openai_connected, _on_openai_disconnected,
      _send_to_frontend;
    destruct fe; now eexists _, _.
Qed.

Lemma handle_connection_failure_off_wire st tw fe c :
  exists c' o,
    _handle_connection_failure (mkSessionManager st tw fe (Some c))
    = (mkSessionManager st tw fe (Some c'), o, Ok tt)
    /\ on_wire o = [].
Proof.
  destruct c as [ws ic mh sc ar mx rd mrd cur rt onc ond].
  unfold _handle_connection_failure, _start_reconnect.
  destruct ar, rt as [[]|]; now eexists _, _.
Qed.

Lemma after_listening_run st tw fe c :
  unusable c ->
  exists c' rest b,
    after_listening (mkSessionManager st tw fe (Some c))
    = (mkSessionManager st tw fe (Some c'), ListenEnded :: rest, Ok b)
    /\ on_wire rest = []
    /\ (b = true ->
        exists session o',
          rest = SendMessage (session_update_message session) :: o').
Proof.
  intros Hc. unfold after_listening.
  destruct (send_session_update_unusable st tw fe c Hc)
    as (c1 & o1 & r1 & E1 & Ho1 & Hc1 & Hsent).
  destruct r1 as [[]|e].
  - destruct (Hsent tt eq_refl) as (session & o' & ->).
    assert (Hcb : exists o2,
      match on_connected c1 with
      | Some cb =>
          try_except (run_callback cb)
            (fun _ => emit (LogError "Error in connection callback"))
      | None => ret tt
      end (mkSessionManager st tw fe (Some c1))
      = (mkSessionManager st tw fe (Some c1), o2, Ok tt) /\ on_wire o2 = []).
    { destruct (on_connected c1) as [cb|]; [|now eexists].
      destruct (run_callback_off_wire cb st tw fe (Some c1))
        as (o2 & [[]|e] & E & Ho2).
      - rewrite (try_returned _ _ _ _ _ _ E). now eexists.
      - rewrite (try_raised _ _ _ _ _ _ E). eexists. split; [reflexivity|].
        cbn [emit output fst snd]. rewrite on_wire_app, Ho2. reflexivity. }
    destruct Hcb as (o2 & E2 & Ho2).
    erewrite try_returned.
    2: { rewrite bind_emit. cbv beta.
         rewrite (bind_run _ _ _ _ _ _ E1), bind_get_client,
           (bind_run _ _ _ _ _ _ E2).
         cbn [ret final output outcome fst snd]. reflexivity. }
    eexists _, _, _. split; [reflexivity|]. split.
    + rewrite !app_nil_r. change (on_wire (o' ++ o2) = []).
      rewrite on_wire_app, Ho2, app_nil_r. exact Ho1.
    + intros _. now eexists _, _.
  - erewrite try_raised.
    2: { rewrite bind_emit. cbv beta. rewrite (bind_raised _ _ _ _ _ _ E1).
         cbn [final output outcome fst snd]. reflexivity. }
    rewrite bind_emit. cbv beta. rewrite bind_modify_client. cbv beta.
    destruct (handle_connection_failure_off_wire st tw fe (set_is_connected false c1))
      as (c2 & o2 & E2 & Ho2).
    rewrite (bind_run _ _ _ _ _ _ E2).
    cbn [ret final output outcome fst snd].
    eexists _, _, _. split; [reflexivity|]. split; [|discriminate].
    rewrite app_nil_r, on_wire_app, Ho1.
    cbn [app on_wire List.filter is_wire]. exact Ho2.
Qed.

(** The session that is sent: each field of the model holds the caller's
    value when the configuration has the key, its default otherwise. *)
Lemma session_of_config_merges config session :
  session_of_config config = Ok session ->
  exists items,
    config_items config = Ok items
    /\ session = PDict (map (merged_field items) OpenAISessionConfig_defaults)
    /\ forall field dflt,
         In (field, dflt) OpenAISessionConfig_defaults ->
         In (field, default dflt (assoc_get field items))
            (map (merged_field items) OpenAISessionConfig_defaults).
Proof.
  unfold session_of_config. destruct (config_items config) as [items|e]; [|discriminate].
  destruct (forallb _ _); [|discriminate]. intros [= <-].
  exists items. split; [reflexivity|]. split; [reflexivity|].
  intros field dflt Hin.
  exact (in_map (merged_field items) _ _ Hin).
Qed.

(** C3.  What [connect] does when the transport opens: the counter is reset
    and the listening task is created and awaited, so every frame of the
    connection is handled and the stream has ended before the rest runs;
    only then is the session.update command handed to [send_message], on a
    client that is by then disconnected or has a closed transport, so that
    nothing reaches the wire after the listening; the callback follows and
    [connect] returns. *)
Theorem connect_sends_session_update_after_listening
    st tw fe c frames ending :
  let c0 := set_current_reconnect_attempts 0
              (set_is_connected true (set_websocket (Some TOpen) c)) in
  let listening := _listen_messages frames ending
                     (mkSessionManager st tw fe (Some c0)) in
  exists c' rest b,
    connect (Opened frames ending) (mkSessionManager st tw fe (Some c))
    = (set_openai_client (Some c') (final listening),
       TransportOpened :: ListenStarted :: output listening ++ ListenEnded :: rest,
       Ok b)
    /\ on_wire rest = []
    /\ (b = true ->
        exists session o',
          rest = SendMessage (session_update_message session) :: o').
Proof.
  intros c0 listening.
  destruct (listen_messages_run frames ending st tw fe c0)
    as (st1 & c1 & o1 & E1 & Hc1).
  destruct (after_listening_run st1 tw fe c1 Hc1) as (c2 & rest & b & E2 & Hrest & Hb).
  exists c2, rest, b. split; [|split; assumption].
  unfold listening. rewrite E1. cbn [final output fst snd set_openai_client
    state twilio_websocket frontend_websocket].
  unfold connect.
  do 5 (erewrite try_bind_returned; [|reflexivity]; cbv beta).
  cbn [final output outcome fst snd app set_openai_client option_map
         openai_client state twilio_websocket frontend_websocket].
  fold c0.
  erewrite try_bind_returned; [|exact E1]. cbv beta.
  fold after_listening. rewrite E2.
  cbn [final output outcome fst snd app]. reflexivity.
Qed.

(** ** Reconnection *)

Lemma connect_fails_run st tw fe c :
  reconnecting c ->
  connect OpenFails (mkSessionManager st tw fe (Some c))
  = (mkSessionManager st tw fe (Some c),
     [LogError "Failed to connect to OpenAI API"], Ok false).
Proof.
  destruct c as [ws ic mh sc ar mx rd mrd cur rt onc ond].
  intros (Har & Hic & Hrt). cbn in Har, Hic, Hrt. subst. reflexivity.
Qed.

Lemma reconnect_loop_end_run st tw fe c :
  _reconnect_loop_end (mkSessionManager st tw fe (Some c))
  = (mkSessionManager st tw fe (Some (set_reconnect_task (Some TaskDone) c)),
     if (max_reconnect_attempts c <=? current_reconnect_attempts c)
        && negb (is_connected c)
     then [LogError "Failed to reconnect"] else [],
     Ok LoopFinished).
Proof.
  unfold _reconnect_loop_end. rewrite bind_get_client.
  destruct ((max_reconnect_attempts c <=? current_reconnect_attempts c)
            && negb (is_connected c)); reflexivity.
Qed.

Lemma backoff_delay_ok c n :
  n <= 1024 -> backoff_delay c n = Ok (capped_delay c n).
Proof.
  intros Hn. unfold backoff_delay.
  now replace (1024 <=? n - 1) with false by (symmetry; apply Z.leb_gt; lia).
Qed.



Lemma reconnect_iteration st tw fe c rest :
  reconnecting c ->
  current_reconnect_attempts c < max_reconnect_attempts c ->
  current_reconnect_attempts c < 1024 ->
  let n := current_reconnect_attempts c + 1 in
  let c1 := set_current_reconnect_attempts n c in
  let x := _reconnect_loop rest (mkSessionManager st tw fe (Some c1)) in
  _reconnect_loop (Woke OpenFails :: rest) (mkSessionManager st tw fe (Some c))
  = (final x,
     Sleep (capped_delay c n) :: LogError "Failed to connect to OpenAI API"
       :: output x,
     outcome x).
Proof.
  intros Hc Hlt Hbound n c1 x.
  assert (Hc1 : reconnecting c1).
  { destruct c; exact Hc. }
  cbn [_reconnect_loop]. rewrite bind_get_client.
  unfold loop_condition.
  destruct Hc as (Har & Hic & Hrt). rewrite Har, Hic.
  rewrite (proj2 (Z.ltb_lt _ _) Hlt). cbn [andb negb].
  rewrite bind_modify_client. cbv beta.
  rewrite backoff_delay_ok by lia. rewrite bind_emit. cbv beta.
  rewrite bind_get_client.
  fold n. fold c1.
  destruct Hc1 as (Har1 & Hic1 & Hrt1). rewrite Har1. cbn [negb].
  rewrite (bind_run _ _ _ _ _ _
             (connect_fails_run st tw fe c1 (conj Har1 (conj Hic1 Hrt1)))).
  fold x. cbn [final output outcome fst snd app]. reflexivity.
Qed.

Lemma reconnect_loop_stops st tw fe c script :
  loop_condition c = false ->
  _reconnect_loop script (mkSessionManager st tw fe (Some c))
  = _reconnect_loop_end (mkSessionManager st tw fe (Some c)).
Proof.
  intros H. destruct script; cbn [_reconnect_loop];
    rewrite bind_get_client, H; reflexivity.
Qed.

Lemma delays_after_S c from count :
  delays_after c from (S count)
  = capped_delay c (from + 1) :: delays_after c (from + 1) count.
Proof.
  unfold delays_after. cbn [seq map]. f_equal.
  rewrite <- seq_shift, map_map. apply map_ext. intros i. f_equal. lia.
Qed.





(** ** Backoff delays *)







(** ** Media timestamps *)

(** [_safe_int] returns for every value but the two infinite floats. *)
Lemma safe_int_returns (v : pyval) :
  (forall negative, v <> PFloat (FInf negative)) ->
  exists z, _safe_int v = Ok z.
Proof.
  intros Hv. destruct v as [|b|z|[m e|negative|]|s|l|d]; cbn; eauto.
  - now destruct (Hv negative).
  - destruct (int_of_string s); eauto.
Qed.

Lemma media_latest net st tw fe oc timestamp chunk z :
  _safe_int timestamp = Ok z ->
  exists oc' o,
    handle_twilio_message (media_chunk timestamp chunk) net
      (mkSessionManager st tw fe oc)
    = (mkSessionManager (set_latest_media_timestamp (Some z) st) tw fe oc', o, Ok tt).
Proof.
  intros Hts. destruct oc as [c|].
  - destruct (media_run net st tw fe c timestamp chunk z Hts)
      as (c2 & o & E).
    now exists (Some c2), o.
  - exists None, [].
    unfold handle_twilio_message, _handle_twilio_media.
    change (get (media_chunk timestamp chunk) "event" PNone) with (Ok (PStr "media")).
    rewrite bind_lift_ok.
    change (eq_str (PStr "media") TWILIO_START) with false.
    change (eq_str (PStr "media") TWILIO_MEDIA) with true. cbv iota.
    change (get (media_chunk timestamp chunk) "media" (PDict []))
      with (Ok (PDict [("timestamp", timestamp); ("payload", chunk)])).
    rewrite bind_lift_ok.
    change (get (PDict [("timestamp", timestamp); ("payload", chunk)])
              "timestamp" (PInt 0)) with (Ok timestamp).
    rewrite bind_lift_ok, Hts, bind_lift_ok, bind_modify_state, bind_get_self.
    reflexivity.
Qed.

(** While no timestamp is an infinite float, the last chunk decides. *)
Lemma media_sequence_latest net chunks timestamp chunk z s :
  Forall (fun tc => exists z', _safe_int (fst tc) = Ok z') chunks ->
  _safe_int timestamp = Ok z ->
  latest_media_timestamp
    (state (handle_media_chunks (chunks ++ [(timestamp, chunk)]) net s))
  = Some z.
Proof.
  intros Hall Hts. revert s.
  induction Hall as [|[ts c] rest (z' & Hz') _ IH]; intros [st tw fe oc].
  - cbn [app handle_media_chunks].
    destruct (media_latest net st tw fe oc timestamp chunk z Hts) as (oc' & o & ->).
    reflexivity.
  - cbn [app handle_media_chunks].
    destruct (media_latest net st tw fe oc ts c z' Hz') as (oc' & o & ->).
    apply IH.
Qed.

(** C4.  The code on a media chunk whose timestamp is a number too large for
    a float, which [json.loads] reads as infinity: [int] raises
    [OverflowError], [_safe_int] does not catch it, and the handler raises
    with the session, [latest_media_timestamp] included, left as it was. *)
Theorem media_timestamp_infinity_raises (s : SessionManager) (net : opening)
    (chunk : pyval) (negative : bool) :
  _safe_int (PFloat (FInf negative)) = Raise OverflowError
  /\ handle_twilio_message (media_chunk (PFloat (FInf negative)) chunk) net s
     = (s, [], Raise OverflowError).
Proof. split; reflexivity. Qed.


(** * Further properties *)

(** ** What [send_message] does *)

Lemma send_message_cases m st tw fe c :
  exists c' o b,
    send_message m (mkSessionManager st tw fe (Some c))
    = (mkSessionManager st tw fe (Some c'), SendMessage m :: o, Ok b)
    /\ commands o = []
    /\ on_wire o = (if b then [OpenAISend m] else [])
    /\ b = usable c
    /\ (b = true -> c' = c)
    /\ (websocket c = Some TClosed -> is_connected c' = false)
    /\ same_settings c c'
    /\ websocket c' = websocket c
    /\ sleeps o = [] /\ attempts o = [].
Proof.
  destruct c as [ws ic mh sc ar mx rd mrd cur rt onc ond].
  unfold send_message, _handle_disconnection, _start_reconnect,
    run_callback, _on_openai_disconnected, _on_openai_connected,
    _send_to_frontend, same_settings, usable.
  destruct ic; [destruct ws as [[]|]|];
    try (eexists _, _, _; split; [reflexivity|]; cbn;
         repeat split; try reflexivity; try discriminate; fail).
  destruct ond as [[| |[]]|], ar, rt as [[]|], fe;
    (eexists _, _, _; split; [reflexivity|]; cbn;
     repeat split; try reflexivity; try discriminate).
Qed.

(** ** Media chunks *)

Lemma media_frame_run net st tw fe oc media z :
  _safe_int (chunk_timestamp media) = Ok z ->
  exists oc' o,
    handle_twilio_message (media_frame media) net (mkSessionManager st tw fe oc)
    = (mkSessionManager (set_latest_media_timestamp (Some z) st) tw fe oc', o, Ok tt)
    /\ commands o
       = match oc with
         | Some c =>
             if is_connected c
             then [SendMessage (append_message (chunk_payload media))]
             else []
         | None => []
         end
    /\ on_wire o
       = match oc with
         | Some c =>
             if usable c then [OpenAISend (append_message (chunk_payload media))]
             else []
         | None => []
         end.
Proof.
  intros Hts.
  unfold handle_twilio_message, _handle_twilio_media.
  change (get (media_frame media) "event" PNone) with (Ok (PStr "media")).
  rewrite bind_lift_ok.
  change (eq_str (PStr "media") TWILIO_START) with false.
  change (eq_str (PStr "media") TWILIO_MEDIA) with true. cbv iota.
  change (get (media_frame media) "media" (PDict [])) with (Ok (PDict media)).
  rewrite bind_lift_ok.
  change (get (PDict media) "timestamp" (PInt 0)) with (Ok (chunk_timestamp media)).
  rewrite bind_lift_ok, Hts, bind_lift_ok, bind_modify_state, bind_get_self.
  cbn [set_state state twilio_websocket frontend_websocket openai_client].
  destruct oc as [c|]; [|now eexists _, _].
  destruct (is_connected c) eqn:Hic.
  - change (get (PDict media) "payload" (PStr "")) with (Ok (chunk_payload media)).
    rewrite bind_lift_ok.
    destruct (send_message_cases (append_message (chunk_payload media))
                (set_latest_media_timestamp (Some z) st) tw fe c)
      as (c2 & o & b & E & Ho & Hw & Hb & _).
    rewrite (bind_run _ _ _ _ _ _ E). cbn [ret final output outcome fst snd].
    eexists _, _. split; [reflexivity|]. rewrite app_nil_r. split.
    + simpl_commands. now rewrite Ho.
    + cbn [on_wire List.filter is_wire]. fold (on_wire o).
      rewrite Hw, <- Hb. reflexivity.
  - eexists _, _. split; [reflexivity|]. split; [reflexivity|].
    unfold usable. now rewrite Hic.
Qed.

(** A readable media frame is handled as the frame made of its media
    object alone. *)
Lemma readable_media_frame_run net st tw fe oc frame :
  readable_media_frame frame ->
  exists z oc' o,
    _safe_int (frame_timestamp frame) = Ok z
    /\ handle_twilio_message (PDict frame) net (mkSessionManager st tw fe oc)
       = (mkSessionManager (set_latest_media_timestamp (Some z) st) tw fe oc',
          o, Ok tt).
Proof.
  intros (Hev & media & Hmedia & Hts).
  destruct (safe_int_returns _ Hts) as (z & Hz).
  destruct (media_frame_run net st tw fe oc media z Hz) as (oc' & o & E & _).
  exists z, oc', o. split.
  - unfold frame_timestamp. now rewrite Hmedia.
  - rewrite <- E. unfold handle_twilio_message.
    change (get (media_frame media) "event" PNone) with (Ok (PStr "media")).
    change (get (PDict frame) "event" PNone)
      with (Ok (default PNone (assoc_get "event" frame))).
    rewrite Hev. change (default PNone (Some (PStr "media"))) with (PStr "media").
    rewrite !bind_lift_ok.
    change (eq_str (PStr "media") TWILIO_START) with false.
    change (eq_str (PStr "media") TWILIO_MEDIA) with true. cbv iota.
    unfold _handle_twilio_media.
    change (get (PDict frame) "media" (PDict [])) with (Ok (frame_media frame)).
    rewrite Hmedia. reflexivity.
Qed.

(** X1.  Media frames whose media member is an object or is missing and
    none of whose timestamps is an infinite float, handled in order: no
    handler raises, and [latest_media_timestamp] ends as the integer
    [_safe_int] makes of the last frame's timestamp field, 0 when the field
    is missing or does not read as a number. *)
Theorem media_frames_track_last_timestamp (net : opening)
    (frames : list (list (string * pyval))) (last : list (string * pyval))
    (s : SessionManager) :
  Forall readable_media_frame (frames ++ [last]) ->
  let r := handle_media_frames (map PDict (frames ++ [last])) net s in
  outcome r = Ok tt
  /\ exists z,
       _safe_int (frame_timestamp last) = Ok z
       /\ latest_media_timestamp (state (final r)) = Some z.
Proof.
  intros Hall r. unfold r. clear r. revert s Hall.
  induction frames as [|frame rest IH]; intros [st tw fe oc] Hall.
  - cbn [app map handle_media_frames]. apply Forall_inv in Hall.
    destruct (readable_media_frame_run net st tw fe oc last Hall)
      as (z & oc' & o & Hz & E).
    rewrite (bind_run _ _ _ _ _ _ E). cbn [ret final output outcome fst snd].
    split; [reflexivity|]. exists z. split; [exact Hz | reflexivity].
  - cbn [app map handle_media_frames].
    pose proof (Forall_inv Hall) as Hframe.
    apply Forall_inv_tail in Hall.
    destruct (readable_media_frame_run net st tw fe oc frame Hframe)
      as (z & oc' & o & _ & E).
    rewrite (bind_run _ _ _ _ _ _ E). cbn [final output outcome fst snd].
    exact (IH _ Hall).
Qed.

(** X2.  A media chunk is handed to the speech endpoint's client only when
    that client is marked connected, as one append command with the chunk's
    payload (the empty string when the field is missing); it reaches the
    wire when the transport is open.  Without a client, or with a client
    that is not connected, the chunk is dropped. *)
Theorem media_chunk_forwarded_when_connected (net : opening) st tw fe oc
    (media : list (string * pyval)) (z : Z) :
  _safe_int (chunk_timestamp media) = Ok z ->
  let r := handle_twilio_message (media_frame media) net
             (mkSessionManager st tw fe oc) in
  outcome r = Ok tt
  /\ state (final r) = set_latest_media_timestamp (Some z) st
  /\ commands (output r)
     = match oc with
       | Some c =>
           if is_connected c
           then [SendMessage (append_message (chunk_payload media))]
           else []
       | None => []
       end
  /\ on_wire (output r)
     = match oc with
       | Some c =>
           if usable c then [OpenAISend (append_message (chunk_payload media))]
           else []
       | None => []
       end.
Proof.
  intros Hts r. unfold r.
  destruct (media_frame_run net st tw fe oc media z Hts) as (oc' & o & -> & Hc & Hw).
  split; [reflexivity|]. split; [reflexivity|]. split; assumption.
Qed.

(** ** Audio deltas *)

Lemma audio_delta_run d st ws fe oc :
  truthy (stream_sid st) = true ->
  _handle_audio_delta (PDict d) (mkSessionManager st (Some ws) fe oc)
  = (mkSessionManager (delta_state d st) (Some ws) fe oc,
     delta_commands d st ws, Ok tt).
Proof.
  intros Hsid. unfold _handle_audio_delta. rewrite bind_get_self.
  cbn [twilio_websocket state]. rewrite Hsid.
  unfold delta_state, delta_commands.
  change (get (PDict d) "item_id" PNone)
    with (Ok (default PNone (assoc_get "item_id" d))).
  change (get (PDict d) "delta" (PStr ""))
    with (Ok (default (PStr "") (assoc_get "delta" d))).
  destruct st as [sid latest resp item saved].
  cbn [stream_sid latest_media_timestamp response_start_timestamp
         last_assistant_item saved_config].
  destruct resp as [r|],
    (truthy (default PNone (assoc_get "item_id" d))) eqn:Hitem,
    (truthy (default (PStr "") (assoc_get "delta" d))) eqn:Hpay;
    unfold bind, modify_state, modify, lift, ret, _send_to_twilio, get_self, emit;
    cbn; rewrite ?Hitem, ?Hpay; reflexivity.
Qed.

(** X3.  An audio delta that arrives while there is no telephony leg, or
    while the stream id is unset or empty, is ignored: nothing is sent and
    the session is left as it was. *)
Theorem audio_delta_ignored_without_stream (message : pyval) (s : SessionManager) :
  twilio_websocket s = None \/ truthy (stream_sid (state s)) = false ->
  _handle_audio_delta message s = (s, [], Ok tt).
Proof.
  intros H. unfold _handle_audio_delta. rewrite bind_get_self.
  destruct H as [-> | ->]; [reflexivity|].
  now destruct (twilio_websocket s).
Qed.

(** X4.  An audio delta handled with a telephony leg and a stream id:
    [response_start_timestamp] is captured from [latest_media_timestamp] (0
    when unset) only if it was unset, otherwise kept; [last_assistant_item]
    follows the delta's item id when that is present and non-empty; and a
    non-empty payload goes to the telephony leg as a media command
    immediately followed by a mark, both with the stream id, an empty or
    missing payload sending nothing.  The client is not involved. *)
Theorem audio_delta_effect (d : list (string * pyval)) st ws fe oc :
  truthy (stream_sid st) = true ->
  let r := _handle_audio_delta (PDict d) (mkSessionManager st (Some ws) fe oc) in
  outcome r = Ok tt
  /\ final r = mkSessionManager (delta_state d st) (Some ws) fe oc
  /\ output r = delta_commands d st ws
  /\ (forall t, response_start_timestamp st = Some t ->
      response_start_timestamp (delta_state d st) = Some t)
  /\ (response_start_timestamp st = None ->
      response_start_timestamp (delta_state d st)
      = Some (default 0 (latest_media_timestamp st))).
Proof.
  intros Hsid r. unfold r. rewrite (audio_delta_run d st ws fe oc Hsid).
  repeat (split; [reflexivity|]). split.
  - intros t Ht. unfold delta_state. now rewrite Ht.
  - intros Hn. unfold delta_state. rewrite Hn.
    cbn [response_start_timestamp]. f_equal.
    destruct (latest_media_timestamp st) as [z|]; [|reflexivity].
    cbn [or_zero truthy default]. destruct (Z.eqb_spec z 0) as [->|]; reflexivity.
Qed.

(** ** Speech events *)

Lemma send_to_frontend_run {B} message (k : unit -> M B) s :
  bind (_send_to_frontend message) k s
  = (final (k tt s), mirror (frontend_websocket s) message ++ output (k tt s),
     outcome (k tt s)).
Proof.
  unfold _send_to_frontend, mirror, bind at 1. rewrite bind_get_self.
  destruct (frontend_websocket s); cbv beta iota delta [emit ret];
    now destruct (k tt s) as [[? ?] ?].
Qed.

(** X5.  Every speech event is copied to the observer before anything else
    is done with it, whatever the event is.  An event that is not a JSON
    object raises [AttributeError] right after the copy, and an object whose
    type is none of the three the bridge consumes has no further effect: in
    both cases the session is left as it was. *)
Theorem speech_event_mirrored_first (message : pyval) (s : SessionManager) :
  let r := handle_openai_message message s in
  (exists o, output r = mirror (frontend_websocket s) message ++ o)
  /\ ((forall d, message <> PDict d) ->
      r = (s, mirror (frontend_websocket s) message, Raise AttributeError))
  /\ (forall d,
        message = PDict d ->
        let message_type := default PNone (assoc_get "type" d) in
        eq_str message_type OPENAI_INPUT_AUDIO_BUFFER_SPEECH_STARTED = false ->
        eq_str message_type OPENAI_RESPONSE_AUDIO_DELTA = false ->
        eq_str message_type OPENAI_RESPONSE_OUTPUT_ITEM_DONE = false ->
        r = (s, mirror (frontend_websocket s) message, Ok tt)).
Proof.
  intros r. subst r. unfold handle_openai_message. rewrite send_to_frontend_run.
  split; [now eexists|]. split.
  - intros Hnd. destruct message as [|b|z|f|t|l|d];
      try (cbn; now rewrite app_nil_r).
    now destruct (Hnd d).
  - intros d -> H1 H2 H3.
    change (get (PDict d) "type" PNone)
      with (Ok (default PNone (assoc_get "type" d))).
    rewrite bind_lift_ok, H1, H2, H3. cbn. now rewrite app_nil_r.
Qed.

(** ** Tearing the session down *)

(** X6.  [disconnect_all] never raises and always ends in the state of a
    fresh session manager: no legs, no client, default session state.  It
    closes the telephony socket and then the observer socket, each if
    present, hands no command to anyone, and run again it does nothing. *)
Theorem disconnect_all_resets (s : SessionManager) :
  let r := disconnect_all s in
  outcome r = Ok tt
  /\ final r = SessionManager_new
  /\ closed_sockets (output r)
     = present (twilio_websocket s) (frontend_websocket s)
  /\ commands (output r) = []
  /\ on_wire (output r) = []
  /\ disconnect_all (final r) = (SessionManager_new, [], Ok tt).
Proof.
  destruct s as [st [tw|] [fe|] [[[ws|] ic mh sc ar mx rd mrd cur [[]|] onc ond]|]];
    cbv zeta; repeat split; reflexivity.
Qed.

(** ** Observer messages *)

(** X7.  A JSON object received from the observer is handed verbatim to the
    speech endpoint's client when there is one, and to no one otherwise.
    [saved_config] is replaced exactly when the object's type is
    session.update, by its session field or by the empty object when that
    field is missing; the stream fields of the session state and both legs
    are never touched, and the handler does not raise. *)
Theorem frontend_message_forwarded_and_config_saved
    (d : list (string * pyval)) st tw fe oc :
  let r := handle_frontend_message (PDict d) (mkSessionManager st tw fe oc) in
  outcome r = Ok tt
  /\ commands (output r)
     = match oc with Some _ => [SendMessage (PDict d)] | None => [] end
  /\ on_wire (output r)
     = match oc with
       | Some c => if usable c then [OpenAISend (PDict d)] else []
       | None => []
       end
  /\ same_stream st (state (final r))
  /\ twilio_websocket (final r) = tw
  /\ frontend_websocket (final r) = fe
  /\ saved_config (state (final r))
     = if eq_str (default PNone (assoc_get "type" d)) OPENAI_SESSION_UPDATE
       then default (PDict []) (assoc_get "session" d)
       else saved_config st.
Proof.
  intros r. unfold r, handle_frontend_message. rewrite bind_get_self.
  cbn [openai_client].
  change (get (PDict d) "type" PNone)
    with (Ok (default PNone (assoc_get "type" d))).
  change (get (PDict d) "session" (PDict []))
    with (Ok (default (PDict []) (assoc_get "session" d))).
  destruct oc as [c|].
  - destruct (send_message_cases (PDict d) st tw fe c)
      as (c' & o & b & E & Ho & Hw & Hb & _).
    assert (E' : (_ok <-- send_message (PDict d) ;; ret tt)
                   (mkSessionManager st tw fe (Some c))
                 = (mkSessionManager st tw fe (Some c'),
                    SendMessage (PDict d) :: o, Ok tt)).
    { rewrite (bind_run _ _ _ _ _ _ E). cbn. now rewrite app_nil_r. }
    rewrite (bind_run _ _ _ _ _ _ E'), bind_lift_ok.
    destruct (eq_str (default PNone (assoc_get "type" d)) OPENAI_SESSION_UPDATE).
    + rewrite bind_lift_ok. unfold modify_state, modify.
      cbn [final output outcome fst snd]. rewrite app_nil_r.
      simpl_commands. cbn [on_wire List.filter is_wire]. fold (on_wire o).
      rewrite Ho, Hw, <- Hb. now repeat split.
    + cbn [ret final output outcome fst snd]. rewrite app_nil_r.
      simpl_commands. cbn [on_wire List.filter is_wire]. fold (on_wire o).
      rewrite Ho, Hw, <- Hb. now repeat split.
  - rewrite bind_ret, bind_lift_ok.
    destruct (eq_str (default PNone (assoc_get "type" d)) OPENAI_SESSION_UPDATE).
    + rewrite bind_lift_ok. now repeat split.
    + now repeat split.
Qed.

(** ** The client: sending and losing the connection *)

(** X8.  [send_message] never raises and returns [True] exactly when the
    message went on the wire, which it does when the client is connected
    over an open transport and at most once.  On a closed transport the
    client ends up disconnected; in every case its settings and the rest of
    the session are as before. *)
Theorem send_message_contract (message : pyval) st tw fe (c : OpenAIClient) :
  let r := send_message message (mkSessionManager st tw fe (Some c)) in
  exists c',
    final r = mkSessionManager st tw fe (Some c')
    /\ outcome r = Ok (usable c)
    /\ on_wire (output r) = (if usable c then [OpenAISend message] else [])
    /\ commands (output r) = [SendMessage message]
    /\ (usable c = true -> c' = c)
    /\ (websocket c = Some TClosed -> is_connected c' = false)
    /\ same_settings c c'.
Proof.
  intros r. unfold r.
  destruct (send_message_cases message st tw fe c)
    as (c' & o & b & -> & Ho & Hw & Hb & Hsame & Hclosed & Hset & _).
  exists c'. cbn [final output outcome fst snd]. rewrite <- Hb.
  split; [reflexivity|]. split; [reflexivity|]. split.
  { cbn [on_wire List.filter is_wire]. exact Hw. }
  split.
  { simpl_commands. now rewrite Ho. }
  split; [exact Hsame|]. split; assumption.
Qed.

(** Whether a reconnect task is in flight. *)
Lemma handle_disconnection_cases st tw fe c :
  exists c' o,
    _handle_disconnection (mkSessionManager st tw fe (Some c))
    = (mkSessionManager st tw fe (Some c'), o, Ok tt)
    /\ is_connected c' = false
    /\ same_settings c c'
    /\ websocket c' = websocket c
    /\ spawns o
       = (if is_connected c && auto_reconnect c
             && negb (match reconnect_task c with
                      | Some TaskRunning => true
                      | _ => false
                      end)
          then 1 else 0)%nat
    /\ (is_connected c = true -> auto_reconnect c = true ->
        reconnect_task c' = Some TaskRunning)
    /\ (is_connected c = false -> c' = c /\ o = [])
    /\ sleeps o = [] /\ attempts o = [].
Proof.
  destruct c as [ws ic mh sc ar mx rd mrd cur rt onc ond].
  unfold _handle_disconnection, _start_reconnect, run_callback,
    _on_openai_disconnected, _on_openai_connected, _send_to_frontend.
  destruct ic.
  - destruct ond as [[| |[]]|], ar, rt as [[]|], fe;
      (eexists _, _; split; [reflexivity|]; cbn;
       repeat split; try reflexivity; intros; discriminate).
  - eexists _, _; split; [reflexivity|]; cbn;
      repeat split; try reflexivity; intros; discriminate.
Qed.

(** X9.  [_handle_disconnection] acts once per lost connection: it marks
    the client disconnected and creates a reconnect task only when the
    client was connected, reconnection is enabled and no such task is
    running; handled again, the same loss does nothing.  It never raises,
    whatever the disconnection callback does. *)
Theorem disconnection_handled_once st tw fe (c : OpenAIClient) :
  let r := _handle_disconnection (mkSessionManager st tw fe (Some c)) in
  exists c',
    final r = mkSessionManager st tw fe (Some c')
    /\ outcome r = Ok tt
    /\ is_connected c' = false
    /\ same_settings c c'
    /\ spawns (output r)
       = (if is_connected c && auto_reconnect c
             && negb (match reconnect_task c with
                      | Some TaskRunning => true
                      | _ => false
                      end)
          then 1 else 0)%nat
    /\ (is_connected c = true -> auto_reconnect c = true ->
        reconnect_task c' = Some TaskRunning)
    /\ _handle_disconnection (final r) = (final r, [], Ok tt).
Proof.
  intros r. unfold r.
  destruct (handle_disconnection_cases st tw fe c)
    as (c' & o & -> & Hic & Hset & _ & Hsp & Hrt & _).
  exists c'. cbn [final output outcome fst snd].
  repeat (split; [first [reflexivity | assumption]|]).
  destruct (handle_disconnection_cases st tw fe c')
    as (c2 & o2 & -> & _ & _ & _ & _ & _ & Hsame & _).
  now destruct (Hsame Hic) as [-> ->].
Qed.

Lemma disconnect_run disable st tw fe c :
  disconnect disable (mkSessionManager st tw fe (Some c))
  = (mkSessionManager st tw fe
       (Some (set_websocket None
                (set_is_connected false
                   (if disable then set_auto_reconnect false c else c)))),
     match reconnect_task c with Some TaskRunning => [CancelReconnect] | _ => [] end
     ++ match websocket c with Some _ => [TransportClose] | None => [] end,
     Ok tt).
Proof.
  destruct c as [[ws|] ic mh sc ar mx rd mrd cur [[]|] onc ond], disable;
    reflexivity.
Qed.

(** X10.  After [disconnect] the client is disconnected and has no
    transport: a running reconnect task was cancelled, the transport closed
    if there was one, and [send_message] then puts nothing on the wire and
    returns [False].  With [disable_reconnect] set, reconnection is off for
    good: a reconnect loop that still runs sleeps and connects no more, and
    a later connection failure starts no new loop. *)
Theorem disconnect_disables_reconnection st tw fe (c : OpenAIClient)
    (disable_reconnect : bool) :
  let r := disconnect disable_reconnect (mkSessionManager st tw fe (Some c)) in
  exists c',
    final r = mkSessionManager st tw fe (Some c')
    /\ outcome r = Ok tt
    /\ is_connected c' = false
    /\ websocket c' = None
    /\ auto_reconnect c' = (if disable_reconnect then false else auto_reconnect c)
    /\ output r
       = match reconnect_task c with
         | Some TaskRunning => [CancelReconnect]
         | _ => []
         end
         ++ match websocket c with Some _ => [TransportClose] | None => [] end
    /\ (forall message,
          send_message message (final r)
          = (final r,
             [SendMessage message; LogWarning "OpenAI websocket not connected"],
             Ok false))
    /\ (disable_reconnect = true ->
        (forall script,
           let l := _reconnect_loop script (final r) in
           outcome l = Ok LoopFinished
           /\ sleeps (output l) = [] /\ attempts (output l) = [])
        /\ _handle_connection_failure (final r) = (final r, [], Ok tt)).
Proof.
  intros r. unfold r. rewrite disconnect_run.
  eexists. cbn [final output outcome fst snd].
  split; [reflexivity|]. split; [reflexivity|].
  split; [now destruct c, disable_reconnect|].
  split; [now destruct c, disable_reconnect|].
  split; [now destruct c, disable_reconnect|].
  split; [reflexivity|]. split.
  - intros message. now destruct c, disable_reconnect.
  - intros ->. split.
    + intros script.
      rewrite reconnect_loop_stops by now destruct c.
      rewrite reconnect_loop_end_run. cbn [final output outcome fst snd].
      split; [reflexivity|].
      now destruct (_ && _).
    + now destruct c.
Qed.

(** X11.  A reconnect loop cancelled during its sleep, which it reaches
    when the attempt is one of the first 1024, makes no connection attempt
    and ends, yet the attempt it was sleeping for is counted: the counter
    has been incremented before the sleep.  The remaining wakes are not
    consumed. *)
Theorem cancelled_reconnect_makes_no_attempt st tw fe (c : OpenAIClient)
    (rest : list wake) :
  loop_condition c = true ->
  exact_delays c ->
  current_reconnect_attempts c < 1024 ->
  let n := current_reconnect_attempts c + 1 in
  let r := _reconnect_loop (Cancelled :: rest)
             (mkSessionManager st tw fe (Some c)) in
  final r
  = mkSessionManager st tw fe
      (Some (set_reconnect_task (Some TaskDone)
               (set_current_reconnect_attempts n c)))
  /\ outcome r = Ok LoopFinished
  /\ sleeps (output r) = [capped_delay c n]
  /\ attempts (output r) = [].
Proof.
  intros Hloop _ Hbound n r. unfold r. cbn [_reconnect_loop].
  rewrite bind_get_client, Hloop, bind_modify_client. cbv beta.
  rewrite backoff_delay_ok by lia.
  rewrite bind_emit. cbv beta. rewrite reconnect_loop_end_run.
  cbn [final output outcome fst snd]. fold n.
  split; [reflexivity|]. split; [reflexivity|].
  now destruct (_ && _).
Qed.

(** ** Computations that keep the client's settings *)

Lemma same_settings_refl c : same_settings c c.
Proof. now repeat split. Qed.

Lemma same_settings_trans c1 c2 c3 :
  same_settings c1 c2 -> same_settings c2 c3 -> same_settings c1 c3.
Proof.
  unfold same_settings. intros H12 H23. decompose [and] H12.
  decompose [and] H23. repeat split; congruence.
Qed.

Lemma sleeps_app o1 o2 : sleeps (o1 ++ o2) = sleeps o1 ++ sleeps o2.
Proof. apply flat_map_app. Qed.

Lemma attempts_app o1 o2 : attempts (o1 ++ o2) = attempts o1 ++ attempts o2.
Proof. apply List.filter_app. Qed.

Lemma quiet_app o1 o2 :
  sleeps o1 = [] -> attempts o1 = [] -> sleeps o2 = [] -> attempts o2 = [] ->
  sleeps (o1 ++ o2) = [] /\ attempts (o1 ++ o2) = [].
Proof.
  intros H1 H2 H3 H4. now rewrite sleeps_app, attempts_app, H1, H2, H3, H4.
Qed.

Lemma keeps_settings_pure {A} (o : list event) (r : result A) :
  sleeps o = [] -> attempts o = [] ->
  keeps_settings (fun s => (s, o, r)).
Proof.
  intros Hs Ha st tw fe c. exists st, c, o, r.
  split; [reflexivity|]. split; [apply same_settings_refl|]. now split.
Qed.

Lemma keeps_settings_bind {A B} (m : M A) (k : A -> M B) :
  keeps_settings m -> (forall a, keeps_settings (k a)) ->
  keeps_settings (bind m k).
Proof.
  intros Hm Hk st tw fe c. unfold bind.
  destruct (Hm st tw fe c) as (st1 & c1 & o1 & [a|e] & -> & H1 & Hs1 & Ha1).
  - destruct (Hk a st1 tw fe c1) as (st2 & c2 & o2 & r & -> & H2 & Hs2 & Ha2).
    eexists _, _, _, _. split; [reflexivity|].
    split; [exact (same_settings_trans _ _ _ H1 H2)|]. now apply quiet_app.
  - now eexists _, _, _, _.
Qed.

Lemma keeps_settings_try {A} (m : M A) (h : exn -> M A) :
  keeps_settings m -> (forall e, keeps_settings (h e)) ->
  keeps_settings (try_except m h).
Proof.
  intros Hm Hh st tw fe c. unfold try_except.
  destruct (Hm st tw fe c) as (st1 & c1 & o1 & [a|e] & -> & H1 & Hs1 & Ha1).
  - now eexists _, _, _, _.
  - destruct (Hh e st1 tw fe c1) as (st2 & c2 & o2 & r & -> & H2 & Hs2 & Ha2).
    eexists _, _, _, _. split; [reflexivity|].
    split; [exact (same_settings_trans _ _ _ H1 H2)|]. now apply quiet_app.
Qed.

Lemma keeps_settings_get_self {B} (k : SessionManager -> M B) :
  (forall s, keeps_settings (k s)) -> keeps_settings (bind get_self k).
Proof. intros Hk st tw fe c. rewrite bind_get_self. apply Hk. Qed.

Lemma keeps_settings_modify_state f : keeps_settings (modify_state f).
Proof.
  intros st tw fe c. exists (f st), c, [], (Ok tt).
  split; [reflexivity|]. split; [apply same_settings_refl|]. now split.
Qed.

Lemma keeps_settings_modify_client f :
  (forall c, same_settings c (f c)) -> keeps_settings (modify_client f).
Proof.
  intros Hf st tw fe c. exists st, (f c), [], (Ok tt).
  split; [reflexivity|]. split; [apply Hf|]. now split.
Qed.

Lemma keeps_settings_send_message m : keeps_settings (send_message m).
Proof.
  intros st tw fe c.
  destruct (send_message_cases m st tw fe c)
    as (c' & o & b & E & _ & _ & _ & _ & _ & Hset & _ & Hs & Ha).
  eexists _, _, _, _. split; [exact E|]. split; [exact Hset|].
  split; [exact Hs | exact Ha].
Qed.

Lemma keeps_settings__handle_disconnection : keeps_settings _handle_disconnection.
Proof.
  intros st tw fe c.
  destruct (handle_disconnection_cases st tw fe c)
    as (c' & o & E & _ & Hset & _ & _ & _ & _ & Hs & Ha).
  eexists _, _, _, _. split; [exact E|]. split; [exact Hset|].
  split; [exact Hs | exact Ha].
Qed.

Ltac keeps_settings_step :=
  lazymatch goal with
  | |- keeps_settings (bind get_self _) =>
      apply keeps_settings_get_self; intros ?
  | |- keeps_settings (bind _ _) => apply keeps_settings_bind; [|intros ?]
  | |- keeps_settings (try_except _ _) => apply keeps_settings_try; [|intros ?]
  | |- keeps_settings (modify_state _) => apply keeps_settings_modify_state
  | |- keeps_settings (ret _) => now apply keeps_settings_pure
  | |- keeps_settings (emit _) => now apply keeps_settings_pure
  | |- keeps_settings (raise _) => now apply keeps_settings_pure
  | |- keeps_settings (lift _) => now apply keeps_settings_pure
  | |- keeps_settings (send_message _) => apply keeps_settings_send_message
  | |- keeps_settings (match ?x with _ => _ end) => destruct x
  | |- _ => solve [auto]
  end.

Ltac keeps_settings_auto := repeat keeps_settings_step.

Lemma keeps_settings__send_to_twilio m : keeps_settings (_send_to_twilio m).
Proof. unfold _send_to_twilio. keeps_settings_auto. Qed.

Lemma keeps_settings__send_to_frontend m : keeps_settings (_send_to_frontend m).
Proof. unfold _send_to_frontend. keeps_settings_auto. Qed.

Lemma keeps_settings_handle_openai_message m :
  keeps_settings (handle_openai_message m).
Proof.
  pose proof keeps_settings__send_to_twilio.
  pose proof keeps_settings__send_to_frontend.
  unfold handle_openai_message, _handle_speech_started, _handle_truncation,
    _handle_audio_delta, _handle_output_item_done, _handle_function_call.
  keeps_settings_auto.
Qed.

Lemma keeps_settings__listen_messages frames ending :
  keeps_settings (_listen_messages frames ending).
Proof.
  pose proof keeps_settings__handle_disconnection.
  pose proof keeps_settings_handle_openai_message.
  induction frames as [|frame rest IH]; cbn [_listen_messages].
  - destruct ending; keeps_settings_auto;
      apply keeps_settings_modify_client; intros []; now repeat split.
  - unfold get_client. keeps_settings_auto.
Qed.

(** ** The client: connecting *)

Lemma send_session_update_cases st tw fe c session :
  session_of_config (session_config c) = Ok session ->
  exists c' o,
    _send_session_update (mkSessionManager st tw fe (Some c))
    = (mkSessionManager st tw fe (Some c'),
       SendMessage (session_update_message session) :: o, Ok tt)
    /\ same_settings c c'
    /\ sleeps o = [] /\ attempts o = [].
Proof.
  intros Hcfg. unfold _send_session_update.
  rewrite bind_get_client, Hcfg, bind_lift_ok.
  destruct (send_message_cases (session_update_message session) st tw fe c)
    as (c' & o & b & E & _ & _ & _ & _ & _ & Hset & _ & Hs & Ha).
  rewrite (bind_run _ _ _ _ _ _ E). cbn [ret final output outcome fst snd].
  rewrite app_nil_r. now eexists _, _.
Qed.

Lemma connected_callback_run st tw fe c :
  exists o,
    match on_connected c with
    | Some cb =>
        try_except (run_callback cb)
          (fun _ => emit (LogError "Error in connection callback"))
    | None => ret tt
    end (mkSessionManager st tw fe (Some c))
    = (mkSessionManager st tw fe (Some c), o, Ok tt)
    /\ sleeps o = [] /\ attempts o = [].
Proof.
  unfold run_callback, _on_openai_connected, _on_openai_disconnected,
    _send_to_frontend.
  destruct (on_connected c) as [[| |[]]|], fe; now eexists.
Qed.

Lemma connection_failure_cases st tw fe c :
  exists c' o,
    _handle_connection_failure (mkSessionManager st tw fe (Some c))
    = (mkSessionManager st tw fe (Some c'), o, Ok tt)
    /\ same_settings c c'
    /\ is_connected c' = is_connected c
    /\ sleeps o = [] /\ attempts o = []
    /\ spawns o
       = (if auto_reconnect c
             && negb (match reconnect_task c with
                      | Some TaskRunning => true
                      | _ => false
                      end)
          then 1 else 0)%nat
    /\ (auto_reconnect c = true -> reconnect_task c' = Some TaskRunning).
Proof.
  destruct c as [ws ic mh sc ar mx rd mrd cur rt onc ond].
  unfold _handle_connection_failure, _start_reconnect.
  destruct ar, rt as [[]|];
    (eexists _, _; split; [reflexivity|]; cbn;
     repeat split; try reflexivity; intros; discriminate).
Qed.

Lemma after_listening_cases st tw fe c :
  exists c' o b,
    after_listening (mkSessionManager st tw fe (Some c))
    = (mkSessionManager st tw fe (Some c'), o, Ok b)
    /\ same_settings c c'
    /\ sleeps o = []
    /\ match session_of_config (session_config c) with
       | Ok session =>
           b = true /\ attempts o = []
           /\ In (SendMessage (session_update_message session)) o
       | Raise _ => b = false /\ is_connected c' = false
       end.
Proof.
  unfold after_listening.
  destruct (session_of_config (session_config c)) as [session|e] eqn:Hcfg.
  - destruct (send_session_update_cases st tw fe c session Hcfg)
      as (c1 & o1 & E1 & Hset & Hs1 & Ha1).
    destruct (connected_callback_run st tw fe c1) as (o2 & E2 & Hs2 & Ha2).
    erewrite try_returned.
    2: { rewrite bind_emit. cbv beta.
         rewrite (bind_run _ _ _ _ _ _ E1), bind_get_client,
           (bind_run _ _ _ _ _ _ E2).
         cbn [ret final output outcome fst snd]. reflexivity. }
    eexists _, _, _. split; [reflexivity|]. split; [exact Hset|].
    rewrite !app_nil_r. split.
    + change (sleeps (o1 ++ o2) = []). now rewrite sleeps_app, Hs1, Hs2.
    + split; [reflexivity|]. split; [|right; now left].
      change (attempts (o1 ++ o2) = []). now rewrite attempts_app, Ha1, Ha2.
  - erewrite try_raised.
    2: { rewrite bind_emit. cbv beta.
         erewrite bind_raised.
         2: { unfold _send_session_update.
              rewrite bind_get_client, Hcfg. reflexivity. }
         cbn [final output outcome fst snd]. reflexivity. }
    rewrite bind_emit. cbv beta. rewrite bind_modify_client. cbv beta.
    destruct (connection_failure_cases st tw fe (set_is_connected false c))
      as (c2 & o2 & E2 & Hset & Hic & Hs2 & _).
    rewrite (bind_run _ _ _ _ _ _ E2).
    cbn [ret final output outcome fst snd].
    eexists _, _, _. split; [reflexivity|]. split.
    { apply (same_settings_trans _ (set_is_connected false c)); [|exact Hset].
      destruct c; now repeat split. }
    split.
    { rewrite app_nil_r. cbn [app sleeps flat_map]. exact Hs2. }
    split; [reflexivity|]. rewrite Hic. now destruct c.
Qed.

Lemma connect_opened_cases st tw fe c frames ending :
  exists st' c' o b,
    connect (Opened frames ending) (mkSessionManager st tw fe (Some c))
    = (mkSessionManager st' tw fe (Some c'), o, Ok b)
    /\ same_settings (set_current_reconnect_attempts 0 c) c'
    /\ sleeps o = []
    /\ match session_of_config (session_config c) with
       | Ok session =>
           b = true /\ attempts o = [TransportOpened]
           /\ In (SendMessage (session_update_message session)) o
       | Raise _ => b = false /\ is_connected c' = false
       end.
Proof.
  set (c0 := set_current_reconnect_attempts 0
               (set_is_connected true (set_websocket (Some TOpen) c))).
  destruct (keeps_settings__listen_messages frames ending st tw fe c0)
    as (st1 & c1 & o1 & r1 & E1 & Hset1 & Hs1 & Ha1).
  destruct (listen_messages_run frames ending st tw fe c0)
    as (st1' & c1' & o1' & E1' & _).
  rewrite E1 in E1'. injection E1' as -> -> -> ->.
  destruct (after_listening_cases st1' tw fe c1')
    as (c2 & o2 & b & E2 & Hset2 & Hs2 & Hb).
  assert (Hcfg : session_config c1' = session_config c).
  { destruct Hset1 as (_ & -> & _). now destruct c. }
  rewrite Hcfg in Hb.
  exists st1', c2, (TransportOpened :: ListenStarted :: o1' ++ o2), b.
  split.
  { unfold connect.
    do 5 (erewrite try_bind_returned; [|reflexivity]; cbv beta).
    cbn [final output outcome fst snd app set_openai_client option_map
           openai_client state twilio_websocket frontend_websocket].
    fold c0.
    erewrite try_bind_returned; [|exact E1]. cbv beta.
    fold after_listening. rewrite E2.
    cbn [final output outcome fst snd app]. reflexivity. }
  split.
  { apply (same_settings_trans _ c1'); [|exact Hset2].
    apply (same_settings_trans _ c0); [|exact Hset1].
    destruct c; now repeat split. }
  split.
  { cbn [sleeps flat_map app]. fold (sleeps (o1' ++ o2)).
    now rewrite sleeps_app, Hs1, Hs2. }
  destruct (session_of_config (session_config c)) as [session|e]; [|exact Hb].
  destruct Hb as (-> & Ha2 & Hin). split; [reflexivity|]. split.
  - cbn [attempts List.filter is_attempt]. fold (attempts (o1' ++ o2)).
    now rewrite attempts_app, Ha1, Ha2.
  - right. right. apply in_or_app. now right.
Qed.

(** X12.  Whenever the transport opens, [connect] returns instead of
    raising, keeps both legs of the session and the client's settings, and
    leaves the reconnect counter at 0.  With a session configuration the
    model accepts it returns [True], having handed the session.update
    command to [send_message], whatever the connection did
    while it was listened to; with one the model rejects it returns
    [False], the client marked disconnected. *)
Theorem connect_returns_when_transport_opens st tw fe (c : OpenAIClient)
    (frames : list decoding) (ending : stream_end) :
  let r := connect (Opened frames ending) (mkSessionManager st tw fe (Some c)) in
  exists st' c' b,
    final r = mkSessionManager st' tw fe (Some c')
    /\ outcome r = Ok b
    /\ same_settings (set_current_reconnect_attempts 0 c) c'
    /\ current_reconnect_attempts c' = 0
    /\ sleeps (output r) = []
    /\ match session_of_config (session_config c) with
       | Ok session =>
           b = true /\ attempts (output r) = [TransportOpened]
           /\ In (SendMessage (session_update_message session)) (output r)
       | Raise _ => b = false /\ is_connected c' = false
       end.
Proof.
  intros r. unfold r.
  destruct (connect_opened_cases st tw fe c frames ending)
    as (st' & c' & o & b & -> & Hset & Hs & Hb).
  exists st', c', b. cbn [final output outcome fst snd].
  split; [reflexivity|]. split; [reflexivity|]. split; [exact Hset|].
  split; [|split; assumption].
  destruct Hset as (_ & _ & _ & _ & _ & _ & -> & _). now destruct c.
Qed.

Lemma connect_fails_cases st tw fe c :
  exists c' o,
    connect OpenFails (mkSessionManager st tw fe (Some c))
    = (mkSessionManager st tw fe (Some c'), o, Ok false)
    /\ is_connected c' = false
    /\ same_settings c c'
    /\ attempts o = [LogError "Failed to connect to OpenAI API"]
    /\ spawns o
       = (if auto_reconnect c
             && negb (match reconnect_task c with
                      | Some TaskRunning => true
                      | _ => false
                      end)
          then 1 else 0)%nat
    /\ (auto_reconnect c = true -> reconnect_task c' = Some TaskRunning).
Proof.
  destruct c as [ws ic mh sc ar mx rd mrd cur rt onc ond].
  destruct ar, rt as [[]|];
    (eexists _, _; split; [reflexivity|]; cbn;
     repeat split; try reflexivity; intros; discriminate).
Qed.

(** X13.  When the transport does not open, [connect] returns [False] with
    the client marked disconnected and its counter untouched, and starts a
    reconnect task exactly when reconnection is enabled and no such task is
    running; it never raises. *)
Theorem connect_failure_starts_one_reconnect st tw fe (c : OpenAIClient) :
  let r := connect OpenFails (mkSessionManager st tw fe (Some c)) in
  exists c',
    final r = mkSessionManager st tw fe (Some c')
    /\ outcome r = Ok false
    /\ is_connected c' = false
    /\ same_settings c c'
    /\ attempts (output r) = [LogError "Failed to connect to OpenAI API"]
    /\ spawns (output r)
       = (if auto_reconnect c
             && negb (match reconnect_task c with
                      | Some TaskRunning => true
                      | _ => false
                      end)
          then 1 else 0)%nat
    /\ (auto_reconnect c = true -> reconnect_task c' = Some TaskRunning).
Proof.
  intros r. unfold r.
  destruct (connect_fails_cases st tw fe c) as (c' & o & -> & H).
  exists c'. cbn [final output outcome fst snd].
  split; [reflexivity|]. split; [reflexivity|]. exact H.
Qed.

Lemma reconnect_success_run st tw fe c frames ending rest session :
  reconnecting c ->
  current_reconnect_attempts c < max_reconnect_attempts c ->
  current_reconnect_attempts c < 1024 ->
  session_of_config (session_config c) = Ok session ->
  exists st' c' o,
    _reconnect_loop (Woke (Opened frames ending) :: rest)
      (mkSessionManager st tw fe (Some c))
    = (mkSessionManager st' tw fe (Some c'), o, Ok LoopFinished)
    /\ sleeps o = [capped_delay c (current_reconnect_attempts c + 1)]
    /\ length (attempts o) = 1%nat
    /\ current_reconnect_attempts c' = 0
    /\ reconnect_task c' = Some TaskDone.
Proof.
  intros (Har & Hic & Hrt) Hlt Hbound Hcfg.
  set (n := current_reconnect_attempts c + 1).
  set (c1 := set_current_reconnect_attempts n c).
  destruct (connect_opened_cases st tw fe c1 frames ending)
    as (st2 & c2 & o2 & b & E2 & Hset & Hs2 & Hb).
  replace (session_config c1) with (session_config c) in Hb by now destruct c.
  rewrite Hcfg in Hb. destruct Hb as (-> & Ha2 & _).
  cbn [_reconnect_loop]. rewrite bind_get_client.
  unfold loop_condition. rewrite Har, Hic, (proj2 (Z.ltb_lt _ _) Hlt).
  cbn [andb negb]. rewrite bind_modify_client. cbv beta.
  rewrite backoff_delay_ok by lia.
  rewrite bind_emit. cbv beta. rewrite bind_get_client.
  fold n. fold c1.
  replace (auto_reconnect c1) with true by (now destruct c). cbn [negb].
  rewrite (bind_run _ _ _ _ _ _ E2), reconnect_loop_end_run.
  cbn [final output outcome fst snd].
  eexists _, _, _. split; [reflexivity|]. split.
  { cbn [sleeps flat_map app]. fold (sleeps (o2 ++
      (if (max_reconnect_attempts c2 <=? current_reconnect_attempts c2)
          && negb (is_connected c2)
       then [LogError "Failed to reconnect"] else []))).
    rewrite sleeps_app, Hs2. now destruct (_ && _). }
  split.
  { cbn [attempts List.filter is_attempt]. fold (attempts (o2 ++
      (if (max_reconnect_attempts c2 <=? current_reconnect_attempts c2)
          && negb (is_connected c2)
       then [LogError "Failed to reconnect"] else []))).
    rewrite attempts_app, Ha2. now destruct (_ && _). }
  split; [|now destruct c2].
  destruct Hset as (_ & _ & _ & _ & _ & _ & Hcur & _).
  destruct c2, c; exact Hcur.
Qed.

(** X14.  A reconnect loop whose first attempts fail to open the transport
    and whose next one opens it, within the budget, among the first 1024
    attempts and with a session configuration the model accepts: the loop
    sleeps once per attempt with the backoff delays in order, stops at the
    attempt that opened the transport without consuming the wakes that
    follow, and ends with the counter back at 0 and its task done. *)
Theorem reconnect_loop_stops_at_first_success st tw fe (c : OpenAIClient)
    (failures : nat) (frames : list decoding) (ending : stream_end)
    (rest : list wake) (session : pyval) :
  reconnecting c ->
  exact_delays c ->
  Z.of_nat failures < max_reconnect_attempts c - current_reconnect_attempts c ->
  current_reconnect_attempts c + Z.of_nat failures < 1024 ->
  session_of_config (session_config c) = Ok session ->
  let script :=
    repeat (Woke OpenFails) failures ++ Woke (Opened frames ending) :: rest in
  let r := _reconnect_loop script (mkSessionManager st tw fe (Some c)) in
  exists st' c',
    final r = mkSessionManager st' tw fe (Some c')
    /\ outcome r = Ok LoopFinished
    /\ sleeps (output r)
       = delays_after c (current_reconnect_attempts c) (S failures)
    /\ length (attempts (output r)) = S failures
    /\ current_reconnect_attempts c' = 0
    /\ reconnect_task c' = Some TaskDone.
Proof.
  revert c.
  induction failures as [|k IH]; intros c Hc Hexact Hlt Hbound Hcfg script r.
  - unfold r, script. cbn [repeat app].
    destruct (reconnect_success_run st tw fe c frames ending rest session Hc)
      as (st' & c' & o & -> & Hs & Ha & Hcur & Hrt); [lia | lia | exact Hcfg |].
    exists st', c'. cbn [final output outcome fst snd].
    split; [reflexivity|]. split; [reflexivity|].
    split; [exact Hs|]. split; [exact Ha|]. split; assumption.
  - unfold r, script. cbn [repeat app].
    rewrite reconnect_iteration by (auto; lia).
    set (c1 := set_current_reconnect_attempts (current_reconnect_attempts c + 1) c).
    assert (Hc1 : reconnecting c1) by (destruct c; exact Hc).
    destruct (IH c1 Hc1) as (st' & c' & Hf & Ho & Hs & Ha & Hcur & Hrt).
    { destruct c; unfold exact_delays in *; cbn in *. split; [lia|tauto]. }
    { destruct c; cbn in *. lia. }
    { destruct c; cbn in *. lia. }
    { now destruct c. }
    exists st', c'. cbn [final output outcome fst snd].
    split; [exact Hf|]. split; [exact Ho|]. split.
    + rewrite delays_after_S. cbn [sleeps flat_map app]. f_equal.
      etransitivity; [exact Hs|]. now destruct c.
    + split; [|split; assumption].
      cbn [attempts List.filter is_attempt length]. f_equal. exact Ha.
Qed.

(** ** Start frames *)

Lemma start_frame_run start net st tw fe oc :
  handle_twilio_message (start_frame start) net (mkSessionManager st tw fe oc)
  = _try_connect_openai net (mkSessionManager (started start st) tw fe oc).
Proof.
  unfold handle_twilio_message, _handle_twilio_start.
  change (get (start_frame start) "event" PNone) with (Ok (PStr "start")).
  rewrite bind_lift_ok.
  change (eq_str (PStr "start") TWILIO_START) with true. cbv iota.
  change (get (start_frame start) "start" (PDict [])) with (Ok (PDict start)).
  rewrite bind_lift_ok.
  change (get (PDict start) "streamSid" PNone) with (Ok (stream_id_of start)).
  rewrite bind_lift_ok, !bind_modify_state. reflexivity.
Qed.

(** X15.  A start frame always resets the stream fields of the session:
    the stream id it carries ([None] when missing), timestamp 0, no
    assistant item, no response start; the saved configuration is kept.
    When the frame carries no usable stream id, or the client is already
    connected, that is all it does: no connection is made and the client
    and both legs are left as they were. *)
Theorem start_without_connecting (start : list (string * pyval))
    (net : opening) st tw fe oc :
  truthy (stream_id_of start) = false
  \/ (exists c, oc = Some c /\ is_connected c = true) ->
  handle_twilio_message (start_frame start) net (mkSessionManager st tw fe oc)
  = (mkSessionManager (started start st) tw fe oc, [], Ok tt).
Proof.
  intros H. rewrite start_frame_run. unfold _try_connect_openai.
  rewrite bind_get_self. cbn [state openai_client started stream_sid].
  destruct (truthy (stream_id_of start)) eqn:Hsid; [|reflexivity].
  destruct H as [H | (c & -> & Hic)]; [discriminate|].
  destruct c as [ws ic mh sc ar mx rd mrd cur rt onc ond].
  cbn in Hic. subst ic. reflexivity.
Qed.

Lemma try_connect_builds_client net st tw fe oc :
  truthy (stream_sid st) = true -> not_connected oc ->
  _try_connect_openai net (mkSessionManager st tw fe oc)
  = (success <-- connect net ;;
     if success : bool then ret tt
     else emit (LogError "Failed to establish OpenAI connection"))
      (mkSessionManager st tw fe (Some (bridge_client (saved_config st)))).
Proof.
  intros Hsid Hoc. unfold _try_connect_openai. rewrite bind_get_self.
  cbn [state openai_client]. rewrite Hsid. cbn [negb].
  assert (Hnew :
    (modify (set_openai_client (Some OpenAIClient_new)) ;;;
     modify_client (set_message_handler true) ;;;
     modify_client (configure_reconnect true 10 2 60) ;;;
     modify_client (set_connection_callbacks
                      (Some CbOpenAIConnected) (Some CbOpenAIDisconnected)) ;;;
     (if truthy (saved_config st)
      then modify_client (update_session_config (saved_config st))
      else ret tt) ;;;
     success <-- connect net ;;
     if success : bool then ret tt
     else emit (LogError "Failed to establish OpenAI connection"))
      (mkSessionManager st tw fe oc)
    = (success <-- connect net ;;
       if success : bool then ret tt
       else emit (LogError "Failed to establish OpenAI connection"))
        (mkSessionManager st tw fe (Some (bridge_client (saved_config st))))).
  { rewrite bind_modify. cbv beta.
    unfold set_openai_client at 1.
    cbn [state twilio_websocket frontend_websocket].
    do 3 (rewrite bind_modify_client; cbv beta). unfold bridge_client.
    destruct (truthy (saved_config st)).
    - now rewrite bind_modify_client.
    - now rewrite bind_ret. }
  destruct oc as [[ws ic mh sc ar mx rd mrd cur rt onc ond]|]; [|exact Hnew].
  specialize (Hoc _ eq_refl). cbn in Hoc. subst ic. exact Hnew.
Qed.

(** X16.  A start frame with a stream id, received while there is no
    connected client, makes the bridge build a new client and connect it:
    handler set, reconnection enabled with 10 attempts and delays from 2 to
    60 seconds, both callbacks installed, and the saved configuration as
    session configuration when it is not empty.  The handler returns
    whatever the network does; when the transport opens and the model
    accepts the configuration, the session.update command built from it is
    handed to [send_message], and when it does not open, one reconnect task
    is started and the failure logged. *)
Theorem start_connects_configured_client (start : list (string * pyval))
    (net : opening) st tw fe oc :
  truthy (stream_id_of start) = true -> not_connected oc ->
  let r := handle_twilio_message (start_frame start) net
             (mkSessionManager st tw fe oc) in
  exists st' c',
    final r = mkSessionManager st' tw fe (Some c')
    /\ outcome r = Ok tt
    /\ same_settings (bridge_client (saved_config st)) c'
    /\ match net with
       | Opened _ _ =>
           forall session,
             session_of_config (session_config (bridge_client (saved_config st)))
             = Ok session ->
             In (SendMessage (session_update_message session)) (output r)
             /\ attempts (output r) = [TransportOpened]
       | OpenFails =>
           st' = started start st
           /\ is_connected c' = false
           /\ reconnect_task c' = Some TaskRunning
           /\ spawns (output r) = 1%nat
           /\ In (LogError "Failed to establish OpenAI connection") (output r)
       end.
Proof.
  intros Hsid Hoc r. unfold r.
  rewrite start_frame_run, try_connect_builds_client by assumption.
  cbn [saved_config started].
  set (c0 := bridge_client (saved_config st)).
  destruct net as [|frames ending].
  - destruct (connect_fails_cases (started start st) tw fe c0)
      as (c' & o & E & Hic & Hset & Ha & Hsp & Hrt).
    rewrite (bind_run _ _ _ _ _ _ E). cbn [emit final output outcome fst snd].
    exists (started start st), c'.
    split; [reflexivity|]. split; [reflexivity|]. split; [exact Hset|].
    split; [reflexivity|]. split; [exact Hic|]. split.
    { apply Hrt. unfold c0, bridge_client.
      destruct (truthy (saved_config st)); reflexivity. }
    split.
    { unfold spawns. rewrite List.filter_app, length_app. fold (spawns o).
      rewrite Hsp. unfold c0, bridge_client.
      destruct (truthy (saved_config st)); reflexivity. }
    apply in_or_app. right. now left.
  - destruct (connect_opened_cases (started start st) tw fe c0 frames ending)
      as (st' & c' & o & b & E & Hset & Hs & Hb).
    rewrite (bind_run _ _ _ _ _ _ E).
    exists st', c'.
    assert (Hset' : same_settings c0 c').
    { apply (same_settings_trans _ (set_current_reconnect_attempts 0 c0));
        [|exact Hset].
      unfold c0, bridge_client.
      destruct (truthy (saved_config st)); now repeat split. }
    destruct b; cbn [ret emit final output outcome fst snd].
    + split; [reflexivity|]. split; [reflexivity|]. split; [exact Hset'|].
      intros session Hcfg. rewrite Hcfg in Hb. destruct Hb as (_ & Ha & Hin).
      rewrite app_nil_r. split; assumption.
    + split; [reflexivity|]. split; [reflexivity|]. split; [exact Hset'|].
      intros session Hcfg. rewrite Hcfg in Hb. now destruct Hb.
Qed.

(** ** Tool calls with a registered handler *)

(** X17.  A tool call with a string name and string arguments is answered
    when a client is present, not only in the error cases, provided the
    function is not registered or [json.loads] returns or raises
    [json.JSONDecodeError] on the arguments: the service returns the
    handler's text verbatim, or, when the handler raises, a JSON object with
    an [error] member naming the function and the exception; the bridge
    hands the client the function_call_output item with that text,
    immediately followed by response.create, and does not raise. *)
Theorem tool_call_always_answered (name arguments : string) (call_id : pyval)
    st tw fe (c : OpenAIClient) :
  answerable_call name arguments ->
  exists text,
    handle_function_call function_handler_service (PStr name) (PStr arguments)
    = Ok text
    /\ (forall (h : handler) args,
          handlers function_handler_service !! name = Some h ->
          json_loads arguments = Decoded args ->
          match h args with
          | Returned answer => text = answer
          | Raised e =>
              text = Json.dumps_error
                       ("Error running function " +:+ name +:+ ": " +:+ e)
              /\ Json.is_object_with_key "error" text
          end)
    /\ let r := handle_openai_message
                  (output_item_done (function_call_item name arguments call_id))
                  (mkSessionManager st tw fe (Some c)) in
       outcome r = Ok tt
       /\ commands (output r)
          = [SendMessage (function_call_output_message call_id text);
             SendMessage response_create_message].
Proof.
  intros Hanswerable.
  destruct (handle_function_call_returns name arguments Hanswerable)
    as (text & Hcall).
  exists text. split; [exact Hcall|]. split.
  - intros h args Hh Hargs. revert Hcall.
    unfold handle_function_call, lookup_handler. cbv beta iota.
    rewrite Hh, Hargs.
    destruct (h args) as [answer|e]; intros [= <-]; [reflexivity|].
    split; [reflexivity | apply dumps_error_is_object].
  - destruct (function_call_run st tw fe (Some c) name arguments call_id _ Hcall)
      as (oc' & o & E & Ho).
    cbv zeta. rewrite E. split; [reflexivity | exact Ho].
Qed.

(** X18.  When the service itself raises on a tool call, which it does on
    an unhashable name and, once the name is registered, on arguments that
    are not a string or on which the decoder raises something other than
    [json.JSONDecodeError], [_handle_function_call] logs the error and sends
    nothing: the call gets no answer and the session is left as it was. *)
Theorem tool_call_failure_is_logged_and_dropped (item : list (string * pyval))
    (s : SessionManager) (e : exn) :
  handle_function_call function_handler_service
    (default (PStr "") (assoc_get "name" item))
    (default (PStr "{}") (assoc_get "arguments" item)) = Raise e ->
  _handle_function_call (PDict item) s
  = (s, [LogError "Error handling function call"], Ok tt).
Proof.
  intros Hcall. unfold _handle_function_call.
  change (get (PDict item) "name" (PStr ""))
    with (Ok (default (PStr "") (assoc_get "name" item))).
  change (get (PDict item) "arguments" (PStr "{}"))
    with (Ok (default (PStr "{}") (assoc_get "arguments" item))).
  change (get (PDict item) "call_id" (PStr ""))
    with (Ok (default (PStr "") (assoc_get "call_id" item))).
  erewrite try_raised.
  2: { rewrite !bind_lift_ok, Hcall. reflexivity. }
  reflexivity.
Qed.

(** X19.  The weather function refuses a call without coordinates before
    any request is made: when the decoded arguments are an object in which
    latitude or longitude is missing or null, the answer is the JSON error
    "Missing latitude or longitude" whatever the weather service would say;
    and arguments that decode to something other than an object make the
    handler raise, which the service turns into a JSON error naming the
    function. *)
Theorem weather_call_requires_coordinates
    (weather_lookup : pyval -> pyval -> string) (arguments : string)
    (args : pyval) :
  json_loads arguments = Decoded args ->
  let answer := handle_function_call (FunctionHandlerService_new weather_lookup)
                  (PStr "get_weather_from_coords") (PStr arguments) in
  (forall d, args = PDict d ->
     default PNone (assoc_get "latitude" d) = PNone
     \/ default PNone (assoc_get "longitude" d) = PNone ->
     answer = Ok (Json.dumps_error "Missing latitude or longitude"))
  /\ ((forall d, args <> PDict d) ->
      answer
      = Ok (Json.dumps_error
              ("Error running function get_weather_from_coords: '"
               +:+ type_name args +:+ "' object has no attribute 'get'"))).
Proof.
  intros Hargs answer. unfold answer, handle_function_call, lookup_handler,
    FunctionHandlerService_new, register_function.
  cbv beta iota. cbn [handlers].
  rewrite lookup_insert_eq, Hargs. unfold _get_weather_handler.
  split.
  - intros d -> H. cbn [get].
    destruct H as [-> | H]; [reflexivity|]. rewrite H.
    now destruct (default PNone (assoc_get "latitude" d)).
  - intros Hnd. destruct args as [|b|z|f|t|l|d]; try reflexivity.
    now destruct (Hnd d).
Qed.

(** X20.  [register_function] makes the handler the one that is called for
    the name, replacing any handler registered for it before, and changes
    the answer to no call of another name. *)
Theorem registered_handler_is_called (name other : string) (h : handler)
    (svc : FunctionHandlerService) (arguments : string) (args : pyval) :
  json_loads arguments = Decoded args ->
  handle_function_call (register_function name h svc) (PStr name) (PStr arguments)
  = Ok (match h args with
        | Returned answer => answer
        | Raised e =>
            Json.dumps_error ("Error running function " +:+ name +:+ ": " +:+ e)
        end)
  /\ (other <> name ->
      handle_function_call (register_function name h svc)
        (PStr other) (PStr arguments)
      = handle_function_call svc (PStr other) (PStr arguments)).
Proof.
  intros Hargs. unfold handle_function_call, lookup_handler, register_function.
  cbv beta iota. cbn [handlers]. split.
  - rewrite lookup_insert_eq, Hargs. now destruct (h args).
  - intros Hne. now rewrite lookup_insert_ne.
Qed.

(** ** The session configuration *)

Lemma session_of_items items :
  session_of_config (PDict (map (merged_field items) OpenAISessionConfig_defaults))
  = if forallb (fun kv => field_valid (fst kv) (snd kv))
         (map (merged_field items) OpenAISessionConfig_defaults)
    then Ok (PDict (map (merged_field items) OpenAISessionConfig_defaults))
    else Raise ValueError.
Proof.
  unfold session_of_config, OpenAISessionConfig_defaults.
  cbn [map merged_field fst snd].
  generalize (default (PList [PStr "text"; PStr "audio"])
                (assoc_get "modalities" items)).
  generalize (default (PDict [("type", PStr "server_vad")])
                (assoc_get "turn_detection" items)).
  generalize (default (PStr "ash") (assoc_get "voice" items)).
  generalize (default (PDict [("model", PStr "whisper-1")])
                (assoc_get "input_audio_transcription" items)).
  generalize (default (PStr "g711_ulaw") (assoc_get "input_audio_format" items)).
  generalize (default (PStr "g711_ulaw") (assoc_get "output_audio_format" items)).
  intros v6 v5 v4 v3 v2 v1. reflexivity.
Qed.

(** X21.  The session sent to the speech endpoint is stable under the
    merge: a configuration that is empty or absent, or that has none of the
    six keys of the model, gives exactly the defaults, and a session the
    merge has produced is reproduced unchanged when it is itself used as
    the configuration. *)
Theorem session_merge_is_stable (config : pyval) :
  (truthy config = false ->
   session_of_config config = Ok (PDict OpenAISessionConfig_defaults))
  /\ (forall d,
        config = PDict d ->
        (forall field dflt, In (field, dflt) OpenAISessionConfig_defaults ->
                            assoc_get field d = None) ->
        session_of_config config = Ok (PDict OpenAISessionConfig_defaults))
  /\ (forall session,
        session_of_config config = Ok session ->
        session_of_config session = Ok session).
Proof.
  split; [|split].
  - intros Hf. unfold session_of_config, config_items. now rewrite Hf.
  - intros d -> Hd. unfold session_of_config, config_items.
    destruct (truthy (PDict d)); cbn [negb]; [|reflexivity].
    assert (Hmap : map (merged_field d) OpenAISessionConfig_defaults
                   = OpenAISessionConfig_defaults).
    { unfold OpenAISessionConfig_defaults, merged_field. cbn [map fst snd].
      erewrite (Hd "modalities") by (left; reflexivity).
      erewrite (Hd "turn_detection") by (do 1 right; left; reflexivity).
      erewrite (Hd "voice") by (do 2 right; left; reflexivity).
      erewrite (Hd "input_audio_transcription")
        by (do 3 right; left; reflexivity).
      erewrite (Hd "input_audio_format") by (do 4 right; left; reflexivity).
      erewrite (Hd "output_audio_format") by (do 5 right; left; reflexivity).
      reflexivity. }
    rewrite Hmap. reflexivity.
  - intros session Hs.
    destruct (session_of_config_merges config session Hs)
      as (items & Hitems & Hsession & _).
    unfold session_of_config in Hs. rewrite Hitems in Hs.
    destruct (forallb (fun kv => field_valid (fst kv) (snd kv))
                (map (merged_field items) OpenAISessionConfig_defaults)) eqn:Hv;
      [|discriminate].
    subst session. rewrite session_of_items, Hv. reflexivity.
Qed.

(** ** What the observer's messages can change *)

Lemma same_stream_refl st : same_stream st st.
Proof. now repeat split. Qed.

Lemma same_stream_trans st1 st2 st3 :
  same_stream st1 st2 -> same_stream st2 st3 -> same_stream st1 st3.
Proof.
  unfold same_stream. intros H12 H23. decompose [and] H12.
  decompose [and] H23. repeat split; congruence.
Qed.

Lemma frontend_message_keeps_stream message st tw fe oc :
  exists st' oc' o r,
    handle_frontend_message message (mkSessionManager st tw fe oc)
    = (mkSessionManager st' tw fe oc', o, r)
    /\ same_stream st st'.
Proof.
  unfold handle_frontend_message. rewrite bind_get_self. cbn [openai_client].
  assert (Hrest : forall oc1, exists st' o r,
    (message_type <-- lift (get message "type" PNone) ;;
     if eq_str message_type OPENAI_SESSION_UPDATE
     then session <-- lift (get message "session" (PDict [])) ;;
          modify_state (set_saved_config session)
     else ret tt) (mkSessionManager st tw fe oc1)
    = (mkSessionManager st' tw fe oc1, o, r) /\ same_stream st st').
  { intros oc1. destruct (get message "type" PNone) as [ty|e].
    2: { eexists _, _, _. split; [reflexivity | apply same_stream_refl]. }
    rewrite bind_lift_ok. destruct (eq_str ty OPENAI_SESSION_UPDATE).
    2: { eexists _, _, _. split; [reflexivity | apply same_stream_refl]. }
    destruct (get message "session" (PDict [])) as [session|e].
    2: { eexists _, _, _. split; [reflexivity | apply same_stream_refl]. }
    rewrite bind_lift_ok. eexists _, _, _. split; [reflexivity|].
    now repeat split. }
  destruct oc as [c|].
  - destruct (send_message_cases message st tw fe c) as (c' & o & b & E & _).
    assert (E' : (_ok <-- send_message message ;; ret tt)
                   (mkSessionManager st tw fe (Some c))
                 = (mkSessionManager st tw fe (Some c'),
                    SendMessage message :: o, Ok tt)).
    { rewrite (bind_run _ _ _ _ _ _ E). cbn. now rewrite app_nil_r. }
    rewrite (bind_run _ _ _ _ _ _ E').
    destruct (Hrest (Some c')) as (st' & o' & r & -> & Hst).
    now eexists _, _, _, _.
  - rewrite bind_ret. destruct (Hrest None) as (st' & o' & r & -> & Hst).
    now eexists _, _, _, _.
Qed.

Lemma logs_frames_keep_stream frames :
  forall st tw fe oc, exists st' oc' o r,
    logs_frames frames (mkSessionManager st tw fe oc)
    = (mkSessionManager st' tw fe oc', o, r)
    /\ same_stream st st'.
Proof.
  induction frames as [|[message| |e'] rest IH]; intros st tw fe oc;
    cbn [logs_frames].
  4: { eexists _, _, _, _. split; [reflexivity | apply same_stream_refl]. }
  - eexists _, _, _, _. split; [reflexivity | apply same_stream_refl].
  - assert (H1 : exists st1 oc1 o1 r1,
      (if truthy message then handle_frontend_message message else ret tt)
        (mkSessionManager st tw fe oc)
      = (mkSessionManager st1 tw fe oc1, o1, r1) /\ same_stream st st1).
    { destruct (truthy message).
      - apply frontend_message_keeps_stream.
      - eexists _, _, _, _. split; [reflexivity | apply same_stream_refl]. }
    destruct H1 as (st1 & oc1 & o1 & [[]|e] & E1 & Hst1).
    + rewrite (bind_run _ _ _ _ _ _ E1).
      destruct (IH st1 tw fe oc1) as (st2 & oc2 & o2 & r2 & -> & Hst2).
      eexists _, _, _, _. split; [reflexivity|].
      exact (same_stream_trans _ _ _ Hst1 Hst2).
    + rewrite (bind_raised _ _ _ _ _ _ E1). now eexists _, _, _, _.
  - rewrite bind_emit.
    destruct (IH st tw fe oc) as (st2 & oc2 & o2 & r2 & -> & Hst2).
    now eexists _, _, _, _.
Qed.

Lemma disconnect_all_run s :
  disconnect_all s
  = (SessionManager_new,
     match twilio_websocket s with Some ws => [SocketClose ws] | None => [] end
     ++ match frontend_websocket s with Some ws => [SocketClose ws] | None => [] end
     ++ match openai_client s with
        | Some c =>
            match reconnect_task c with
            | Some TaskRunning => [CancelReconnect]
            | _ => []
            end
            ++ match websocket c with Some _ => [TransportClose] | None => [] end
        | None => []
        end,
     Ok tt).
Proof.
  destruct s as [st [tw|] [fe|] [[[ws|] ic mh sc ar mx rd mrd cur [[]|] onc ond]|]];
    reflexivity.
Qed.

(** ** The telephony leg during a call *)

Lemma kept_or_closed_refl tw o : kept_or_closed tw tw o.
Proof. now left. Qed.

Lemma kept_or_closed_app tw1 tw2 tw3 o1 o2 :
  kept_or_closed tw1 tw2 o1 -> kept_or_closed tw2 tw3 o2 ->
  kept_or_closed tw1 tw3 (o1 ++ o2).
Proof.
  intros [-> | (-> & H1)] [-> | (-> & H2)].
  - now left.
  - right. split; [reflexivity|]. intros ws Hws. apply in_or_app. right. auto.
  - right. split; [reflexivity|]. intros ws Hws. apply in_or_app. left. auto.
  - right. split; [reflexivity|]. intros ws Hws. apply in_or_app. left. auto.
Qed.

Lemma try_connect_keeps_legs net st tw fe oc :
  exists st' oc' o r,
    _try_connect_openai net (mkSessionManager st tw fe oc)
    = (mkSessionManager st' tw fe oc', o, r).
Proof.
  destruct (truthy (stream_sid st)) eqn:Hsid.
  2: { unfold _try_connect_openai. rewrite bind_get_self.
       cbn [state]. rewrite Hsid. now eexists _, _, _, _. }
  assert (Hnew : not_connected oc -> exists st' oc' o r,
    _try_connect_openai net (mkSessionManager st tw fe oc)
    = (mkSessionManager st' tw fe oc', o, r)).
  { intros Hoc. rewrite try_connect_builds_client by assumption.
    destruct net as [|frames ending].
    - destruct (connect_fails_cases st tw fe (bridge_client (saved_config st)))
        as (c' & o & E & _).
      rewrite (bind_run _ _ _ _ _ _ E). now eexists _, _, _, _.
    - destruct (connect_opened_cases st tw fe (bridge_client (saved_config st))
                  frames ending) as (st' & c' & o & b & E & _).
      rewrite (bind_run _ _ _ _ _ _ E). destruct b; now eexists _, _, _, _. }
  destruct oc as [c|]; [|apply Hnew; intros c [=]].
  destruct (is_connected c) eqn:Hic.
  - unfold _try_connect_openai. rewrite bind_get_self.
    cbn [state openai_client]. rewrite Hsid.
    destruct c as [ws ic mh sc ar mx rd mrd cur rt onc ond].
    cbn in Hic. subst ic. now eexists _, _, _, _.
  - apply Hnew. now intros c' [= <-].
Qed.

Lemma twilio_message_leg message net st tw fe oc :
  exists st' tw' fe' oc' o r,
    handle_twilio_message message net (mkSessionManager st tw fe oc)
    = (mkSessionManager st' tw' fe' oc', o, r)
    /\ kept_or_closed tw tw' o.
Proof.
  unfold handle_twilio_message.
  destruct (get message "event" PNone) as [ev|e].
  2: { eexists _, _, _, _, _, _. split; [reflexivity | now left]. }
  rewrite bind_lift_ok.
  destruct (eq_str ev TWILIO_START); [|destruct (eq_str ev TWILIO_MEDIA);
    [|destruct (eq_str ev TWILIO_CLOSE)]].
  - unfold _handle_twilio_start.
    destruct (get message "start" (PDict [])) as [start_data|e].
    2: { eexists _, _, _, _, _, _. split; [reflexivity | now left]. }
    rewrite bind_lift_ok.
    destruct (get start_data "streamSid" PNone) as [sid|e].
    2: { eexists _, _, _, _, _, _. split; [reflexivity | now left]. }
    rewrite bind_lift_ok, !bind_modify_state. unfold set_state.
    cbn [state twilio_websocket frontend_websocket openai_client].
    match goal with
    | |- context [_try_connect_openai net (mkSessionManager ?s tw fe oc)] =>
        destruct (try_connect_keeps_legs net s tw fe oc)
          as (st' & oc' & o & r & ->)
    end.
    eexists _, _, _, _, _, _. split; [reflexivity | now left].
  - unfold _handle_twilio_media.
    destruct (get message "media" (PDict [])) as [media_data|e].
    2: { eexists _, _, _, _, _, _. split; [reflexivity | now left]. }
    rewrite bind_lift_ok.
    destruct (get media_data "timestamp" (PInt 0)) as [timestamp|e].
    2: { eexists _, _, _, _, _, _. split; [reflexivity | now left]. }
    rewrite bind_lift_ok.
    destruct (_safe_int timestamp) as [t|e].
    2: { eexists _, _, _, _, _, _. split; [reflexivity | now left]. }
    rewrite bind_lift_ok, bind_modify_state, bind_get_self. unfold set_state.
    cbn [state twilio_websocket frontend_websocket openai_client].
    destruct oc as [c|].
    2: { eexists _, _, _, _, _, _. split; [reflexivity | now left]. }
    destruct (is_connected c).
    2: { eexists _, _, _, _, _, _. split; [reflexivity | now left]. }
    destruct (get media_data "payload" (PStr "")) as [payload|e].
    2: { eexists _, _, _, _, _, _. split; [reflexivity | now left]. }
    rewrite bind_lift_ok.
    destruct (send_message_cases (append_message payload)
                (set_latest_media_timestamp (Some t) st) tw fe c)
      as (c' & o & b & E & _).
    rewrite (bind_run _ _ _ _ _ _ E).
    eexists _, _, _, _, _, _. split; [reflexivity | now left].
  - unfold _handle_twilio_close. rewrite disconnect_all_run.
    eexists _, _, _, _, _, _. split; [reflexivity|].
    right. split; [reflexivity|]. cbn [twilio_websocket].
    intros ws ->. now left.
  - eexists _, _, _, _, _, _. split; [reflexivity | now left].
Qed.

Lemma call_frames_leg frames :
  forall st tw fe oc, exists st' tw' fe' oc' o r,
    call_frames frames (mkSessionManager st tw fe oc)
    = (mkSessionManager st' tw' fe' oc', o, r)
    /\ kept_or_closed tw tw' o.
Proof.
  induction frames as [|[[message| |e'] net] rest IH]; intros st tw fe oc;
    cbn [call_frames].
  4: { eexists _, _, _, _, _, _. split; [reflexivity | now left]. }
  - eexists _, _, _, _, _, _. split; [reflexivity | now left].
  - assert (H1 : exists st1 tw1 fe1 oc1 o1 r1,
      (if truthy message then handle_twilio_message message net else ret tt)
        (mkSessionManager st tw fe oc)
      = (mkSessionManager st1 tw1 fe1 oc1, o1, r1) /\ kept_or_closed tw tw1 o1).
    { destruct (truthy message).
      - apply twilio_message_leg.
      - eexists _, _, _, _, _, _. split; [reflexivity | now left]. }
    destruct H1 as (st1 & tw1 & fe1 & oc1 & o1 & [[]|e] & E1 & H1).
    + rewrite (bind_run _ _ _ _ _ _ E1).
      destruct (IH st1 tw1 fe1 oc1) as (st2 & tw2 & fe2 & oc2 & o2 & r2 & -> & H2).
      eexists _, _, _, _, _, _. split; [reflexivity|].
      exact (kept_or_closed_app _ _ _ _ _ H1 H2).
    + rewrite (bind_raised _ _ _ _ _ _ E1). now eexists _, _, _, _, _, _.
  - rewrite bind_emit.
    destruct (IH st tw fe oc) as (st2 & tw2 & fe2 & oc2 & o2 & r2 & -> & H2).
    eexists _, _, _, _, _, _. split; [reflexivity|].
    cbn [final output outcome fst snd].
    destruct H2 as [-> | (-> & H2)]; [now left|].
    right. split; [reflexivity|]. intros ws Hws. right. auto.
Qed.

(** ** The listener *)

(** X29.  [_listen_messages] never raises, whatever the frames are and
    however the stream ends: a frame that is not JSON is logged and
    skipped, an exception of the decoder or of the message handler is
    logged, and the following frames are still handled.  When it returns,
    the client is disconnected or its transport is closed; both legs and
    the client's settings are as before. *)
Theorem listener_never_raises (frames : list decoding)
    (ending : stream_end) st tw fe (c : OpenAIClient) :
  (exists st' c' o,
     _listen_messages frames ending (mkSessionManager st tw fe (Some c))
     = (mkSessionManager st' tw fe (Some c'), o, Ok tt)
     /\ unusable c' /\ same_settings c c')
  /\ (is_connected c = true ->
      forall rest,
        let r := _listen_messages rest ending (mkSessionManager st tw fe (Some c)) in
        _listen_messages (JSONDecodeError :: rest) ending
          (mkSessionManager st tw fe (Some c))
        = (final r, LogError "Failed to parse OpenAI message" :: output r,
           outcome r)
        /\ forall e,
             _listen_messages (DecodingRaises e :: rest) ending
               (mkSessionManager st tw fe (Some c))
             = (final r, LogError "Error handling OpenAI message" :: output r,
                outcome r))
  /\ (is_connected c = true -> message_handler c = true ->
      forall data rest s1 o1 e,
        handle_openai_message data (mkSessionManager st tw fe (Some c))
        = (s1, o1, Raise e) ->
        let r := _listen_messages rest ending s1 in
        _listen_messages (Decoded data :: rest) ending
          (mkSessionManager st tw fe (Some c))
        = (final r, o1 ++ LogError "Error handling OpenAI message" :: output r,
           outcome r)).
Proof.
  split; [|split].
  - destruct (keeps_settings__listen_messages frames ending st tw fe c)
      as (st1 & c1 & o1 & r1 & E1 & Hset & _).
    destruct (listen_messages_run frames ending st tw fe c)
      as (st2 & c2 & o2 & E2 & Hc2).
    rewrite E2 in E1. injection E1 as <- <- <- <-.
    exists st2, c2, o2. split; [exact E2|]. split; assumption.
  - intros Hic rest r. split; [|intros e]; cbn [_listen_messages];
      rewrite bind_get_client, Hic; cbn [negb];
      rewrite bind_emit; reflexivity.
  - intros Hic Hmh data rest s1 o1 e E r. cbn [_listen_messages].
    rewrite bind_get_client, Hic, Hmh. cbn [negb].
    erewrite bind_run.
    2: { rewrite (try_raised _ _ _ _ _ _ E). reflexivity. }
    cbn [emit final output outcome fst snd]. fold r.
    now rewrite <- app_assoc.
Qed.

End Bridge.

(** ** The connection registry *)

Module ConnectionManagerProps.
Import ConnectionManager.

Lemma new_single_occupancy : single_occupancy new.
Proof. exists [], []. repeat split; auto. Qed.

Lemma connect_role ws role cm :
  is_role role -> single_occupancy cm ->
  exists olds cm',
    active_connections cm !! role = Some olds
    /\ connect ws role cm = (cm', SocketAccept ws :: map SocketClose olds, Ok tt)
    /\ active_connections cm' !! role = Some [ws]
    /\ single_occupancy cm'.
Proof.
  intros Hrole (lc & ll & Hc & Hl & Hlc & Hll).
  destruct Hrole as [-> | ->].
  - exists lc. unfold connect, evict.
    change (String.eqb "call" "call") with true.
    change (String.eqb "call" "logs") with false. cbv iota.
    rewrite Hc. destruct lc as [|x lc].
    + rewrite Hc. eexists. split; [reflexivity|]. split; [reflexivity|].
      cbn [active_connections app]. rewrite lookup_insert_eq.
      split; [reflexivity|].
      exists [ws], ll. cbn [active_connections]. rewrite lookup_insert_eq, lookup_insert_ne by discriminate.
      repeat split; auto.
    + cbn [active_connections]. rewrite lookup_insert_eq.
      eexists. split; [reflexivity|]. split.
      { rewrite app_nil_r. reflexivity. }
      cbn [active_connections app]. rewrite lookup_insert_eq.
      split; [reflexivity|].
      exists [ws], ll. cbn [active_connections].
      rewrite lookup_insert_eq, !lookup_insert_ne by discriminate.
      repeat split; auto.
  - exists ll. unfold connect, evict.
    change (String.eqb "logs" "call") with false.
    change (String.eqb "logs" "logs") with true. cbv iota.
    rewrite Hl. destruct ll as [|x ll].
    + rewrite Hl. eexists. split; [reflexivity|]. split; [reflexivity|].
      cbn [active_connections app]. rewrite lookup_insert_eq.
      split; [reflexivity|].
      exists lc, [ws]. cbn [active_connections]. rewrite lookup_insert_eq, lookup_insert_ne by discriminate.
      repeat split; auto.
    + cbn [active_connections]. rewrite lookup_insert_eq.
      eexists. split; [reflexivity|]. split; [reflexivity|].
      cbn [active_connections app]. rewrite lookup_insert_eq.
      split; [reflexivity|].
      exists lc, [ws]. cbn [active_connections].
      rewrite lookup_insert_eq, !lookup_insert_ne by discriminate.
      repeat split; auto.
Qed.

Lemma length_remove_first x l : (length (remove_first x l) <= length l)%nat.
Proof.
  induction l as [|y l IH]; cbn [remove_first]; [lia|].
  destruct (Nat.eqb x y); cbn [length]; lia.
Qed.

Lemma insert_single_occupancy cm ty l types :
  single_occupancy cm ->
  (forall l0, active_connections cm !! ty = Some l0 -> is_role ty ->
              (length l <= 1)%nat) ->
  active_connections cm !! ty <> None ->
  single_occupancy (mk (<[ty := l]> (active_connections cm)) types).
Proof.
  intros (lc & ll & Hc & Hl & Hlc & Hll) Hlen Hsome.
  unfold single_occupancy. cbn [active_connections].
  destruct (decide (ty = "call")) as [-> | Hnc].
  - exists l, ll. rewrite lookup_insert_eq, lookup_insert_ne by discriminate.
    repeat split; auto. apply (Hlen lc Hc). now left.
  - destruct (decide (ty = "logs")) as [-> | Hnl].
    + exists lc, l. rewrite lookup_insert_eq, lookup_insert_ne by discriminate.
      repeat split; auto. apply (Hlen ll Hl). now right.
    + exists lc, ll. rewrite !lookup_insert_ne by congruence. repeat split; auto.
Qed.

Lemma lookup_not_None {A} (o : option A) (x : A) : o = Some x -> o <> None.
Proof. now intros ->. Qed.

Lemma lookup_agree {A} (o : option A) (x y : A) :
  o = Some x -> o = Some y -> x = y.
Proof. intros -> [= ->]. reflexivity. Qed.

Lemma step_single_occupancy cm o :
  single_occupancy cm -> single_occupancy (step cm o).
Proof.
  intros Hcm. destruct o as [ws ty | ws]; cbn [step].
  - destruct (decide (ty = "call")) as [-> | Hnc].
    { destruct (connect_role ws "call" cm) as (olds & cm' & _ & -> & _ & H);
        auto. now left. }
    destruct (decide (ty = "logs")) as [-> | Hnl].
    { destruct (connect_role ws "logs" cm) as (olds & cm' & _ & -> & _ & H);
        auto. now right. }
    unfold connect, evict.
    rewrite (proj2 (String.eqb_neq ty "call") Hnc).
    rewrite (proj2 (String.eqb_neq ty "logs") Hnl).
    destruct (active_connections cm !! ty) as [l|] eqn:Hty; cbn [fst]; [|exact Hcm].
    apply insert_single_occupancy;
      [exact Hcm | | exact (lookup_not_None _ _ Hty)].
    intros l0 _ [? | ?]; congruence.
  - unfold disconnect.
    destruct (connection_types cm !! ws) as [ty|]; cbn [fst]; [|exact Hcm].
    destruct (String.eqb ty ""); cbn [fst]; [exact Hcm|].
    destruct (active_connections cm !! ty) as [l|] eqn:Hty; cbn [fst]; [|exact Hcm].
    destruct (existsb (Nat.eqb ws) l); cbn [fst]; [|exact Hcm].
    apply (insert_single_occupancy cm ty (remove_first ws l) _ Hcm);
      [|exact (lookup_not_None _ _ Hty)].
    intros l0 _ Hrole.
    pose proof (length_remove_first ws l).
    destruct Hcm as (lc & ll & Hc & Hl & Hlc & Hll).
    destruct Hrole as [-> | ->];
      [pose proof (lookup_agree _ _ _ Hty Hc) as ->
      |pose proof (lookup_agree _ _ _ Hty Hl) as ->]; lia.
Qed.

Lemma run_single_occupancy ops cm :
  single_occupancy cm -> single_occupancy (run ops cm).
Proof.
  revert cm. induction ops as [|o ops IH]; intros cm Hcm; [exact Hcm|].
  cbn [run fold_left]. apply IH, step_single_occupancy, Hcm.
Qed.

(** C5.  After any sequence of accepts and releases on a fresh registry, a
    role (call or logs) holds at most one connection; accepting a new
    connection of that role closes every connection the role held, then
    registers the new one, which is then the role's only connection. *)
Theorem accept_keeps_single_occupancy (ops : list op) (role : string)
    (ws : WebSocket) :
  is_role role ->
  let cm := run ops new in
  (get_connection_count role cm <= 1)%nat
  /\ exists olds cm',
       active_connections cm !! role = Some olds
       /\ connect ws role cm
          = (cm', SocketAccept ws :: map SocketClose olds, Ok tt)
       /\ active_connections cm' !! role = Some [ws]
       /\ get_connection_count role cm' = 1%nat
       /\ get_active_connection role cm' = Some ws.
Proof.
  intros Hrole cm.
  assert (Hcm : single_occupancy cm)
    by apply run_single_occupancy, new_single_occupancy.
  destruct (connect_role ws role cm Hrole Hcm) as (olds & cm' & Ho & E & Hnew & _).
  split.
  - unfold get_connection_count. rewrite Ho. cbn [default].
    destruct Hcm as (lc & ll & Hc & Hl & Hlc & Hll).
    destruct Hrole as [-> | ->];
      [pose proof (lookup_agree _ _ _ Ho Hc) as ->
      |pose proof (lookup_agree _ _ _ Ho Hl) as ->]; assumption.
  - exists olds, cm'. unfold get_connection_count, get_active_connection.
    rewrite Hnew. repeat split; assumption.
Qed.

Lemma accept_keeps_single_occupancy_witness :
  let cm := run [Accept 1%nat "call"; Accept 2%nat "logs"; Accept 3%nat "call";
                 Release 2%nat] new in
  (get_connection_count "call" cm <= 1)%nat
  /\ exists olds cm',
       active_connections cm !! "call" = Some olds
       /\ connect 4%nat "call" cm
          = (cm', SocketAccept 4%nat :: map SocketClose olds, Ok tt)
       /\ active_connections cm' !! "call" = Some [4%nat]
       /\ get_connection_count "call" cm' = 1%nat
       /\ get_active_connection "call" cm' = Some 4%nat.
Proof.
  apply accept_keeps_single_occupancy. left. reflexivity.
Defined.


(** ** Releases, late releases and sends *)

Lemma keeps_keys_refl cm : keeps_keys cm cm.
Proof. intros ty H. exact H. Qed.

Lemma keeps_keys_insert cm ty l types :
  keeps_keys cm (mk (<[ty := l]> (active_connections cm)) types).
Proof.
  intros k Hk. cbn [active_connections].
  destruct (decide (ty = k)) as [-> | Hne].
  - rewrite lookup_insert_eq. discriminate.
  - rewrite lookup_insert_ne by exact Hne. exact Hk.
Qed.

Lemma evict_keeps role ty cm cm' o :
  evict role ty cm = Ok (cm', o) ->
  keeps_keys cm cm' /\ connection_types cm' = connection_types cm.
Proof.
  unfold evict. destruct (String.eqb ty role).
  - destruct (active_connections cm !! role) as [[|x l]|]; intros [= <- <-].
    + split; [apply keeps_keys_refl | reflexivity].
    + split; [apply keeps_keys_insert | reflexivity].
  - intros [= <- <-]. split; [apply keeps_keys_refl | reflexivity].
Qed.

Lemma typed_keeps cm cm' :
  typed cm -> keeps_keys cm cm' ->
  connection_types cm' = connection_types cm -> typed cm'.
Proof.
  intros Ht Hk Hty ws ty Hws. rewrite Hty in Hws. exact (Hk _ (Ht _ _ Hws)).
Qed.

Lemma connect_typed ws ty cm : typed cm -> typed (fst (fst (connect ws ty cm))).
Proof.
  intros Ht. unfold connect.
  destruct (evict "call" ty cm) as [[cm1 o1]|e] eqn:E1; [|exact Ht].
  destruct (evict_keeps _ _ _ _ _ E1) as (Hk1 & Hty1).
  pose proof (typed_keeps _ _ Ht Hk1 Hty1) as Ht1.
  destruct (evict "logs" ty cm1) as [[cm2 o2]|e] eqn:E2; [|exact Ht1].
  destruct (evict_keeps _ _ _ _ _ E2) as (Hk2 & Hty2).
  pose proof (typed_keeps _ _ Ht1 Hk2 Hty2) as Ht2.
  destruct (active_connections cm2 !! ty) as [l|] eqn:Hl; [|exact Ht2].
  cbn [fst]. intros ws' ty' Hws'. cbn [connection_types active_connections] in *.
  destruct (decide (ws = ws')) as [<- | Hne].
  - rewrite lookup_insert_eq in Hws'. injection Hws' as <-.
    rewrite lookup_insert_eq. discriminate.
  - rewrite lookup_insert_ne in Hws' by exact Hne.
    apply (keeps_keys_insert cm2 ty (l ++ [ws]) (connection_types cm2)).
    exact (Ht2 _ _ Hws').
Qed.

Lemma disconnect_cases ws cm :
  typed cm ->
  (disconnect ws cm = (cm, Ok tt)
   /\ forall ty l, connection_types cm !! ws = Some ty ->
                   active_connections cm !! ty = Some l ->
                   ty = "" \/ existsb (Nat.eqb ws) l = false)
  \/ exists ty l,
       connection_types cm !! ws = Some ty
       /\ active_connections cm !! ty = Some l
       /\ existsb (Nat.eqb ws) l = true
       /\ disconnect ws cm
          = (mk (<[ty := remove_first ws l]> (active_connections cm))
                (delete ws (connection_types cm)), Ok tt).
Proof.
  intros Ht. unfold disconnect.
  destruct (connection_types cm !! ws) as [ty|] eqn:Hty.
  2: { left. split; [reflexivity|]. intros ty l Hty'. discriminate. }
  pose proof (Ht ws ty Hty) as Hsome.
  destruct (String.eqb ty "") eqn:Hempty.
  { left. split; [reflexivity|]. intros ty' l [= <-] _. left.
    now apply String.eqb_eq. }
  destruct (active_connections cm !! ty) as [l|] eqn:Hl; [|now destruct Hsome].
  destruct (existsb (Nat.eqb ws) l) eqn:Hin.
  - right. exists ty, l. now repeat split.
  - left. split; [reflexivity|]. intros ty' l' [= <-] Hl'. right.
    now rewrite <- (lookup_agree _ _ _ Hl Hl').
Qed.

Lemma disconnect_ok ws cm : typed cm -> snd (disconnect ws cm) = Ok tt.
Proof.
  intros Ht. destruct (disconnect_cases ws cm Ht)
    as [(-> & _) | (ty & l & _ & _ & _ & ->)]; reflexivity.
Qed.

Lemma disconnect_typed ws cm : typed cm -> typed (fst (disconnect ws cm)).
Proof.
  intros Ht. destruct (disconnect_cases ws cm Ht)
    as [(-> & _) | (ty & l & _ & _ & _ & ->)]; [exact Ht|].
  cbn [fst]. intros ws' ty' Hws'. cbn [connection_types active_connections] in *.
  destruct (decide (ws = ws')) as [<- | Hne].
  - now rewrite lookup_delete_eq in Hws'.
  - rewrite lookup_delete_ne in Hws' by exact Hne.
    apply (keeps_keys_insert cm ty (remove_first ws l) (connection_types cm)).
    exact (Ht _ _ Hws').
Qed.

Lemma step_typed cm o : typed cm -> typed (step cm o).
Proof.
  intros Ht. destruct o as [ws ty | ws]; cbn [step].
  - now apply connect_typed.
  - now apply disconnect_typed.
Qed.

Lemma run_typed ops cm : typed cm -> typed (run ops cm).
Proof.
  revert cm. induction ops as [|o ops IH]; intros cm Hcm; [exact Hcm|].
  cbn [run fold_left]. apply IH, step_typed, Hcm.
Qed.

Lemma new_typed : typed new.
Proof.
  intros ws ty H. unfold new in H. cbn [connection_types] in H.
  now rewrite lookup_empty in H.
Qed.

Lemma remove_first_absent ws l :
  existsb (Nat.eqb ws) l = false -> remove_first ws l = l.
Proof.
  induction l as [|x l IH]; [reflexivity|]. cbn [existsb remove_first].
  destruct (Nat.eqb ws x); [discriminate|]. cbn [orb]. intros H.
  now rewrite IH.
Qed.

Lemma count_after_release ws cm role :
  typed cm ->
  (get_connection_count role (fst (disconnect ws cm))
   <= get_connection_count role cm)%nat.
Proof.
  intros Ht. destruct (disconnect_cases ws cm Ht)
    as [(-> & _) | (ty & l & _ & Hl & _ & ->)]; [cbn [fst]; lia|].
  cbn [fst]. unfold get_connection_count. cbn [active_connections].
  destruct (decide (ty = role)) as [-> | Hne].
  - rewrite lookup_insert_eq.
    replace (active_connections cm !! role) with (Some l)
      by (symmetry; exact Hl).
    cbn [default]. apply length_remove_first.
  - rewrite lookup_insert_ne by exact Hne. lia.
Qed.

(** X22.  Releasing a connection on a registry reached from a fresh one by
    accepts and releases never raises, never makes a role grow and keeps
    the single-occupancy invariant; releasing the same connection again
    changes nothing. *)
Theorem release_is_safe_and_idempotent (ops : list op) (ws : WebSocket)
    (role : string) :
  let cm := run ops new in
  let r := disconnect ws cm in
  snd r = Ok tt
  /\ disconnect ws (fst r) = (fst r, Ok tt)
  /\ (get_connection_count role (fst r) <= get_connection_count role cm)%nat
  /\ single_occupancy (fst r).
Proof.
  intros cm r.
  assert (Ht : typed cm) by apply run_typed, new_typed.
  assert (Hs : single_occupancy cm)
    by apply run_single_occupancy, new_single_occupancy.
  split; [now apply disconnect_ok|]. split; [|split].
  - unfold r. destruct (disconnect_cases ws cm Ht)
      as [(E & _) | (ty & l & _ & _ & _ & E)]; rewrite E; cbn [fst]; [exact E|].
    unfold disconnect. cbn [connection_types].
    now rewrite lookup_delete_eq.
  - now apply count_after_release.
  - exact (step_single_occupancy cm (Release ws) Hs).
Qed.

Lemma connect_registers ws role cm :
  is_role role -> single_occupancy cm -> typed cm ->
  exists olds cm',
    active_connections cm !! role = Some olds
    /\ connect ws role cm = (cm', SocketAccept ws :: map SocketClose olds, Ok tt)
    /\ active_connections cm' !! role = Some [ws]
    /\ connection_types cm' = <[ws := role]> (connection_types cm)
    /\ (forall ty, ty <> role ->
                   active_connections cm' !! ty = active_connections cm !! ty)
    /\ single_occupancy cm' /\ typed cm'.
Proof.
  intros Hrole Hs Ht.
  destruct (connect_role ws role cm Hrole Hs) as (olds & cm' & Ho & E & Hnew & Hs').
  exists olds, cm'. split; [exact Ho|]. split; [exact E|]. split; [exact Hnew|].
  pose proof (connect_typed ws role cm Ht) as Ht'. rewrite E in Ht'. cbn [fst] in Ht'.
  assert (Hrest : connection_types cm' = <[ws := role]> (connection_types cm)
                  /\ forall ty, ty <> role ->
                       active_connections cm' !! ty = active_connections cm !! ty).
  { revert E. unfold connect, evict.
    destruct Hs as (lc & ll & Hc & Hl & _).
    destruct Hrole as [-> | ->].
    - change (String.eqb "call" "call") with true.
      change (String.eqb "call" "logs") with false. cbv iota.
      rewrite Hc. destruct lc as [|x lc].
      + rewrite Hc. intros [= <- _]. cbn [connection_types active_connections].
        split; [reflexivity|]. intros ty Hne. now rewrite lookup_insert_ne.
      + cbn [active_connections]. rewrite lookup_insert_eq.
        intros [= <- _]. cbn [connection_types active_connections].
        split; [reflexivity|]. intros ty Hne.
        now rewrite !lookup_insert_ne by congruence.
    - change (String.eqb "logs" "call") with false.
      change (String.eqb "logs" "logs") with true. cbv iota.
      rewrite Hl. destruct ll as [|x ll].
      + rewrite Hl. intros [= <- _]. cbn [connection_types active_connections].
        split; [reflexivity|]. intros ty Hne. now rewrite lookup_insert_ne.
      + cbn [active_connections]. rewrite lookup_insert_eq.
        intros [= <- _]. cbn [connection_types active_connections].
        split; [reflexivity|]. intros ty Hne.
        now rewrite !lookup_insert_ne by congruence. }
  destruct Hrest as (Hty & Hother). now repeat split.
Qed.

Lemma accept_then_release ws role cm :
  is_role role -> single_occupancy cm -> typed cm ->
  exists olds cm1 cm2,
    active_connections cm !! role = Some olds
    /\ connect ws role cm = (cm1, SocketAccept ws :: map SocketClose olds, Ok tt)
    /\ disconnect ws cm1 = (cm2, Ok tt)
    /\ active_connections cm2 !! role = Some []
    /\ connection_types cm2 !! ws = None
    /\ (forall ty, ty <> role ->
                   active_connections cm2 !! ty = active_connections cm !! ty)
    /\ single_occupancy cm2 /\ typed cm2.
Proof.
  intros Hrole Hs Ht.
  destruct (connect_registers ws role cm Hrole Hs Ht)
    as (olds & cm1 & Ho & E & Hnew & Hty & Hother & Hs1 & Ht1).
  exists olds, cm1. eexists. split; [exact Ho|]. split; [exact E|].
  assert (Hne : String.eqb role "" = false) by now destruct Hrole as [-> | ->].
  assert (Hd : disconnect ws cm1
               = (mk (<[role := []]> (active_connections cm1))
                     (delete ws (connection_types cm1)), Ok tt)).
  { unfold disconnect. rewrite Hty, lookup_insert_eq, Hne.
    replace (active_connections cm1 !! role) with (Some [ws])
      by (symmetry; exact Hnew).
    cbn [existsb remove_first]. now rewrite Nat.eqb_refl. }
  split; [exact Hd|]. cbn [active_connections connection_types].
  split; [apply lookup_insert_eq|]. split; [apply lookup_delete_eq|]. split.
  { intros ty Hty'. rewrite lookup_insert_ne by congruence. now apply Hother. }
  split.
  - pose proof (step_single_occupancy cm1 (Release ws) Hs1) as H.
    cbn [step] in H. now rewrite Hd in H.
  - pose proof (disconnect_typed ws cm1 Ht1) as H. now rewrite Hd in H.
Qed.

Lemma release_other ws_new ws_old role cm :
  is_role role -> ws_old <> ws_new -> single_occupancy cm -> typed cm ->
  let cm1 := fst (fst (connect ws_new role cm)) in
  get_active_connection role (fst (disconnect ws_old cm1)) = Some ws_new
  /\ snd (disconnect ws_old cm1) = Ok tt
  /\ get_active_connection role (fst (disconnect ws_new cm1)) = None.
Proof.
  intros Hrole Hne Hs Ht cm1.
  destruct (accept_then_release ws_new role _ Hrole Hs Ht)
    as (olds & cm1' & cm2 & _ & E & Hd & Hempty & _).
  destruct (connect_registers ws_new role _ Hrole Hs Ht)
    as (olds' & cm1'' & _ & E' & Hnew & _ & _ & _ & Ht1).
  rewrite E in E'. injection E' as <- _.
  assert (Hcm1 : cm1 = cm1') by (unfold cm1; now rewrite E).
  rewrite Hcm1. split; [|split].
  - unfold get_active_connection.
    destruct (disconnect_cases ws_old cm1' Ht1)
      as [(-> & _) | (ty & l & _ & Hl & Hin & ->)]; cbn [fst].
    + now rewrite Hnew.
    + cbn [active_connections].
      destruct (decide (ty = role)) as [-> | Hty].
      * pose proof (lookup_agree _ _ _ Hl Hnew) as ->.
        cbn [existsb] in Hin. rewrite orb_false_r in Hin.
        apply Nat.eqb_eq in Hin. contradiction.
      * rewrite lookup_insert_ne by exact Hty. now rewrite Hnew.
  - now apply disconnect_ok.
  - rewrite Hd. cbn [fst]. unfold get_active_connection. now rewrite Hempty.
Qed.

(** X23.  A release that comes late does no harm to the registry: once a
    role has a new connection, releasing any other connection, the evicted
    one included, leaves the new connection the role's active one; and
    releasing the new connection itself empties the role. *)
Theorem late_release_keeps_newer_connection (ops : list op) (role : string)
    (ws_new ws_old : WebSocket) :
  is_role role -> ws_old <> ws_new ->
  let cm1 := fst (fst (connect ws_new role (run ops new))) in
  get_active_connection role (fst (disconnect ws_old cm1)) = Some ws_new
  /\ snd (disconnect ws_old cm1) = Ok tt
  /\ get_active_connection role (fst (disconnect ws_new cm1)) = None.
Proof.
  intros Hrole Hne.
  apply release_other; auto.
  - apply run_single_occupancy, new_single_occupancy.
  - apply run_typed, new_typed.
Qed.

Lemma disconnect_each_ok l :
  forall cm, typed cm -> single_occupancy cm ->
    snd (disconnect_each l cm) = Ok tt
    /\ typed (fst (disconnect_each l cm))
    /\ single_occupancy (fst (disconnect_each l cm)).
Proof.
  induction l as [|ws l IH]; intros cm Ht Hs; cbn [disconnect_each].
  - now repeat split.
  - pose proof (disconnect_ok ws cm Ht) as Hok.
    pose proof (disconnect_typed ws cm Ht) as Ht'.
    pose proof (step_single_occupancy cm (Release ws) Hs) as Hs'.
    cbn [step] in Hs'.
    destruct (disconnect ws cm) as [cm' r]. cbn [fst snd] in *. subst r.
    now apply IH.
Qed.

Lemma filter_none (fails : WebSocket -> bool) l :
  Forall (fun ws => fails ws = false) l -> List.filter fails l = [].
Proof.
  induction l as [|x l IH]; intros H; [reflexivity|].
  inversion H as [|? ? Hx Hl]; subst. cbn [List.filter]. rewrite Hx.
  now apply IH.
Qed.

(** X24.  [broadcast_to_type] on a registry reached from a fresh one: it
    never raises; every connection of the type is sent the message once, in
    order, which for a role is at most one message; a type that is no key
    of [active_connections] gets nothing; and when no send fails the
    registry is unchanged, otherwise it still satisfies single
    occupancy. *)
Theorem broadcast_reaches_every_connection (ops : list op)
    (fails : WebSocket -> bool) (connection_type message : string) :
  let cm := run ops new in
  let r := broadcast_to_type fails connection_type message cm in
  snd r = Ok tt
  /\ snd (fst r)
     = map (fun ws => (ws, message))
         (default [] (active_connections cm !! connection_type))
  /\ (is_role connection_type -> (length (snd (fst r)) <= 1)%nat)
  /\ (Forall (fun ws => fails ws = false)
        (default [] (active_connections cm !! connection_type)) ->
      fst (fst r) = cm)
  /\ single_occupancy (fst (fst r)).
Proof.
  intros cm r.
  assert (Ht : typed cm) by apply run_typed, new_typed.
  assert (Hs : single_occupancy cm)
    by apply run_single_occupancy, new_single_occupancy.
  unfold r, broadcast_to_type.
  destruct (active_connections cm !! connection_type) as [l|] eqn:Hl;
    cbn [default].
  2: { cbn [fst snd map length]. repeat split; auto. }
  destruct (disconnect_each_ok (List.filter fails l) cm Ht Hs) as (Hok & _ & Hs').
  destruct (disconnect_each (List.filter fails l) cm) as [cm' r'] eqn:E.
  cbn [fst snd] in *. split; [exact Hok|]. split; [reflexivity|]. split.
  { intros Hrole. rewrite length_map.
    destruct Hs as (lc & ll & Hc & Hll & Hlc & Hlll).
    destruct Hrole as [-> | ->];
      [pose proof (lookup_agree _ _ _ Hl Hc) as ->
      |pose proof (lookup_agree _ _ _ Hl Hll) as ->]; assumption. }
  split; [|exact Hs'].
  intros Hnone.
  assert (Hf : List.filter fails l = []).
  { apply filter_none. exact Hnone. }
  rewrite Hf in E. cbn [disconnect_each] in E. now injection E as <- _.
Qed.

(** X25.  [send_to_connection] to the connection a role has just accepted:
    one call of [send_text], no exception in either case; when the send
    succeeds the registry is unchanged, and when it fails the connection is
    released, so that the role is empty again. *)
Theorem failed_send_releases_connection (ops : list op)
    (fails : WebSocket -> bool) (role message : string) (ws : WebSocket) :
  is_role role ->
  let cm1 := fst (fst (connect ws role (run ops new))) in
  let r := send_to_connection fails ws message cm1 in
  snd r = Ok tt
  /\ snd (fst r) = [(ws, message)]
  /\ get_active_connection role (fst (fst r))
     = (if fails ws then None else Some ws)
  /\ (fails ws = false -> fst (fst r) = cm1).
Proof.
  intros Hrole cm1 r.
  assert (Ht : typed (run ops new)) by apply run_typed, new_typed.
  assert (Hs : single_occupancy (run ops new))
    by apply run_single_occupancy, new_single_occupancy.
  destruct (accept_then_release ws role _ Hrole Hs Ht)
    as (olds & cm1' & cm2 & _ & E & Hd & Hempty & _).
  destruct (connect_registers ws role _ Hrole Hs Ht)
    as (olds' & cm1'' & _ & E' & Hnew & _).
  rewrite E in E'. injection E' as <- _.
  assert (Hcm1 : cm1 = cm1') by (unfold cm1; now rewrite E).
  unfold r, send_to_connection. rewrite Hcm1.
  destruct (fails ws).
  - rewrite Hd. cbn [fst snd]. unfold get_active_connection. rewrite Hempty.
    repeat split; auto. discriminate.
  - cbn [fst snd]. unfold get_active_connection. rewrite Hnew.
    repeat split; auto.
Qed.
End ConnectionManagerProps.


(** ** Witnesses and examples *)

Lemma speech_started_without_item_is_noop_witness :
  let s := sample_session
             (mkSessionState (PStr "MZ1") (Some 1000) None (PStr "a1") PNone) in
  _handle_speech_started s = (s, [], Ok tt).
Proof.
  apply speech_started_without_item_is_noop. right. reflexivity.
Defined.




Lemma barge_in_scenario_witness :
  let s := mkSessionManager SessionState_default (Some 1%nat) None None in
  let s1 := final (handle_twilio_message sample_json_loads sample_float_repr
                     sample_service (start_message "MZ1") OpenFails s) in
  let s2 := final (handle_twilio_message sample_json_loads sample_float_repr
                     sample_service (media_chunk (PStr "1000") (PStr "AAAA"))
                     OpenFails s1) in
  let r3 := handle_openai_message sample_json_loads sample_float_repr
              sample_service (audio_delta "a1" "BBBB") s2 in
  let r4 := handle_openai_message sample_json_loads sample_float_repr
              sample_service speech_started (final r3) in
  response_start_timestamp (state (final r3)) = Some 1000
  /\ commands (output r4)
     = [SendMessage (truncate_message (PStr "a1") 0);
        TwilioSend 1%nat (clear_message (PStr "MZ1"))].
Proof.
  intros s s1 s2 r3 r4.
  destruct (barge_in_scenario sample_json_loads sample_float_repr sample_service
              s 1%nat "MZ1" OpenFails OpenFails (PStr "1000") (PStr "AAAA") "BBBB"
              eq_refl ltac:(discriminate) I eq_refl)
    as (_ & _ & H3 & _ & _ & H6 & _).
  split; assumption.
Defined.

Lemma tool_call_error_still_answers_witness :
  exists text,
    handle_function_call sample_json_loads sample_float_repr sample_service
      (PStr "get_weather_from_coords") (PStr "{not json") = Ok text
    /\ Json.is_object_with_key "error" text
    /\ forall s c,
         openai_client s = Some c ->
         let r := handle_openai_message sample_json_loads sample_float_repr
                    sample_service
                    (output_item_done
                       (function_call_item "get_weather_from_coords" "{not json"
                          (PStr "call_1"))) s in
         outcome r = Ok tt
         /\ commands (output r)
            = [SendMessage (function_call_output_message (PStr "call_1") text);
               SendMessage response_create_message].
Proof.
  apply tool_call_error_still_answers. right. reflexivity.
Defined.

(** C6 as stated fails without a speech-endpoint client: the arguments are
    unreadable, the service returns its error text, and the bridge hands
    out nothing but the observer's copy of the event. *)
Lemma tool_call_without_client_sends_nothing :
  let s := mkSessionManager SessionState_default (Some 1%nat) (Some 2%nat) None in
  let message := output_item_done
                   (function_call_item "get_weather_from_coords" "{not json"
                      (PStr "call_1")) in
  handle_function_call sample_json_loads sample_float_repr sample_service
    (PStr "get_weather_from_coords") (PStr "{not json")
  = Ok (Json.dumps_error "Invalid JSON arguments for function call")
  /\ handle_openai_message sample_json_loads sample_float_repr sample_service
       message s
     = (s, [FrontendSend 2%nat message], Ok tt).
Proof. split; reflexivity. Qed.

(** A registered function called with arguments nested a thousand arrays
    deep: the decoder raises [RecursionError], which the service does not
    catch; the bridge logs the error and the client is handed nothing. *)
Example tool_call_deep_arguments_unanswered :
  let message := output_item_done
                   (function_call_item "get_weather_from_coords" deep_text
                      (PStr "call_1")) in
  let r := handle_openai_message sample_json_loads sample_float_repr
             sample_service message (sample_session SessionState_default) in
  handle_function_call sample_json_loads sample_float_repr sample_service
    (PStr "get_weather_from_coords") (PStr deep_text)
  = Raise RecursionError
  /\ outcome r = Ok tt
  /\ final r = sample_session SessionState_default
  /\ commands (output r) = []
  /\ In (LogError "Error handling function call") (output r).
Proof.
  intros message r.
  exact (tool_call_decoder_exception_unanswered sample_json_loads
           sample_float_repr sample_service SessionState_default (Some 1%nat)
           (Some 2%nat) (Some sample_client) "get_weather_from_coords"
           deep_text (PStr "call_1") (_get_weather_handler sample_weather_lookup)
           RecursionError (lookup_insert_eq _ _ _) eq_refl).
Qed.


(** The loop of a client with a budget of 2000 attempts, entered after 1024
    failed attempts: the delay of attempt 1025 cannot be computed, the loop
    raises with the counter at 1025, and neither sleeps nor attempts. *)
Example reconnect_attempt_1025_raises :
  _reconnect_loop sample_json_loads sample_float_repr sample_service
    [Woke OpenFails]
    (mkSessionManager SessionState_default None None (Some (patient_client 1024)))
  = (mkSessionManager SessionState_default None None
       (Some (set_reconnect_task (Some TaskDone) (patient_client 1025))),
     [], Raise OverflowError).
Proof. reflexivity. Qed.

(** The delays of the client as the session manager configures it, over
    the ten attempts of its budget. *)
Example configured_delay_sequence :
  sleeps (output (_reconnect_loop sample_json_loads sample_float_repr
                    sample_service (repeat (Woke OpenFails) 10)
                    (mkSessionManager SessionState_default None None
                       (Some reconnecting_client))))
  = [2; 4; 8; 16; 32; 60; 60; 60; 60; 60]%Q.
Proof. reflexivity. Qed.


(** The transport opens, one audio delta arrives and the peer closes:
    [connect] returns success, the delta was forwarded before the session
    configuration was handed to [send_message], nothing reached the wire,
    and the client ends disconnected. *)
Example connect_listens_before_configuring :
  let r := connect sample_json_loads sample_float_repr sample_service
             (Opened [Decoded (audio_delta "a1" "AAAA")] ClosedOK) in_call in
  outcome r = Ok true
  /\ commands (output r)
     = [TwilioSend 1%nat (media_message (PStr "MZ1") (PStr "AAAA"));
        TwilioSend 1%nat (mark_message (PStr "MZ1"));
        SendMessage
          (session_update_message (PDict OpenAISessionConfig_defaults))]
  /\ on_wire (output r) = []
  /\ option_map is_connected (openai_client (final r)) = Some false.
Proof. repeat split. Qed.

(** A media frame whose timestamp is the number 1e999. *)
Example media_timestamp_infinity :
  handle_twilio_message sample_json_loads sample_float_repr sample_service
    (media_chunk (PFloat (FInf false)) (PStr "AAAA")) OpenFails in_call
  = (in_call, [], Raise OverflowError).
Proof. reflexivity. Qed.

(** Timestamps that are coerced. *)
Example safe_int_examples :
  _safe_int (PStr "1000") = Ok 1000
  /\ _safe_int (PInt 1000) = Ok 1000
  /\ _safe_int (PStr "abc") = Ok 0
  /\ _safe_int (PStr "") = Ok 0
  /\ _safe_int PNone = Ok 0
  /\ _safe_int (PList []) = Ok 0
  /\ _safe_int (PFloat FNaN) = Ok 0
  /\ _safe_int (PFloat (FFinite 2001 (-1))) = Ok 1000.
Proof. repeat split. Qed.

(** A chunk without a timestamp field. *)
Example media_without_timestamp :
  latest_media_timestamp
    (state (final (handle_twilio_message sample_json_loads sample_float_repr
                     sample_service
                     (PDict [("event", PStr "media");
                             ("media", PDict [("payload", PStr "AAAA")])])
                     OpenFails
                     (sample_session
                        (mkSessionState (PStr "MZ1") (Some 40) None PNone PNone)))))
  = Some 0.
Proof. reflexivity. Qed.

Example int_of_string_plain : int_of_string "1000" = Some 1000.
Proof. reflexivity. Qed.
Example int_of_string_padded : int_of_string "  -1_0 " = Some (-10).
Proof. reflexivity. Qed.
Example int_of_string_bad : int_of_string "12a" = None.
Proof. reflexivity. Qed.
Example int_of_string_empty : int_of_string "" = None.
Proof. reflexivity. Qed.

(** * The dispatchers over the registry and the session *)

Section Dispatchers.

Variable json_loads : string -> decoding.
Variable float_repr : pyfloat -> string.
Variable function_handler_service : FunctionHandlerService.

Lemma handle_twilio_connection_run ws st tw fe oc :
  handle_twilio_connection ws (mkSessionManager st tw fe oc)
  = (mkSessionManager st (Some ws) fe oc,
     match tw with Some old => [SocketClose old] | None => [] end, Ok tt).
Proof. now destruct tw. Qed.

Lemma handle_frontend_connection_run ws st tw fe oc :
  handle_frontend_connection ws (mkSessionManager st tw fe oc)
  = (mkSessionManager st tw (Some ws) oc,
     match fe with Some old => [SocketClose old] | None => [] end, Ok tt).
Proof. now destruct fe. Qed.

(** X26.  One run of the call dispatcher on a registry reached from a
    fresh one, whatever frames it receives, however its reads end and
    whatever the handlers do: it does not raise, the session manager ends
    as a fresh one, the telephony socket has been closed, and the registry
    holds no call connection while its logs role is as before. *)
Theorem call_dispatcher_always_tears_down (ops : list ConnectionManager.op)
    (websocket : WebSocket) (frames : list (decoding * opening))
    (ending : receive_end) (sm : SessionManager) :
  let cm := ConnectionManager.run ops ConnectionManager.new in
  let '(cm', sm', o, r) :=
    handle_call_connection json_loads float_repr function_handler_service
      websocket frames ending cm sm in
  r = Ok tt
  /\ sm' = SessionManager_new
  /\ In (SocketClose websocket) o
  /\ ConnectionManager.get_active_connection "call" cm' = None
  /\ ConnectionManager.active_connections cm' !! "logs"
     = ConnectionManager.active_connections cm !! "logs".
Proof.
  intros cm.
  assert (Ht : ConnectionManager.typed cm)
    by apply ConnectionManagerProps.run_typed, ConnectionManagerProps.new_typed.
  assert (Hs : ConnectionManager.single_occupancy cm)
    by apply ConnectionManagerProps.run_single_occupancy,
             ConnectionManagerProps.new_single_occupancy.
  destruct (ConnectionManagerProps.accept_then_release websocket "call" cm
              (or_introl eq_refl) Hs Ht)
    as (olds & cm1 & cm2 & _ & E & Hd & Hempty & _ & Hother & _).
  unfold handle_call_connection. rewrite E.
  destruct sm as [st tw fe oc].
  pose proof (handle_twilio_connection_run websocket st tw fe oc) as E1.
  destruct (call_frames_leg json_loads float_repr function_handler_service
              frames st (Some websocket) fe oc)
    as (st2 & tw2 & fe2 & oc2 & o2 & r2 & E2 & Hleg).
  assert (Etry :
    bind (handle_twilio_connection websocket)
      (fun _ => call_frames json_loads float_repr function_handler_service frames)
      (mkSessionManager st tw fe oc)
    = (mkSessionManager st2 tw2 fe2 oc2,
       match tw with Some old => [SocketClose old] | None => [] end ++ o2, r2)).
  { rewrite (bind_run _ _ _ _ _ _ E1), E2. reflexivity. }
  rewrite Etry. unfold call_finally. rewrite Hd, disconnect_all_run.
  cbn [twilio_websocket frontend_websocket openai_client].
  split; [reflexivity|]. split; [reflexivity|]. split.
  { right. apply in_or_app. right.
    destruct Hleg as [-> | (-> & Hclosed)].
    - apply in_or_app. right. now left.
    - apply in_or_app. left. apply in_or_app. left. apply in_or_app. right.
      now apply Hclosed. }
  split.
  - unfold ConnectionManager.get_active_connection. now rewrite Hempty.
  - now apply Hother.
Qed.

(** X27.  One run of the logs dispatcher on a registry reached from a
    fresh one: it does not raise and releases its registry entry, and it
    leaves the call alone: the telephony leg and the stream fields of the
    session state are as before, and the registry's call role too.  The
    session manager keeps the observer socket as its observer leg after the
    dispatcher has ended. *)
Theorem logs_dispatcher_leaves_the_call_alone (ops : list ConnectionManager.op)
    (websocket : WebSocket) (frames : list decoding)
    (ending : receive_end) st tw fe oc :
  let cm := ConnectionManager.run ops ConnectionManager.new in
  let '(cm', sm', o, r) :=
    handle_logs_connection websocket frames ending cm
      (mkSessionManager st tw fe oc) in
  r = Ok tt
  /\ twilio_websocket sm' = tw
  /\ same_stream st (state sm')
  /\ frontend_websocket sm' = Some websocket
  /\ ConnectionManager.get_active_connection "logs" cm' = None
  /\ ConnectionManager.active_connections cm' !! "call"
     = ConnectionManager.active_connections cm !! "call".
Proof.
  intros cm.
  assert (Ht : ConnectionManager.typed cm)
    by apply ConnectionManagerProps.run_typed, ConnectionManagerProps.new_typed.
  assert (Hs : ConnectionManager.single_occupancy cm)
    by apply ConnectionManagerProps.run_single_occupancy,
             ConnectionManagerProps.new_single_occupancy.
  destruct (ConnectionManagerProps.accept_then_release websocket "logs" cm
              (or_intror eq_refl) Hs Ht)
    as (olds & cm1 & cm2 & _ & E & Hd & Hempty & _ & Hother & _).
  unfold handle_logs_connection. rewrite E.
  pose proof (handle_frontend_connection_run websocket st tw fe oc) as E1.
  destruct (logs_frames_keep_stream frames st tw (Some websocket) oc)
    as (st2 & oc2 & o2 & r2 & E2 & Hst).
  assert (Etry :
    bind (handle_frontend_connection websocket) (fun _ => logs_frames frames)
      (mkSessionManager st tw fe oc)
    = (mkSessionManager st2 tw (Some websocket) oc2,
       match fe with Some old => [SocketClose old] | None => [] end ++ o2, r2)).
  { rewrite (bind_run _ _ _ _ _ _ E1), E2. reflexivity. }
  rewrite Etry, Hd. cbn [state twilio_websocket frontend_websocket].
  split; [reflexivity|]. split; [reflexivity|]. split; [exact Hst|].
  split; [reflexivity|]. split.
  - unfold ConnectionManager.get_active_connection. now rewrite Hempty.
  - now apply Hother.
Qed.

End Dispatchers.

(** X28.  The teardown of a call dispatcher is not scoped to its own
    connection.  When a second call has been accepted while the first
    dispatcher still runs, the first one's [finally] block finds its
    connection already evicted, so the registry keeps the new call as the
    active one; yet [disconnect_all] closes the new call's socket, which is
    by then the telephony leg, and resets the session manager the new call
    is using, whatever state that call has reached. *)
Theorem evicted_dispatcher_tears_down_new_call (ops : list ConnectionManager.op)
    (ws_old ws_new : WebSocket) (sm : SessionManager) :
  ws_old <> ws_new ->
  twilio_websocket sm = Some ws_new ->
  let cm0 := ConnectionManager.run ops ConnectionManager.new in
  let cm1 := fst (fst (ConnectionManager.connect ws_old "call" cm0)) in
  let cm2 := fst (fst (ConnectionManager.connect ws_new "call" cm1)) in
  let '(cm3, sm3, o, r) := call_finally ws_old cm2 sm in
  r = Ok tt
  /\ ConnectionManager.get_active_connection "call" cm3 = Some ws_new
  /\ sm3 = SessionManager_new
  /\ In (SocketClose ws_new) o.
Proof.
  intros Hne Hsm cm0 cm1 cm2.
  assert (Ht : ConnectionManager.typed cm1).
  { apply (ConnectionManagerProps.step_typed cm0
             (ConnectionManager.Accept ws_old "call")).
    apply ConnectionManagerProps.run_typed, ConnectionManagerProps.new_typed. }
  assert (Hs : ConnectionManager.single_occupancy cm1).
  { apply (ConnectionManagerProps.step_single_occupancy cm0
             (ConnectionManager.Accept ws_old "call")).
    apply ConnectionManagerProps.run_single_occupancy,
          ConnectionManagerProps.new_single_occupancy. }
  destruct (ConnectionManagerProps.release_other ws_new ws_old "call" cm1
              (or_introl eq_refl) Hne Hs Ht) as (Hactive & Hok & _).
  fold cm2 in Hactive, Hok.
  unfold call_finally.
  destruct (ConnectionManager.disconnect ws_old cm2) as [cm3 r3].
  cbn [fst snd] in Hactive, Hok. subst r3.
  rewrite disconnect_all_run, Hsm.
  split; [reflexivity|]. split; [exact Hactive|]. split; [reflexivity|].
  now left.
Qed.

(** * The health endpoint *)

(** X30.  The two connection health checks read attributes the singletons
    do not have, so each of them reports critical on every state of the
    registry and of the session manager, with the text of the
    [AttributeError]; the overall status of the health endpoint is
    therefore critical whatever the system check returns. *)
Theorem health_endpoint_always_critical (system : HealthCheck.HealthStatus)
    (cm : ConnectionManager.t) (sm : SessionManager) :
  HealthCheck.check_websocket_connections cm
  = HealthCheck.critical "websocket"
      "WebSocket health check failed: 'ConnectionManager' object has no attribute 'call_connections'"
  /\ HealthCheck.check_openai_connection sm
     = HealthCheck.critical "openai"
         "OpenAI health check failed: 'SessionManager' object has no attribute 'sessions'"
  /\ HealthCheck.overall_status "healthy" (HealthCheck.run_all_checks system cm sm)
     = "critical".
Proof.
  split; [reflexivity|]. split; [reflexivity|].
  unfold HealthCheck.run_all_checks. cbn [HealthCheck.overall_status].
  destruct (String.eqb (HealthCheck.status system) "critical"); [reflexivity|].
  now destruct (String.eqb (HealthCheck.status system) "warning").
Qed.

(** * Witnesses of the further properties *)

Lemma media_frames_track_last_timestamp_witness :
  let frames := [[("event", PStr "media");
                  ("media", PDict [("timestamp", PStr "1000");
                                   ("payload", PStr "AAAA")])];
                 [("event", PStr "media"); ("sequenceNumber", PStr "3")]] in
  let r := handle_media_frames sample_json_loads sample_float_repr
             sample_service (map PDict frames) OpenFails in_call in
  outcome r = Ok tt
  /\ latest_media_timestamp (state (final r)) = Some 0.
Proof.
  intros frames r.
  destruct (media_frames_track_last_timestamp sample_json_loads
              sample_float_repr sample_service OpenFails
              [[("event", PStr "media");
                ("media", PDict [("timestamp", PStr "1000");
                                 ("payload", PStr "AAAA")])]]
              [("event", PStr "media"); ("sequenceNumber", PStr "3")] in_call)
    as (Ho & z & Hz & H).
  - constructor.
    { split; [reflexivity|].
      exists [("timestamp", PStr "1000"); ("payload", PStr "AAAA")].
      split; [reflexivity | intros negative; discriminate]. }
    constructor; [|constructor].
    split; [reflexivity|]. exists [].
    split; [reflexivity | intros negative; discriminate].
  - split; [exact Ho|]. injection Hz as <-. exact H.
Defined.

Lemma media_chunk_forwarded_when_connected_witness :
  let media := [("timestamp", PInt 20); ("payload", PStr "AAAA")] in
  let r := handle_twilio_message sample_json_loads sample_float_repr
             sample_service (media_frame media) OpenFails
             (sample_session SessionState_default) in
  commands (output r) = [SendMessage (append_message (PStr "AAAA"))]
  /\ on_wire (output r) = [OpenAISend (append_message (PStr "AAAA"))]
  /\ latest_media_timestamp (state (final r)) = Some 20.
Proof.
  intros media r.
  destruct (media_chunk_forwarded_when_connected sample_json_loads
              sample_float_repr sample_service OpenFails SessionState_default
              (Some 1%nat) (Some 2%nat) (Some sample_client) media 20 eq_refl)
    as (_ & Hst & Hc & Hw).
  split; [exact Hc|]. split; [exact Hw|].
  exact (f_equal latest_media_timestamp Hst).
Defined.

Lemma audio_delta_ignored_without_stream_witness :
  let s := mkSessionManager SessionState_default (Some 1%nat) None None in
  _handle_audio_delta (audio_delta "a1" "AAAA") s = (s, [], Ok tt).
Proof.
  apply audio_delta_ignored_without_stream. right. reflexivity.
Defined.

Lemma audio_delta_effect_witness :
  let st := mkSessionState (PStr "MZ1") (Some 1000) None PNone PNone in
  let r := _handle_audio_delta
             (PDict [("item_id", PStr "a1"); ("delta", PStr "AAAA")])
             (mkSessionManager st (Some 1%nat) None None) in
  output r = [TwilioSend 1%nat (media_message (PStr "MZ1") (PStr "AAAA"));
              TwilioSend 1%nat (mark_message (PStr "MZ1"))]
  /\ response_start_timestamp (state (final r)) = Some 1000
  /\ last_assistant_item (state (final r)) = PStr "a1".
Proof.
  intros st r.
  destruct (audio_delta_effect [("item_id", PStr "a1"); ("delta", PStr "AAAA")]
              st 1%nat None None eq_refl) as (_ & Hf & Ho & _).
  split; [exact Ho|]. split.
  - exact (f_equal (fun s => response_start_timestamp (state s)) Hf).
  - exact (f_equal (fun s => last_assistant_item (state s)) Hf).
Defined.

Lemma cancelled_reconnect_makes_no_attempt_witness :
  let r := _reconnect_loop sample_json_loads sample_float_repr sample_service
             [Cancelled; Woke OpenFails]
             (mkSessionManager SessionState_default None None
                (Some reconnecting_client)) in
  outcome r = Ok LoopFinished
  /\ sleeps (output r) = [2%Q]
  /\ attempts (output r) = []
  /\ option_map current_reconnect_attempts (openai_client (final r)) = Some 1.
Proof.
  intros r.
  assert (Hexact : exact_delays reconnecting_client) by (split; discriminate).
  destruct (cancelled_reconnect_makes_no_attempt sample_json_loads
              sample_float_repr sample_service SessionState_default None None
              reconnecting_client [Woke OpenFails] eq_refl Hexact eq_refl)
    as (Hf & Ho & Hs & Ha).
  split; [exact Ho|]. split; [exact Hs|]. split; [exact Ha|].
  exact (f_equal (fun s => option_map current_reconnect_attempts
                             (openai_client s)) Hf).
Defined.

Lemma reconnect_loop_stops_at_first_success_witness :
  let r := _reconnect_loop sample_json_loads sample_float_repr sample_service
             (repeat (Woke OpenFails) 2
              ++ Woke (Opened [Decoded (audio_delta "a1" "AAAA")] ClosedOK)
                 :: [Woke OpenFails])
             (mkSessionManager SessionState_default None None
                (Some reconnecting_client)) in
  outcome r = Ok LoopFinished
  /\ sleeps (output r) = [2; 4; 8]%Q
  /\ length (attempts (output r)) = 3%nat.
Proof.
  intros r.
  destruct (reconnect_loop_stops_at_first_success sample_json_loads
              sample_float_repr sample_service SessionState_default None None
              reconnecting_client 2 [Decoded (audio_delta "a1" "AAAA")] ClosedOK
              [Woke OpenFails] (PDict OpenAISessionConfig_defaults))
    as (st' & c' & _ & Ho & Hs & Ha & _).
  - repeat split.
  - split; discriminate.
  - reflexivity.
  - reflexivity.
  - reflexivity.
  - split; [exact Ho|]. split; [exact Hs | exact Ha].
Defined.

Lemma start_without_connecting_witness :
  handle_twilio_message sample_json_loads sample_float_repr sample_service
    (start_frame []) (Opened [] ClosedOK)
    (mkSessionManager SessionState_default (Some 1%nat) None None)
  = (mkSessionManager (mkSessionState PNone (Some 0) None PNone PNone)
       (Some 1%nat) None None, [], Ok tt).
Proof.
  apply (start_without_connecting sample_json_loads sample_float_repr
           sample_service [] (Opened [] ClosedOK) SessionState_default).
  left. reflexivity.
Defined.

Lemma start_connects_configured_client_witness :
  let st := mkSessionState PNone None None PNone
              (PDict [("voice", PStr "alloy")]) in
  let r := handle_twilio_message sample_json_loads sample_float_repr
             sample_service (start_frame [("streamSid", PStr "MZ1")])
             (Opened [] ClosedOK) (mkSessionManager st (Some 1%nat) None None) in
  In (SendMessage (session_update_message alloy_session)) (output r)
  /\ attempts (output r) = [TransportOpened].
Proof.
  intros st r.
  destruct (start_connects_configured_client sample_json_loads
              sample_float_repr sample_service [("streamSid", PStr "MZ1")]
              (Opened [] ClosedOK) st (Some 1%nat) None None eq_refl)
    as (st' & c' & _ & _ & _ & Hnet).
  - intros c Hc. discriminate Hc.
  - exact (Hnet alloy_session eq_refl).
Defined.

Lemma tool_call_always_answered_witness :
  let r := handle_openai_message sample_json_loads sample_float_repr
             sample_service
             (output_item_done
                (function_call_item "get_weather_from_coords" "{}"
                   (PStr "call_1")))
             (sample_session SessionState_default) in
  outcome r = Ok tt
  /\ commands (output r)
     = [SendMessage
          (function_call_output_message (PStr "call_1")
             (Json.dumps_error "Missing latitude or longitude"));
        SendMessage response_create_message].
Proof.
  intros r.
  assert (Hanswerable : answerable_call sample_json_loads sample_service
                          "get_weather_from_coords" "{}").
  { right. intros e. discriminate. }
  destruct (tool_call_always_answered sample_json_loads sample_float_repr
              sample_service "get_weather_from_coords" "{}" (PStr "call_1")
              SessionState_default (Some 1%nat) (Some 2%nat) sample_client
              Hanswerable)
    as (text & Hcall & _ & Ho & Hc).
  change (Ok (Json.dumps_error "Missing latitude or longitude") = Ok text)
    in Hcall.
  injection Hcall as <-. split; [exact Ho | exact Hc].
Defined.

Lemma tool_call_failure_is_logged_and_dropped_witness :
  _handle_function_call sample_json_loads sample_float_repr sample_service
    (PDict [("type", PStr "function_call");
            ("name", PStr "get_weather_from_coords");
            ("arguments", PInt 5)])
    in_call
  = (in_call, [LogError "Error handling function call"], Ok tt).
Proof.
  apply (tool_call_failure_is_logged_and_dropped sample_json_loads
           sample_float_repr sample_service _ in_call TypeError).
  reflexivity.
Defined.

Lemma weather_call_requires_coordinates_witness :
  handle_function_call sample_json_loads sample_float_repr
    (FunctionHandlerService_new sample_weather_lookup)
    (PStr "get_weather_from_coords") (PStr "{}")
  = Ok (Json.dumps_error "Missing latitude or longitude").
Proof.
  exact (proj1 (weather_call_requires_coordinates sample_json_loads
                  sample_float_repr sample_weather_lookup "{}" (PDict [])
                  eq_refl)
           [] eq_refl (or_introl eq_refl)).
Defined.

Lemma registered_handler_is_called_witness :
  handle_function_call sample_json_loads sample_float_repr
    (register_function "echo" failing_handler sample_service)
    (PStr "echo") (PStr "{}")
  = Ok (Json.dumps_error "Error running function echo: boom").
Proof.
  exact (proj1 (registered_handler_is_called sample_json_loads
                  sample_float_repr "echo" "get_weather_from_coords"
                  failing_handler sample_service "{}" (PDict []) eq_refl)).
Defined.

Lemma late_release_keeps_newer_connection_witness :
  let cm1 := fst (fst (ConnectionManager.connect 3%nat "call"
                         (ConnectionManager.run
                            [ConnectionManager.Accept 1%nat "call"]
                            ConnectionManager.new))) in
  ConnectionManager.get_active_connection "call"
    (fst (ConnectionManager.disconnect 1%nat cm1)) = Some 3%nat
  /\ snd (ConnectionManager.disconnect 1%nat cm1) = Ok tt
  /\ ConnectionManager.get_active_connection "call"
       (fst (ConnectionManager.disconnect 3%nat cm1)) = None.
Proof.
  apply (ConnectionManagerProps.late_release_keeps_newer_connection
           [ConnectionManager.Accept 1%nat "call"] "call" 3%nat 1%nat).
  - left. reflexivity.
  - discriminate.
Defined.

Lemma failed_send_releases_connection_witness :
  let cm1 := fst (fst (ConnectionManager.connect 1%nat "logs"
                         (ConnectionManager.run [] ConnectionManager.new))) in
  let r := ConnectionManager.send_to_connection (Nat.eqb 1%nat) 1%nat "{}" cm1 in
  snd r = Ok tt
  /\ snd (fst r) = [(1%nat, "{}")]
  /\ ConnectionManager.get_active_connection "logs" (fst (fst r)) = None.
Proof.
  intros cm1 r.
  destruct (ConnectionManagerProps.failed_send_releases_connection []
              (Nat.eqb 1%nat) "logs" "{}" 1%nat (or_intror eq_refl))
    as (H1 & H2 & H3 & _).
  split; [exact H1|]. split; [exact H2 | exact H3].
Defined.

Lemma evicted_dispatcher_tears_down_new_call_witness :
  let sm := final (handle_twilio_connection 2%nat
                     (final (handle_twilio_connection 1%nat SessionManager_new))) in
  let cm0 := ConnectionManager.run [] ConnectionManager.new in
  let cm1 := fst (fst (ConnectionManager.connect 1%nat "call" cm0)) in
  let cm2 := fst (fst (ConnectionManager.connect 2%nat "call" cm1)) in
  let '(cm3, sm3, o, r) := call_finally 1%nat cm2 sm in
  r = Ok tt
  /\ ConnectionManager.get_active_connection "call" cm3 = Some 2%nat
  /\ sm3 = SessionManager_new
  /\ In (SocketClose 2%nat) o.
Proof.
  apply (evicted_dispatcher_tears_down_new_call [] 1%nat 2%nat).
  - discriminate.
  - reflexivity.
Defined.

(** * Further examples *)

(** The frames of a call that replaces an earlier one: the start frame
    opens a transport that then breaks, a media chunk, a text that is not
    JSON and the close event follow.  The sockets closed are the earlier
    call's, then the call's own and the observer's at the close event. *)
Example call_frames_run :
  let r :=
    bind (handle_twilio_connection 7%nat)
      (fun _ =>
         call_frames sample_json_loads sample_float_repr sample_service
           [(Decoded (start_frame [("streamSid", PStr "MZ1")]),
             Opened [Decoded (audio_delta "a1" "AAAA")] ClosedError);
            (Decoded (media_frame [("timestamp", PStr "20"); ("payload", PStr "xx")]),
             OpenFails);
            (JSONDecodeError, OpenFails);
            (Decoded (PDict [("event", PStr "close")]), OpenFails)])
      (mkSessionManager SessionState_default (Some 1%nat) (Some 2%nat) None) in
  outcome r = Ok tt
  /\ final r = SessionManager_new
  /\ closed_sockets (output r) = [1; 7; 2]%nat
  /\ commands (output r)
     = [TwilioSend 7%nat (media_message (PStr "MZ1") (PStr "AAAA"));
        TwilioSend 7%nat (mark_message (PStr "MZ1"));
        SendMessage (session_update_message (PDict OpenAISessionConfig_defaults))]
  /\ on_wire (output r) = [].
Proof. repeat split. Qed.

(** An observer that saves a configuration and then sends a JSON array:
    both are forwarded, the array ends the dispatcher, and the session
    manager keeps the observer's socket. *)
Example logs_dispatcher_run :
  let '(cm', sm', o, r) :=
    handle_logs_connection 9%nat
      [Decoded (session_update_frame (PDict [("voice", PStr "alloy")]));
       Decoded (PList [PInt 1]);
       Decoded (PDict [("type", PStr "response.create")])]
      PeerDisconnected
      (ConnectionManager.run [ConnectionManager.Accept 1%nat "call"]
         ConnectionManager.new)
      (sample_session SessionState_default) in
  r = Ok tt
  /\ commands o
     = [SendMessage (session_update_frame (PDict [("voice", PStr "alloy")]));
        SendMessage (PList [PInt 1])]
  /\ saved_config (state sm') = PDict [("voice", PStr "alloy")]
  /\ frontend_websocket sm' = Some 9%nat
  /\ ConnectionManager.get_active_connection "logs" cm' = None
  /\ ConnectionManager.get_active_connection "call" cm' = Some 1%nat.
Proof. repeat split. Qed.
